(** * LeVe Coach: the recommendation engine of engine.js, embedded in Rocq

    The development follows engine.js section by section (math utilities,
    e1RM, baselines, readiness, mesocycle, Vara feedback, return from break,
    default day plan, recommend) together with the helpers of data.js that
    recommend() calls (uid, todayISO, createDefaultMesocycle and the save
    functions).

    Conventions of the embedding:
    - a JavaScript number is an exact rational (Q); the engine only adds,
      multiplies, divides, compares and rounds, and all of that is done
      here on the exact value.  Counts that the code only compares or
      indexes with (week numbers, day counts, cap levels) are integers (Z);
    - [null] and [undefined] are [None]; [a ?? b] is [nullish], [a || b] is
      [orNum] / [orStr] (0 and the empty string are falsy);
    - an ISO date string such as 2026-02-25 is the record of its year, month
      and day; [new Date(s)] is the number of milliseconds since the epoch of
      that day at midnight UTC;
    - template literals and toFixed() keep the number they print:
      a text is a list of fragments ([Frag]);
    - [uid()] draws the next element of an identifier supply that the
      environment provides; the reads of the store (getSettings,
      getActiveMesocycle, getAllSessions, getAllSets) are the fields of
      [Store], the writes are logged in the run's state. *)

From Stdlib Require Import QArith Qabs Qround Qminmax ZArith String DecimalString List Bool Lia Lqa.
From Stdlib Require Import Permutation Sorted.
Import ListNotations.

Open Scope string_scope.
Open Scope Q_scope.

(* ================================================================= *)
(** ** JavaScript value helpers *)

(** [a ?? b] *)
Definition nullish {A : Type} (a : option A) (b : A) : A :=
  match a with Some x => x | None => b end.

(** [a || b] on numbers: null, undefined and 0 are falsy. *)
Definition orNum (a : option Q) (b : Q) : Q :=
  match a with
  | Some x => if Qeq_bool x 0 then b else x
  | None => b
  end.

(** [a || b] where [b] may itself be missing. *)
Definition orNumOpt (a b : option Q) : option Q :=
  match a with
  | Some x => if Qeq_bool x 0 then b else Some x
  | None => b
  end.

(** [a || b] on strings: null, undefined and the empty string are falsy. *)
Definition orStr (a : option string) (b : string) : string :=
  match a with
  | Some s => if String.eqb s "" then b else s
  | None => b
  end.

Definition orStrOpt (a b : option string) : option string :=
  match a with
  | Some s => if String.eqb s "" then b else Some s
  | None => b
  end.

Definition isSome {A : Type} (a : option A) : bool :=
  match a with Some _ => true | None => false end.

Definition Qlt_bool (x y : Q) : bool := negb (Qle_bool y x).

(** [Math.round]: the nearest integer, halves rounded up. *)
Definition Math_round (x : Q) : Z := Qfloor (x + (1 # 2)).

(** [arr.slice(-n)]: the last [n] elements; [slice(-0)] is [slice(0)], the
    whole array. *)
Definition sliceLast {A : Type} (n : nat) (l : list A) : list A :=
  match n with
  | O => l
  | _ => skipn (length l - n) l
  end.

(** [arr.sort(cmp)], a stable sort; [le a b] says [cmp(a, b) <= 0]. *)
Fixpoint sortInsert {A : Type} (le : A -> A -> bool) (x : A) (l : list A) : list A :=
  match l with
  | [] => [x]
  | y :: t => if le y x then y :: sortInsert le x t else x :: y :: t
  end.

Definition sortBy {A : Type} (le : A -> A -> bool) (l : list A) : list A :=
  fold_left (fun acc x => sortInsert le x acc) l [].

(** [arr.find(p)] *)
Definition findFirst {A : Type} (p : A -> bool) (l : list A) : option A :=
  List.find p l.

(* ================================================================= *)
(** ** Constants *)

Definition DAY_TYPE_MULTIPLIERS (dayType : string) : option Q :=
  if String.eqb dayType "heavy" then Some 1.0
  else if String.eqb dayType "volume" then Some 0.6
  else if String.eqb dayType "speed" then Some 0.4
  else if String.eqb dayType "accessory" then Some 0.0
  else if String.eqb dayType "rest" then Some 0
  else None.

(** The [sets] entry of a recipe is a number or a range. *)
Inductive RecipeSets :=
| SetsNum (n : Q)
| SetsRange (lo hi : Q).

Record Recipe := mkRecipe {
  recipe_sets : RecipeSets;
  repsRange : Q * Q;
  targetVxRange : Q * Q
}.

Definition DAY_TYPE_SET_RECIPES (dayType : string) : option Recipe :=
  if String.eqb dayType "heavy" then Some (mkRecipe (SetsNum 3) (2, 3) (1, 2))
  else if String.eqb dayType "volume" then Some (mkRecipe (SetsRange 4 5) (4, 6) (2, 3))
  else if String.eqb dayType "speed" then Some (mkRecipe (SetsRange 4 5) (2, 2) (4, 5))
  else None.

Inductive ReadinessClass := GREEN | YELLOW | RED.

Definition READINESS_CLASSES (c : ReadinessClass) : Z :=
  match c with GREEN => 0 | YELLOW => 1 | RED => 2 end%Z.

(* ================================================================= *)
(** ** Math utilities *)

Definition median (arr : list Q) : Q :=
  match arr with
  | [] => 0
  | _ =>
    let sorted := sortBy Qle_bool arr in
    let mid := Nat.div (length sorted) 2 in
    if Nat.odd (length sorted) then nth mid sorted 0
    else (nth (mid - 1) sorted 0 + nth mid sorted 0) / 2
  end.

Definition mad (arr : list Q) : Q :=
  let med := median arr in
  median (map (fun x => Qabs (x - med)) arr).

Definition madSigma (arr : list Q) : Q :=
  let rawMad := mad arr in
  let sigma := 1.4826 * rawMad in
  if Qeq_bool sigma 0 then 1 / 1000000 else sigma.

Definition zScore (value med sigma : Q) : Q :=
  (value - med) / Qmax (1 / 1000000) sigma.

Definition avg (arr : list Q) : Q :=
  match arr with
  | [] => 0
  | _ => fold_left Qplus arr 0 / inject_Z (Z.of_nat (length arr))
  end.

Definition clamp (value min max : Q) : Q := Qmax min (Qmin max value).

Definition roundToHalf (value : Q) : Q := inject_Z (Math_round (value * 2)) / 2.

(* ================================================================= *)
(** ** e1RM calculations *)

(** e1RM_system = systemLoadKg * (1 + (reps + Vx) / 30) *)
Definition e1rmSystem (bodyweightKg externalLoadKg reps : Q) (vara : option Q) : option Q :=
  let systemLoad := bodyweightKg + externalLoadKg in
  if Qle_bool systemLoad 0 || Qlt_bool reps 1 then None
  else
    let effectiveReps := reps + nullish vara 2 in
    Some (systemLoad * (1 + effectiveReps / 30)).

Definition e1rmExternal (bodyweightKg externalLoadKg reps : Q) (vara : option Q) : option Q :=
  match e1rmSystem bodyweightKg externalLoadKg reps vara with
  | None => None
  | Some sys => Some (Qmax 0 (sys - bodyweightKg))
  end.

(** e1RM = weight * (1 + reps / 30) *)
Definition e1rmAccessory (weightKg reps : Q) : option Q :=
  if Qle_bool weightKg 0 || Qlt_bool reps 1 then None
  else Some (weightKg * (1 + reps / 30)).

Definition targetLoadFromE1RM (e1rmSys : option Q) (bodyweightKg targetReps targetVx : Q) : option Q :=
  match e1rmSys with
  | None => None
  | Some e =>
    if Qle_bool e 0 then None
    else
      let effectiveReps := targetReps + targetVx in
      let targetSystemLoad := e / (1 + effectiveReps / 30) in
      let external := targetSystemLoad - bodyweightKg in
      Some (roundToHalf (Qmax 0 external))
  end.

(* ================================================================= *)
(** ** Baseline calculations *)

Record Baseline := mkBaseline {
  bl_median : Q;
  bl_madSigma : Q;
  bl_n : nat
}.

Definition computeBaseline (values : list Q) (windowN : nat) : option Baseline :=
  let windowed := sliceLast windowN values in
  if Nat.ltb (length windowed) 3 then None
  else Some (mkBaseline (median windowed) (madSigma windowed) (length windowed)).

Definition classifyReadinessZ (z : Q) : ReadinessClass :=
  if Qle_bool (-0.5) z then GREEN
  else if Qle_bool (-1.0) z then YELLOW
  else RED.

(* ================================================================= *)
(** ** Readiness system: 2/3 rule + velocity veto *)

Record ChannelResult := mkChannel {
  z : option Q;
  class : option ReadinessClass;
  channel : string;
  meanOvershoot : option Q;
  baseline : option Baseline
}.

(** The [channels] object of a readiness result; recommend() also accepts a
    readiness whose channels are missing. *)
Record Channels := mkChannels {
  velocity : option ChannelResult;
  hrv : option ChannelResult;
  vara : option ChannelResult
}.

Record Readiness := mkReadiness {
  combined : ReadinessClass;
  capLevel : Z;
  channels : option Channels
}.

Definition velocityReadiness (todayVelocity : option Q) (baselineValues : list Q)
    (windowN : nat) : ChannelResult :=
  match todayVelocity with
  | None => mkChannel None None "velocity" None None
  | Some v =>
    match computeBaseline baselineValues windowN with
    | None => mkChannel None None "velocity" None None
    | Some bl =>
      let z := zScore v (bl_median bl) (bl_madSigma bl) in
      mkChannel (Some z) (Some (classifyReadinessZ z)) "velocity" None (Some bl)
    end
  end.

Definition hrvReadiness (todayLnRMSSD : option Q) (baselineValues : list Q)
    (windowN : nat) : ChannelResult :=
  match todayLnRMSSD with
  | None => mkChannel None None "hrv" None None
  | Some v =>
    match computeBaseline baselineValues windowN with
    | None => mkChannel None None "hrv" None None
    | Some bl =>
      let z := zScore v (bl_median bl) (bl_madSigma bl) in
      mkChannel (Some z) (Some (classifyReadinessZ z)) "hrv" None (Some bl)
    end
  end.

Record Counts := mkCounts {
  cnt_GREEN : nat;
  cnt_YELLOW : nat;
  cnt_RED : nat
}.

(** [counts[ch.class]++] *)
Definition countUp (counts : Counts) (ch : ChannelResult) : Counts :=
  match class ch with
  | Some GREEN => mkCounts (S (cnt_GREEN counts)) (cnt_YELLOW counts) (cnt_RED counts)
  | Some YELLOW => mkCounts (cnt_GREEN counts) (S (cnt_YELLOW counts)) (cnt_RED counts)
  | Some RED => mkCounts (cnt_GREEN counts) (cnt_YELLOW counts) (S (cnt_RED counts))
  | None => counts
  end.

Definition isYellowOrRed (c : ChannelResult) : bool :=
  match class c with
  | Some YELLOW | Some RED => true
  | _ => false
  end.

Definition combineReadiness (velocityR hrvR varaR : ChannelResult) : Readiness :=
  let chs := [velocityR; hrvR; varaR] in
  let active := filter (fun c => isSome (class c)) chs in
  let channelsOut := Some (mkChannels (Some velocityR) (Some hrvR) (Some varaR)) in
  if Nat.eqb (length active) 0 then mkReadiness GREEN 0 channelsOut
  else
    (* Count colors *)
    let counts := fold_left countUp active (mkCounts 0 0 0) in
    (* 2/3 rule *)
    let combined1 :=
      if Nat.leb 2 (cnt_GREEN counts) then GREEN
      else if Nat.leb 2 (cnt_RED counts)
              || (Nat.leb 1 (cnt_RED counts) && Nat.leb 1 (cnt_YELLOW counts)) then RED
      else YELLOW in
    (* Velocity VETO *)
    let combined2 :=
      match class velocityR with
      | Some RED =>
        let c := match combined1 with GREEN => YELLOW | other => other end in
        let othersYellowOrRed := length (filter isYellowOrRed [hrvR; varaR]) in
        if Nat.leb 1 othersYellowOrRed then RED else c
      | _ => combined1
      end in
    let capLevel := match combined2 with GREEN => 0 | YELLOW => 1 | RED => 2 end%Z in
    mkReadiness combined2 capLevel channelsOut.

(* ================================================================= *)
(** ** Dates *)

Record ISODate := mkDate {
  year : Z;
  month : Z;
  day : Z
}.

Definition MS_PER_DAY : Z := 1000 * 60 * 60 * 24.

(** Days from 1970-01-01 to the given day of the Gregorian calendar. *)
Definition daysFromCivil (d : ISODate) : Z :=
  let y := if (month d <=? 2)%Z then (year d - 1)%Z else year d in
  let era := (y / 400)%Z in
  let yoe := (y - era * 400)%Z in
  let mp := ((month d + 9) mod 12)%Z in
  let doy := ((153 * mp + 2) / 5 + day d - 1)%Z in
  let doe := (yoe * 365 + yoe / 4 - yoe / 100 + doy)%Z in
  (era * 146097 + doe - 719468)%Z.

(** [new Date(iso)] as its time value: midnight UTC of that day. *)
Definition newDate (iso : ISODate) : Z := (daysFromCivil iso * MS_PER_DAY)%Z.

(** [date.getDay()], 0 = Sunday; 1970-01-01 was a Thursday.  The
    application runs in Europe/Helsinki, where midnight UTC falls on the
    same calendar day. *)
Definition getDay (iso : ISODate) : Z := ((daysFromCivil iso + 4) mod 7)%Z.

(* ================================================================= *)
(** ** Mesocycle data *)

Record WeekDef := mkWeekDef {
  wd_week : Z;
  deltaPctBase : Q;
  label : string;
  heavyReps : Q;
  heavyTargetVx : Q
}.

Record Slot := mkSlot {
  role : string;
  category : string;
  defaultMovementName : string;
  sets : Q;
  slot_reps : Q;
  slot_targetVx : option Q
}.

Record DayPlan := mkDayPlan {
  dayOfWeek : option Z;
  dp_dayType : string;
  slots : list Slot
}.

Record WeekPlan := mkWeekPlan {
  wp_week : Z;
  days : list DayPlan
}.

(** The mesocycle object, without its postCycleAnalysis field, which the
    engine never reads. *)
Record Mesocycle := mkMesocycle {
  mesocycleId : string;
  startDateISO : option ISODate;
  weekCount : Z;
  weekDefs : list WeekDef;
  weekPlans : list WeekPlan
}.

(** A recorded set, with the fields the engine reads. *)
Record SetRec := mkSet {
  movementId : string;
  setRole : string;
  timestamp : option string;
  externalLoadKg : option Q;
  reps : option Q;
  targetReps : option Q;
  targetVx : option Q;
  actualVx : option Q
}.

Record Session := mkSession {
  ses_dateISO : option ISODate
}.

(* ================================================================= *)
(** ** Mesocycle logic *)

Definition getMesocycleWeek (mesocycle : option Mesocycle) (dateISO : ISODate) : option Z :=
  match mesocycle with
  | None => None
  | Some m =>
    match startDateISO m with
    | None => None
    | Some startISO =>
      let start := newDate startISO in
      let current := newDate dateISO in
      let diffDays := ((current - start) / MS_PER_DAY)%Z in
      if (diffDays <? 0)%Z then None
      else
        let weekNum := (diffDays / 7 + 1)%Z in
        if (weekCount m <? weekNum)%Z then None else Some weekNum
    end
  end.

Definition getWeekDef (mesocycle : option Mesocycle) (weekNum : Z) : option WeekDef :=
  match mesocycle with
  | None => None
  | Some m => findFirst (fun w => (wd_week w =? weekNum)%Z) (weekDefs m)
  end.

(** One turn of the nearest-day loop of getTodayPlan; [None] as the best
    distance is [Infinity]. *)
Definition nearestStep (today : Z) (acc : option DayPlan * option Z) (d : DayPlan)
    : option DayPlan * option Z :=
  let dist := Z.abs (nullish (dayOfWeek d) 0 - today)%Z in
  let wrapDist := Z.min dist (7 - dist)%Z in
  match snd acc with
  | None => (Some d, Some wrapDist)
  | Some bestDist => if (wrapDist <? bestDist)%Z then (Some d, Some wrapDist) else acc
  end.

Definition getTodayPlan (mesocycle : option Mesocycle) (weekNum : Z) (today : Z)
    : option DayPlan :=
  match mesocycle with
  | None => None
  | Some m =>
    match findFirst (fun w => (wp_week w =? weekNum)%Z) (weekPlans m) with
    | None => None
    | Some weekPlan =>
      match days weekPlan with
      | [] => None
      | ds =>
        (* Exact match *)
        match findFirst (fun d => match dayOfWeek d with
                                  | Some k => (k =? today)%Z
                                  | None => false
                                  end) ds with
        | Some exact => Some exact
        | None => fst (fold_left (nearestStep today) ds (None, None))
        end
      end
    end
  end.

Definition deltaPctRaw (weekDef : option WeekDef) (dayType : string) : Q :=
  match weekDef with
  | None => 0
  | Some wd =>
    let weekCoeff := orNum (Some (deltaPctBase wd)) 0 in
    let dayMult := nullish (DAY_TYPE_MULTIPLIERS dayType) 1.0 in
    weekCoeff * dayMult
  end.

(* ================================================================= *)
(** ** Vara feedback loop *)

Record VaraFeedback := mkVaraFeedback {
  suggestion : option string;
  vf_type : option string
}.

Definition hasBothVx (s : SetRec) : bool := isSome (actualVx s) && isSome (targetVx s).

(** [s.targetVx - s.actualVx] on a set that has both. *)
Definition overshoot (s : SetRec) : Q := nullish (targetVx s) 0 - nullish (actualVx s) 0.

Definition varaFeedback (recentSets : list SetRec) : VaraFeedback :=
  let withVara := filter hasBothVx recentSets in
  if Nat.ltb (length withVara) 3 then mkVaraFeedback None None
  else
    let last3 := sliceLast 3 withVara in
    let allTooEasy :=
      forallb (fun s => Qlt_bool (nullish (targetVx s) 0 + 1) (nullish (actualVx s) 0)) last3 in
    let tooHard :=
      Nat.leb 2 (length (filter
        (fun s => Qlt_bool (nullish (actualVx s) 0) (nullish (targetVx s) 0 - 1)) last3)) in
    if allTooEasy then
      mkVaraFeedback (Some "Kuorma liian kevyt, harkitse +1-2 kg") (Some "too_easy")
    else if tooHard then
      mkVaraFeedback (Some "Kuorma liian raskas, harkitse -1-2 kg") (Some "too_hard")
    else mkVaraFeedback None None.

Definition varaTrendCorrection (recentTopSets : list SetRec) (maxCorrection : Q) : Q :=
  let withVara := sliceLast 6 (filter hasBothVx recentTopSets) in
  if Nat.ltb (length withVara) 4 then 0
  else
    let overshoots := map overshoot withVara in
    let meanOvr := avg overshoots in
    if Qlt_bool 0.5 meanOvr then clamp (meanOvr * 0.005) 0 maxCorrection
    else if Qlt_bool meanOvr (-0.5) then clamp (meanOvr * 0.005) (- maxCorrection) 0
    else 0.

(* ================================================================= *)
(** ** Return from break *)

Record BreakInfo := mkBreakInfo {
  breakDays : option Z;
  modifier : Q;
  forcedDayType : option string;
  message : option string
}.

(** [todayISO] is the value of todayISO(), read only when no date is given. *)
Definition breakAnalysis (todayISO : ISODate) (lastSessionDateISO todayDateISO : option ISODate)
    : BreakInfo :=
  match lastSessionDateISO with
  | None => mkBreakInfo None 0 None None
  | Some lastISO =>
    let last := newDate lastISO in
    let today := newDate (nullish todayDateISO todayISO) in
    let breakDays := ((today - last) / MS_PER_DAY)%Z in
    if (breakDays <? 7)%Z then mkBreakInfo (Some breakDays) 0 None None
    else if (breakDays <? 14)%Z then
      mkBreakInfo (Some breakDays) (-0.05) None
        (Some "Viikon tauko — aloitetaan hieman kevyemmin")
    else if (breakDays <? 28)%Z then
      mkBreakInfo (Some breakDays) (-0.10) (Some "volume")
        (Some "2 viikon tauko — volume-päivä ensin")
    else
      mkBreakInfo (Some breakDays) (-0.15) (Some "volume")
        (Some "Pitkä tauko — aloitetaan konservatiivisesti, 1-2 viikossa normaaliin")
  end.

Record ResetInfo := mkResetInfo {
  reset : bool;
  reason : option string
}.

Definition mesocycleBreakReset (mesocycle : option Mesocycle) (skippedWeeks : Z) : ResetInfo :=
  if (2 <=? skippedWeeks)%Z then
    mkResetInfo true (Some "2+ viikkoa skipattiin → mesosykli nollattu viikkoon 1")
  else mkResetInfo false None.

(* ================================================================= *)
(** ** Default day plan generator *)

Definition generateDefaultDayPlan (dayType : string) (weekDef : option WeekDef)
    (accessoryCapActive : bool) : DayPlan :=
  let byType (v s h : Q) : Q :=
    if String.eqb dayType "volume" then v
    else if String.eqb dayType "speed" then s else h in
  let primaryReps := orNum (option_map heavyReps weekDef) (byType 5 2 3) in
  let primaryVx := orNum (option_map heavyTargetVx weekDef) (byType 3 4 2) in
  let primarySets := byType 5 4 3 in
  let primary :=
    mkSlot "primary" "vertikaaliveto" "Lisäpainoleuanveto" primarySets primaryReps
      (Some primaryVx) in
  let accessories :=
    if String.eqb dayType "heavy" then
      [ mkSlot "accessory" "horisontaalityöntö" "Penkkipunnerrus" 4 6 (Some 3);
        mkSlot "accessory" "horisontaaliveto" "Penkkiveto" 3 8 (Some 3);
        mkSlot "accessory" "hauisfleksio" "Hauiskääntö tanko" 3 10 None ]
    else if String.eqb dayType "volume" then
      [ mkSlot "accessory" "vertikaalityöntö" "Pystypunnerrus" 4 8 (Some 3);
        mkSlot "accessory" "vertikaaliveto" "Ylätalja" 3 10 (Some 3);
        mkSlot "accessory" "ojentajaekstensio" "Tricep pushdown" 3 12 None ]
    else if String.eqb dayType "speed" then
      [ mkSlot "accessory" "horisontaaliveto" "Alatalja" 3 10 (Some 4);
        mkSlot "accessory" "hauisfleksio" "Hammer curl" 2 10 None ]
    else [] in
  mkDayPlan None dayType (primary :: accessories).

(* ================================================================= *)
(** ** Decision traces, the store and the effects of a run *)

(** A piece of a template literal: the number is kept, not its digits. *)
Inductive Frag :=
| FStr (s : string)
| FNum (q : Q)
| FFixed (digits : nat) (q : Q)   (* q.toFixed(digits) *)
| FNull.

Inductive JsVal :=
| VNull
| VUndef
| VNum (q : Q)
| VStr (s : string)
| VText (t : list Frag).

Definition Obj := list (string * JsVal).

Record Trace := mkTrace {
  traceId : string;
  tr_recId : option string;
  ruleId : string;
  before : Obj;
  after : Obj;
  why : JsVal
}.

Record Settings := mkSettings {
  st_bodyweightKg : option Q;
  maxDelta : option Q
}.

Record Options := mkOptions {
  opt_settings : option Settings;
  opt_bodyweightKg : option Q;
  opt_dateISO : option ISODate;
  opt_mesocycle : option Mesocycle;
  dryRun : bool;
  opt_dayType : option string;
  opt_sessions : option (list Session);
  opt_allSets : option (list SetRec);
  primaryMovementId : option string;
  opt_readiness : option Readiness
}.

(** What the read calls of data.js return for the current store. *)
Record Store := mkStore {
  getSettings : Settings;
  getActiveMesocycle : option Mesocycle;
  getAllSessions : list Session;
  getAllSets : list SetRec
}.

(** The record recommend() hands to saveRecommendation. *)
Record SavedRecommendation := mkSavedRecommendation {
  sv_recId : string;
  sv_sessionId : option string;
  sv_variantId : option string;
  sv_targetSetRole : string;
  sv_targetLoadKg : option Q;
  sv_deltaPct : Q;
  sv_capLevel : Z;
  sv_mesocycleWeek : Z;
  sv_dayType : string;
  sv_targetReps : Q;
  sv_targetVx : Q;
  sv_createdAtISO : string
}.

Inductive WriteOp :=
| PutMesocycle (m : Mesocycle)
| PutRecommendation (r : SavedRecommendation)
| PutDecisionTrace (t : Trace).

(** The surroundings of a run: the identifiers uid() will return, in order,
    and the clock. *)
Record Env := mkEnv {
  uidSupply : nat -> string;
  clockToday : ISODate;
  clockNow : string
}.

Record RunState := mkRunState {
  uidCount : nat;
  traces : list Trace;
  writes : list WriteOp
}.

Definition initialState : RunState := mkRunState 0 [] [].

Definition M (A : Type) : Type := Env -> RunState -> A * RunState.

Definition ret {A : Type} (a : A) : M A := fun _ st => (a, st).

Definition bind {A B : Type} (m : M A) (k : A -> M B) : M B :=
  fun env st => let (a, st') := m env st in k a env st'.

Notation "x <- m ;; k" := (bind m (fun x => k))
  (at level 61, m at next level, right associativity).
Notation "m ;;; k" := (bind m (fun _ => k))
  (at level 61, right associativity).

(** data.js: uid() *)
Definition uid : M string :=
  fun env st =>
    (uidSupply env (uidCount st), mkRunState (S (uidCount st)) (traces st) (writes st)).

(** data.js: todayISO() *)
Definition todayISO : M ISODate := fun env st => (clockToday env, st).

Definition nowISO : M string := fun env st => (clockNow env, st).

Definition dbPut (w : WriteOp) : M unit :=
  fun _ st => (tt, mkRunState (uidCount st) (traces st) (writes st ++ [w])).

(** The local function trace() of recommend(). *)
Definition trace (ruleId : string) (before after : Obj) (why : JsVal) : M unit :=
  id <- uid ;;
  fun _ st =>
    (tt, mkRunState (uidCount st)
           (traces st ++ [mkTrace id None ruleId before after why]) (writes st)).

Definition getTraces : M (list Trace) := fun _ st => (traces st, st).

Definition setTraces (ts : list Trace) : M unit :=
  fun _ st => (tt, mkRunState (uidCount st) ts (writes st)).

Fixpoint mapM {A B : Type} (f : A -> M B) (l : list A) : M (list B) :=
  match l with
  | [] => ret []
  | a :: t => b <- f a ;; bs <- mapM f t ;; ret (b :: bs)
  end.

(** data.js: saveMesocycle, which fills in a missing identifier. *)
Definition saveMesocycle (meso : Mesocycle) : M Mesocycle :=
  meso' <- (if String.eqb (mesocycleId meso) "" then
              id <- uid ;;
              ret (mkMesocycle id (startDateISO meso) (weekCount meso)
                     (weekDefs meso) (weekPlans meso))
            else ret meso) ;;
  dbPut (PutMesocycle meso') ;;;
  ret meso'.

Definition saveRecommendation (r : SavedRecommendation) : M unit :=
  r' <- (if String.eqb (sv_recId r) "" then
           id <- uid ;;
           ret (mkSavedRecommendation id (sv_sessionId r) (sv_variantId r)
                  (sv_targetSetRole r) (sv_targetLoadKg r)
                  (sv_deltaPct r) (sv_capLevel r) (sv_mesocycleWeek r) (sv_dayType r)
                  (sv_targetReps r) (sv_targetVx r) (sv_createdAtISO r))
         else ret r) ;;
  dbPut (PutRecommendation r').

Definition saveDecisionTrace (t : Trace) : M Trace :=
  t' <- (if String.eqb (traceId t) "" then
           id <- uid ;;
           ret (mkTrace id (tr_recId t) (ruleId t) (before t) (after t) (why t))
         else ret t) ;;
  dbPut (PutDecisionTrace t') ;;;
  ret t'.

(* ================================================================= *)
(** ** data.js: createDefaultMesocycle *)

Definition primarySlot (sets reps vx : Q) : Slot :=
  mkSlot "primary" "vertikaaliveto" "Lisäpainoleuanveto" sets reps (Some vx).

Definition accessorySlot (category name : string) (sets reps : Q) (vx : option Q) : Slot :=
  mkSlot "accessory" category name sets reps vx.

(** Weeks 1 to 3 share their movements; [vxA] is the accessories' target,
    and the volume day's primary slot varies by week. *)
Definition loadingWeekDays (heavyR heavyVx volSets volReps volVx vxA : Q) : list DayPlan :=
  [ mkDayPlan (Some 1%Z) "heavy"
      [ primarySlot 3 heavyR heavyVx;
        accessorySlot "horisontaalityöntö" "Penkkipunnerrus" 4 6 (Some vxA);
        accessorySlot "horisontaaliveto" "Penkkiveto" 3 8 (Some vxA);
        accessorySlot "hauisfleksio" "Hauiskääntö tanko" 3 10 None ];
    mkDayPlan (Some 3%Z) "volume"
      [ primarySlot volSets volReps volVx;
        accessorySlot "vertikaalityöntö" "Pystypunnerrus" 4 8 (Some 3);
        accessorySlot "vertikaaliveto" "Ylätalja" 3 10 (Some 3);
        accessorySlot "ojentajaekstensio" "Tricep pushdown" 3 12 None ];
    mkDayPlan (Some 5%Z) "heavy"
      [ primarySlot 3 heavyR heavyVx;
        accessorySlot "horisontaalityöntö" "Chest press" 4 8 (Some vxA);
        accessorySlot "horisontaaliveto" "Alatalja" 3 10 (Some vxA);
        accessorySlot "hauisfleksio" "Hammer curl" 3 10 None ] ].

Definition deloadWeekDays : list DayPlan :=
  [ mkDayPlan (Some 1%Z) "heavy"
      [ primarySlot 3 3 4;
        accessorySlot "horisontaalityöntö" "Penkkipunnerrus" 3 6 (Some 4);
        accessorySlot "horisontaaliveto" "Penkkiveto" 3 8 (Some 4) ];
    mkDayPlan (Some 3%Z) "volume"
      [ primarySlot 3 5 4;
        accessorySlot "vertikaalityöntö" "Pystypunnerrus" 3 8 (Some 4);
        accessorySlot "vertikaaliveto" "Ylätalja" 3 10 (Some 4) ];
    mkDayPlan (Some 5%Z) "speed"
      [ primarySlot 4 2 4 ] ].

Definition defaultWeekDefs : list WeekDef :=
  [ mkWeekDef 1 0 "Adaptaatio" 3 2;
    mkWeekDef 2 0.025 "Loading" 3 2;
    mkWeekDef 3 0.05 "Overreach" 2 1;
    mkWeekDef 4 (-0.25) "Deload" 3 4 ].

Definition defaultWeekPlans : list WeekPlan :=
  [ mkWeekPlan 1 (loadingWeekDays 3 2 5 5 3 3);
    mkWeekPlan 2 (loadingWeekDays 3 2 5 5 3 3);
    mkWeekPlan 3 (loadingWeekDays 2 1 4 4 2 2);
    mkWeekPlan 4 deloadWeekDays ].

Definition createDefaultMesocycle (startDateISO : option ISODate) : M Mesocycle :=
  id <- uid ;;
  start <- match startDateISO with
           | Some d => ret d
           | None => todayISO
           end ;;
  ret (mkMesocycle id (Some start) 4 defaultWeekDefs defaultWeekPlans).

(* ================================================================= *)
(** ** recommend(): the deterministic recommendation engine *)

Record Recommendation := mkRecommendation {
  recId : string;
  rec_dateISO : ISODate;
  rec_mesocycleId : string;
  rec_weekNum : Z;
  weekLabel : string;
  rec_dayType : string;
  targetExternalLoad : option Q;
  rec_targetReps : Q;
  rec_targetVx : Q;
  setCount : Q;
  deltaPct : Q;
  rec_capLevel : Z;
  rec_readiness : Readiness;
  rec_e1rmSystem : option Q;
  rec_e1rmExternal : option Q;
  rec_bodyweightKg : Q;
  rec_varaFeedback : VaraFeedback;
  rec_breakInfo : option BreakInfo;
  accessoryCapActive : bool;
  rec_dayPlan : DayPlan;
  rec_traces : list Trace
}.

Definition orElse {A : Type} (a b : option A) : option A :=
  match a with Some _ => a | None => b end.

(** A string that is present and not empty. *)
Definition truthyStr (s : option string) : option string :=
  match s with
  | Some x => if String.eqb x "" then None else Some x
  | None => None
  end.

Definition vOptNum (q : option Q) : JsVal :=
  match q with Some x => VNum x | None => VNull end.

Definition vOptStr (s : option string) : JsVal :=
  match s with Some x => VStr x | None => VNull end.

Definition vInt (n : Z) : JsVal := VNum (inject_Z n).

(** [x?.toFixed(d)] *)
Definition vToFixed (d : nat) (q : option Q) : JsVal :=
  match q with Some x => VText [FFixed d x] | None => VUndef end.

(** Step 1: the mesocycle given, stored or created. *)
Definition stepGetMesocycle (db : Store) (options : Options) (dateISO : ISODate)
    : M Mesocycle :=
  match orElse (opt_mesocycle options) (getActiveMesocycle db) with
  | Some m => ret m
  | None =>
    m <- createDefaultMesocycle (Some dateISO) ;;
    m <- (if dryRun options then ret m else saveMesocycle m) ;;
    trace "MESOCYCLE_CREATED" [] [("mesocycleId", VStr (mesocycleId m))]
      (VStr "Uusi mesosykli luotu automaattisesti") ;;;
    ret m
  end.

(** Step 2: the week of the date; a date outside the cycle starts a new one. *)
Definition stepWeek (options : Options) (dateISO : ISODate) (mesocycle : Mesocycle)
    : M (Mesocycle * Z) :=
  match getMesocycleWeek (Some mesocycle) dateISO with
  | Some weekNum => ret (mesocycle, weekNum)
  | None =>
    m <- createDefaultMesocycle (Some dateISO) ;;
    m <- (if dryRun options then ret m else saveMesocycle m) ;;
    trace "MESOCYCLE_NEW_CYCLE" [] [("weekNum", vInt 1)]
      (VStr "Edellinen mesosykli päättyi → uusi aloitettu") ;;;
    ret (m, 1%Z)
  end.

(** Step 3: forced day type, break trace and mesocycle reset. *)
Definition stepBreak (options : Options) (dateISO : ISODate) (breakInfo : BreakInfo)
    (mesocycle : Mesocycle) (weekNum : Z) (dayType : string)
    : M (Mesocycle * Z * string) :=
  if negb (Qeq_bool (modifier breakInfo) 0) then
    dayType <- match truthyStr (forcedDayType breakInfo) with
               | Some forced =>
                 trace "RETURN_FROM_BREAK_DAYTYPE" [("dayType", VStr dayType)]
                   [("dayType", VStr forced)] (vOptStr (message breakInfo)) ;;;
                 ret forced
               | None => ret dayType
               end ;;
    trace "RETURN_FROM_BREAK" [("modifier", VNum 0)]
      [("modifier", VNum (modifier breakInfo));
       ("breakDays", match breakDays breakInfo with Some d => vInt d | None => VNull end)]
      (vOptStr (message breakInfo)) ;;;
    (* Check mesocycle reset *)
    if (14 <=? nullish (breakDays breakInfo) 0)%Z then
      let skippedWeeks := (nullish (breakDays breakInfo) 0 / 7)%Z in
      let resetInfo := mesocycleBreakReset (Some mesocycle) skippedWeeks in
      if reset resetInfo then
        m <- createDefaultMesocycle (Some dateISO) ;;
        m <- (if dryRun options then ret m else saveMesocycle m) ;;
        trace "MESOCYCLE_BREAK_RESET" [] [("weekNum", vInt 1)]
          (vOptStr (reason resetInfo)) ;;;
        ret (m, 1%Z, dayType)
      else ret (mesocycle, weekNum, dayType)
    else ret (mesocycle, weekNum, dayType)
  else ret (mesocycle, weekNum, dayType).

(** Step 4: the top sets of the primary movement, oldest first. *)
Definition isTopSet (primaryMovementId : option string) (s : SetRec) : bool :=
  match truthyStr primaryMovementId with
  | Some pid =>
    if negb (String.eqb (movementId s) pid) then false
    else String.eqb (setRole s) "top" || String.eqb (setRole s) "readiness_test"
  | None => String.eqb (setRole s) "top" || String.eqb (setRole s) "readiness_test"
  end.

(** [(a.timestamp || "").localeCompare(b.timestamp || "") <= 0]; the
    timestamps are ISO strings of one shape, ordered character by
    character. *)
Definition timestampLe (a b : SetRec) : bool :=
  String.leb (orStr (timestamp a) "") (orStr (timestamp b) "").

Definition topSetsOf (primaryMovementId : option string) (allSets : list SetRec)
    : list SetRec :=
  sortBy timestampLe (filter (isTopSet primaryMovementId) allSets).

(** The effort distance used for a set: actual, else target, else 2. *)
Definition setVara (s : SetRec) : Q :=
  nullish (actualVx s) (nullish (targetVx s) 2).

Definition setE1RM (bodyweightKg : Q) (s : SetRec) : option Q :=
  let vara := setVara s in
  e1rmSystem bodyweightKg (orNum (externalLoadKg s) 0)
    (orNum (orNumOpt (reps s) (targetReps s)) 3) (Some vara).

Fixpoint notNull {A : Type} (l : list (option A)) : list A :=
  match l with
  | [] => []
  | Some x :: t => x :: notNull t
  | None :: t => notNull t
  end.

Definition e1rmValuesOf (bodyweightKg : Q) (recentTopSets : list SetRec) : list Q :=
  notNull (map (setE1RM bodyweightKg) recentTopSets).

Definition currentE1RMSystemOf (bodyweightKg : Q) (recentTopSets : list SetRec) : option Q :=
  match e1rmValuesOf bodyweightKg recentTopSets with
  | [] => None
  | vs => Some (median vs)
  end.

(** Step 10: the readiness cap on the clamped adjustment and the day type. *)
Definition stepReadinessCap (capLevel : Z) (deltaPct : Q) (dayType : string)
    : M (Q * string) :=
  if (capLevel =? 2)%Z then
    (* RED: no increase, heavy -> volume *)
    let oldDelta := deltaPct in
    let deltaPct := Qmin deltaPct 0 in
    dayType <- (if String.eqb dayType "heavy" then
                  trace "CAP_RED_DAYTYPE" [("dayType", VStr dayType)]
                    [("dayType", VStr "volume")]
                    (VStr "RED readiness → heavy vaihdettu volume:ksi") ;;;
                  ret "volume"
                else ret dayType) ;;
    trace "CAP_RED" [("deltaPct", VNum oldDelta)] [("deltaPct", VNum deltaPct)]
      (VStr "RED readiness → deltaPct capped to ≤ 0") ;;;
    ret (deltaPct, dayType)
  else if (capLevel =? 1)%Z then
    (* YELLOW: halve adjustment *)
    let oldDelta := deltaPct in
    let deltaPct := deltaPct * 0.5 in
    trace "CAP_YELLOW" [("deltaPct", VNum oldDelta)] [("deltaPct", VNum deltaPct)]
      (VStr "YELLOW readiness → deltaPct puolitettu") ;;;
    ret (deltaPct, dayType)
  else ret (deltaPct, dayType).

(** Step 11: target reps and effort distance of the day. *)
Definition targetRepsOf (weekDef : option WeekDef) (dayType : string) : Q :=
  match weekDef with
  | Some wd =>
    if String.eqb dayType "heavy" then heavyReps wd
    else if String.eqb dayType "volume" then 5 else 2
  | None => 3
  end.

Definition targetVxOf (weekDef : option WeekDef) (dayType : string) : Q :=
  match weekDef with
  | Some wd =>
    if String.eqb dayType "heavy" then heavyTargetVx wd
    else if String.eqb dayType "volume" then 3 else 4
  | None => 2
  end.

(** Step 11: the target load, from the e1RM backward. *)
Definition targetExternalLoadOf (currentE1RMSystem : option Q)
    (targetReps targetVx deltaPct bodyweightKg : Q) : option Q :=
  match currentE1RMSystem with
  | Some e =>
    let effectiveReps := targetReps + targetVx in
    let targetSystemLoad := e / (1 + effectiveReps / 30) in
    let rawExternal := targetSystemLoad * (1 + deltaPct) - bodyweightKg in
    Some (roundToHalf (Qmax 0 rawExternal))
  | None => None
  end.

(** Step 12: set prescription. *)
Definition setCountOf (dayType : string) : Q :=
  match DAY_TYPE_SET_RECIPES dayType with
  | Some recipe =>
    match recipe_sets recipe with
    | SetsRange lo _ => lo
    | SetsNum n => n
    end
  | None => 3
  end.

(** Step 14: the channels of a readiness that are present and classified. *)
Definition classifiedChannels (readiness : Readiness) : list ChannelResult :=
  let chs := match channels readiness with
             | Some c => [velocity c; hrv c; vara c]
             | None => [None; None; None]
             end in
  filter (fun c => isSome (class c)) (notNull chs).

Definition allBadOf (readiness : Readiness) : bool :=
  forallb isYellowOrRed (classifiedChannels readiness).

Definition stepAccessoryCap (capLevel : Z) (readiness : Readiness) : M bool :=
  if (capLevel =? 2)%Z then
    if allBadOf readiness then
      trace "ACCESSORY_CAP_ACTIVE" [] [("volumeReduction", VStr "30%")]
        (VStr "3/3 kanavaa RED/YELLOW → tukiliikkeet -30% volyymi") ;;;
      ret true
    else ret false
  else ret false.

(** Step 15: a day plan without slots is replaced by the default one. *)
Definition stepDayPlan (dayPlan : option DayPlan) (dayType : string)
    (weekDef : option WeekDef) (accessoryCapActive : bool) : M DayPlan :=
  let generate :=
    let dp := generateDefaultDayPlan dayType weekDef accessoryCapActive in
    trace "DAY_PLAN_GENERATED" []
      [("dayType", VStr dayType); ("slotsCount", vInt (Z.of_nat (length (slots dp))))]
      (VStr "Päivän ohjelma generoitu oletusliikkeillä") ;;;
    ret dp in
  match dayPlan with
  | None => generate
  | Some dp => match slots dp with [] => generate | _ => ret dp end
  end.

(** The accessory cap on one slot: 30% fewer sets, at least 2. *)
Definition capSlot (s : Slot) : Slot :=
  if String.eqb (role s) "accessory" then
    mkSlot (role s) (category s) (defaultMovementName s)
      (inject_Z (Z.max 2 (Math_round (sets s * 0.7)))) (slot_reps s) (slot_targetVx s)
  else s.

Definition applyAccessoryCap (accessoryCapActive : bool) (dayPlan : DayPlan) : DayPlan :=
  if accessoryCapActive then
    mkDayPlan (dayOfWeek dayPlan) (dp_dayType dayPlan) (map capSlot (slots dayPlan))
  else dayPlan.

Definition setRecId (id : string) (t : Trace) : Trace :=
  mkTrace (traceId t) (Some id) (ruleId t) (before t) (after t) (why t).

(** The readiness recommend() assumes when none is given:
    [{ combined: "GREEN", capLevel: 0, channels: {} }]. *)
Definition defaultReadiness : Readiness :=
  mkReadiness GREEN 0 (Some (mkChannels None None None)).

Definition lastOf {A : Type} (l : list A) : option A :=
  List.last (map Some l) None.

Definition recommend (db : Store) (options : Options) : M Recommendation :=
  let settings := nullish (opt_settings options) (getSettings db) in
  let bodyweightKg :=
    orNum (orNumOpt (opt_bodyweightKg options) (st_bodyweightKg settings)) 91 in
  today <- todayISO ;;
  let dateISO := nullish (opt_dateISO options) today in

  (* 1. Get mesocycle *)
  mesocycle <- stepGetMesocycle db options dateISO ;;

  (* 2. Determine week and day *)
  mw <- stepWeek options dateISO mesocycle ;;
  let mesocycle := fst mw in
  let weekNum := snd mw in
  let weekDef := getWeekDef (Some mesocycle) weekNum in
  let dayOfWeek := (if (getDay dateISO =? 0)%Z then 7 else getDay dateISO)%Z in
  let dayPlan := getTodayPlan (Some mesocycle) weekNum dayOfWeek in
  let dayType :=
    orStr (orStrOpt (option_map dp_dayType dayPlan) (opt_dayType options)) "heavy" in
  trace "MESOCYCLE_PHASE" []
    [("weekNum", vInt weekNum); ("dayType", VStr dayType);
     ("label", match weekDef with Some wd => VStr (label wd) | None => VUndef end)]
    (VText [FStr "Viikko "; FNum (inject_Z weekNum); FStr ": ";
            FStr (orStr (option_map label weekDef) "?")]) ;;;

  (* 3. Break analysis *)
  let sessions := nullish (opt_sessions options) (getAllSessions db) in
  let lastSession := lastOf sessions in
  let breakInfo :=
    breakAnalysis today
      (match lastSession with Some s => ses_dateISO s | None => None end)
      (Some dateISO) in
  mwd <- stepBreak options dateISO breakInfo mesocycle weekNum dayType ;;
  let mesocycle := fst (fst mwd) in
  let weekNum := snd (fst mwd) in
  let dayType := snd mwd in

  (* 4. Compute e1RM from recent top sets *)
  let allSets := nullish (opt_allSets options) (getAllSets db) in
  let topSets := topSetsOf (primaryMovementId options) allSets in
  let recentTopSets := sliceLast 6 topSets in
  let currentE1RMSystem := currentE1RMSystemOf bodyweightKg recentTopSets in
  let currentE1RMExternal :=
    option_map (fun e => Qmax 0 (e - bodyweightKg)) currentE1RMSystem in
  trace "E1RM_COMPUTED" []
    [("e1rmSystem", vToFixed 1 currentE1RMSystem);
     ("e1rmExternal", vToFixed 1 currentE1RMExternal);
     ("fromSets", vInt (Z.of_nat (length recentTopSets)))]
    (VText [FStr "e1RM laskettu "; FNum (inject_Z (Z.of_nat (length recentTopSets)));
            FStr " viimeisimmästä top-setistä"]) ;;;

  (* 5. Readiness *)
  let readiness := nullish (opt_readiness options) defaultReadiness in
  let capLevel := capLevel readiness in

  (* 6. deltaPct calculation *)
  let dayMult := nullish (DAY_TYPE_MULTIPLIERS dayType) 1.0 in
  let weekCoeff := orNum (option_map deltaPctBase weekDef) 0 in
  let deltaPctRawValue := weekCoeff * dayMult in
  trace "DELTA_PCT_RAW" [] [("deltaPctRaw", VNum deltaPctRawValue)]
    (VText [FStr "deltaPct_raw = "; FNum weekCoeff; FStr " × "; FNum dayMult]) ;;;

  (* 7. Vara trend correction *)
  let varaCorr := varaTrendCorrection recentTopSets 0.015 in
  deltaPctRawValue <-
    (if negb (Qeq_bool varaCorr 0) then
       let oldDelta := deltaPctRawValue in
       let deltaPctRawValue := deltaPctRawValue + varaCorr in
       trace "VARA_TREND_CORRECTION" [("deltaPct", VNum oldDelta)]
         [("deltaPct", VNum deltaPctRawValue)]
         (VText [FStr "Vara-trendikorjaus: ";
                 FStr (if Qlt_bool 0 varaCorr then "+" else "");
                 FFixed 2 (varaCorr * 100); FStr "%"]) ;;;
       ret deltaPctRawValue
     else ret deltaPctRawValue) ;;

  (* 8. Break modifier *)
  deltaPctRawValue <-
    (if negb (Qeq_bool (modifier breakInfo) 0) then
       let oldDelta := deltaPctRawValue in
       let deltaPctRawValue := deltaPctRawValue + modifier breakInfo in
       trace "BREAK_MODIFIER" [("deltaPct", VNum oldDelta)]
         [("deltaPct", VNum deltaPctRawValue)]
         (VText [FStr "Tauko-modifikaattori: "; FNum (modifier breakInfo * 100);
                 FStr "%"]) ;;;
       ret deltaPctRawValue
     else ret deltaPctRawValue) ;;

  (* 9. Clamp *)
  let maxDelta := orNum (maxDelta settings) 0.25 in
  let deltaPct := clamp deltaPctRawValue (- maxDelta) maxDelta in

  (* 10. Apply readiness cap *)
  capped <- stepReadinessCap capLevel deltaPct dayType ;;
  let deltaPct := fst capped in
  let dayType := snd capped in

  (* 11. Compute target load *)
  let targetReps := targetRepsOf weekDef dayType in
  let targetVx := targetVxOf weekDef dayType in
  let targetExternalLoad :=
    targetExternalLoadOf currentE1RMSystem targetReps targetVx deltaPct bodyweightKg in
  trace "TARGET_LOAD" []
    [("targetExternalLoad", vOptNum targetExternalLoad);
     ("deltaPct", VText [FFixed 2 (deltaPct * 100); FStr "%"]);
     ("targetReps", VNum targetReps);
     ("targetVx", VNum targetVx)]
    (VText [FStr "Ehdotettu kuorma: +";
            match targetExternalLoad with Some x => FNum x | None => FNull end;
            FStr " kg"]) ;;;

  (* 12. Set prescription *)
  let setCount := setCountOf dayType in

  (* 13. Vara feedback *)
  let varaFB := varaFeedback recentTopSets in
  match truthyStr (suggestion varaFB) with
  | Some sug =>
    trace "VARA_FEEDBACK" []
      [("suggestion", VStr sug); ("type", vOptStr (vf_type varaFB))] (VStr sug)
  | None => ret tt
  end ;;;

  (* 14. Accessory cap (independent from primary) *)
  accessoryCapActive <- stepAccessoryCap capLevel readiness ;;

  (* 15. Ensure dayPlan always has slots *)
  dayPlan <- stepDayPlan dayPlan dayType weekDef accessoryCapActive ;;

  (* Apply accessory cap: reduce accessory set counts by 30% if active *)
  let dayPlan := applyAccessoryCap accessoryCapActive dayPlan in

  (* Build recommendation *)
  newRecId <- uid ;;

  (* Assign recId to all traces *)
  ts <- getTraces ;;
  setTraces (map (setRecId newRecId) ts) ;;;

  (* Save if not dry run *)
  (if dryRun options then ret tt
   else
     now <- nowISO ;;
     saveRecommendation
       (mkSavedRecommendation newRecId None None "top" targetExternalLoad deltaPct capLevel
          weekNum dayType targetReps targetVx now) ;;;
     ts <- getTraces ;;
     ts' <- mapM saveDecisionTrace ts ;;
     setTraces ts') ;;;

  ts <- getTraces ;;
  ret (mkRecommendation newRecId dateISO (mesocycleId mesocycle) weekNum
         (orStr (option_map label weekDef) "?") dayType targetExternalLoad
         targetReps targetVx setCount deltaPct capLevel readiness
         currentE1RMSystem currentE1RMExternal bodyweightKg varaFB
         (if (7 <=? nullish (breakDays breakInfo) 0)%Z then Some breakInfo else None)
         accessoryCapActive dayPlan ts).

(** A run of recommend() from a fresh state: the prescription and what was
    written to the store. *)
Definition runRecommend (env : Env) (db : Store) (options : Options)
    : Recommendation * list WriteOp :=
  let (rec, st) := recommend db options env initialState in (rec, writes st).

(* ================================================================= *)
(** ** The statements of the specification *)

(** *** Fusion rule (specification 4.3), on the three channel classes;
    [None] is an inactive channel. *)

Definition countClass (c : ReadinessClass) (l : list (option ReadinessClass)) : nat :=
  length (filter (fun x => match x, c with
                           | Some GREEN, GREEN | Some YELLOW, YELLOW | Some RED, RED => true
                           | _, _ => false
                           end) l).

Definition isBad (x : option ReadinessClass) : bool :=
  match x with Some YELLOW | Some RED => true | _ => false end.

Definition capOf (c : ReadinessClass) : Z :=
  match c with GREEN => 0 | YELLOW => 1 | RED => 2 end%Z.

Definition fusionRule (v h r : option ReadinessClass) : ReadinessClass * Z :=
  let all := [v; h; r] in
  if forallb (fun x => negb (isSome x)) all then (GREEN, 0%Z)
  else
    let base :=
      if Nat.leb 2 (countClass GREEN all) then GREEN
      else if Nat.leb 2 (countClass RED all)
              || (Nat.leb 1 (countClass RED all) && Nat.leb 1 (countClass YELLOW all))
           then RED
      else YELLOW in
    let vetoed :=
      match v with
      | Some RED =>
        if isBad h || isBad r then RED
        else match base with GREEN => YELLOW | other => other end
      | _ => base
      end in
    (vetoed, capOf vetoed).

(** *** Days since the last session, counted on the calendar. *)
Definition daysBetween (last today : ISODate) : Z :=
  (daysFromCivil today - daysFromCivil last)%Z.

(** *** The estimators' edge cases as the specification words them:
    null exactly on non-positive mass, load or reps. *)
Definition e1rmSystem_as_stated (bw ext r : Q) (vx : option Q) : Prop :=
  (bw + ext <= 0 \/ r <= 0 -> e1rmSystem bw ext r vx = None)
  /\ (~ (bw + ext <= 0 \/ r <= 0) -> exists v, e1rmSystem bw ext r vx = Some v).

Definition e1rmAccessory_as_stated (load r : Q) : Prop :=
  (load <= 0 \/ r <= 0 -> e1rmAccessory load r = None)
  /\ (~ (load <= 0 \/ r <= 0) -> exists v, e1rmAccessory load r = Some v).

(** *** The accessory cap as the specification words it: active exactly
    when each of the three channels is classified YELLOW or RED. *)
Definition channelBad (c : option ChannelResult) : bool :=
  match c with
  | Some ch => isYellowOrRed ch
  | None => false
  end.

Definition allThreeYellowOrRed (r : Readiness) : bool :=
  match channels r with
  | Some c => channelBad (velocity c) && channelBad (hrv c) && channelBad (vara c)
  | None => false
  end.

Definition accessoryCap_as_stated (env : Env) (db : Store) (o : Options) : Prop :=
  let r := fst (runRecommend env db o) in
  accessoryCapActive r = true <-> allThreeYellowOrRed (rec_readiness r) = true.

(** *** The plan a run starts from: the day and the week definition of the
    cycle in effect on the run's date.  That is the cycle given in the
    options, else the stored one, when the date falls inside it; in every
    other case the run starts a default cycle, which is in its first week. *)
Definition defaultCycle : Mesocycle :=
  mkMesocycle "" None 4 defaultWeekDefs defaultWeekPlans.

Definition planOfRun (env : Env) (db : Store) (o : Options)
    : option DayPlan * option WeekDef :=
  let dateISO := nullish (opt_dateISO o) (clockToday env) in
  let dayOfWeek := (if (getDay dateISO =? 0)%Z then 7 else getDay dateISO)%Z in
  let inEffect :=
    match orElse (opt_mesocycle o) (getActiveMesocycle db) with
    | Some m =>
      match getMesocycleWeek (Some m) dateISO with
      | Some w => (m, w)
      | None => (defaultCycle, 1%Z)
      end
    | None => (defaultCycle, 1%Z)
    end in
  (getTodayPlan (Some (fst inEffect)) (snd inEffect) dayOfWeek,
   getWeekDef (Some (fst inEffect)) (snd inEffect)).

(** A cycle as createDefaultMesocycle makes it on the day [d]. *)
Definition defaultShaped (d : ISODate) (m : Mesocycle) : Prop :=
  startDateISO m = Some d /\ weekCount m = 4%Z
  /\ weekDefs m = defaultWeekDefs /\ weekPlans m = defaultWeekPlans.

(** A set with its actual effort distance replaced. *)
Definition withActualVx (v : option Q) (s : SetRec) : SetRec :=
  mkSet (movementId s) (setRole s) (timestamp s) (externalLoadKg s) (reps s)
    (targetReps s) (targetVx s) v.

(** *** Determinism: what two runs are compared on.

    Scrubbing blanks the generated identifiers of a prescription: recId,
    mesocycleId and, in every trace, traceId and recId.  The strict form
    keeps every after-state; the other form also drops the after-state of a
    MESOCYCLE_CREATED entry, which records the new mesocycle's identifier. *)
Definition scrubTrace (strict : bool) (t : Trace) : Trace :=
  mkTrace "" None (ruleId t) (before t)
    (if strict then after t
     else if String.eqb (ruleId t) "MESOCYCLE_CREATED" then [] else after t)
    (why t).

Definition scrubRec (strict : bool) (r : Recommendation) : Recommendation :=
  mkRecommendation "" (rec_dateISO r) "" (rec_weekNum r) (weekLabel r) (rec_dayType r)
    (targetExternalLoad r) (rec_targetReps r) (rec_targetVx r) (setCount r) (deltaPct r)
    (rec_capLevel r) (rec_readiness r) (rec_e1rmSystem r) (rec_e1rmExternal r)
    (rec_bodyweightKg r) (rec_varaFeedback r) (rec_breakInfo r) (accessoryCapActive r)
    (rec_dayPlan r) (map (scrubTrace strict) (rec_traces r)).

Definition sameRec (strict : bool) (r1 r2 : Recommendation) : Prop :=
  scrubRec strict r1 = scrubRec strict r2.

Definition sameTrace (strict : bool) (t1 t2 : Trace) : Prop :=
  scrubTrace strict t1 = scrubTrace strict t2.

Definition sameTraces (strict : bool) (l1 l2 : list Trace) : Prop :=
  map (scrubTrace strict) l1 = map (scrubTrace strict) l2.

Definition simState (strict : bool) (s1 s2 : RunState) : Prop :=
  sameTraces strict (traces s1) (traces s2).

(** Two mesocycles that differ at most in their identifier. *)
Definition simMeso (m1 m2 : Mesocycle) : Prop :=
  startDateISO m1 = startDateISO m2 /\ weekCount m1 = weekCount m2
  /\ weekDefs m1 = weekDefs m2 /\ weekPlans m1 = weekPlans m2.

Definition simMesoWeek (a b : Mesocycle * Z) : Prop :=
  simMeso (fst a) (fst b) /\ snd a = snd b.

Definition simBreak (a b : Mesocycle * Z * string) : Prop :=
  simMeso (fst (fst a)) (fst (fst b)) /\ snd (fst a) = snd (fst b) /\ snd a = snd b.

Definition anyTwo {A : Type} (_ _ : A) : Prop := True.

(** Two computations are related when, run with any two identifier
    supplies on the same clock day, from states whose scrubbed traces agree,
    they return related values and leave such states again. *)
Definition related (strict : bool) {A : Type} (R : A -> A -> Prop) (m1 m2 : M A) : Prop :=
  forall e1 e2 s1 s2,
    clockToday e1 = clockToday e2 -> simState strict s1 s2 ->
    R (fst (m1 e1 s1)) (fst (m2 e2 s2))
    /\ simState strict (snd (m1 e1 s1)) (snd (m2 e2 s2)).

(** A computation that leaves the store alone. *)
Definition keepsWrites {A : Type} (m : M A) : Prop :=
  forall env st, writes (snd (m env st)) = writes st.

(* ================================================================= *)
(** ** Example runs *)

Definition chan (name : string) (c : option ReadinessClass) : ChannelResult :=
  mkChannel None c name None None.

Definition exampleEnv : Env :=
  mkEnv (fun _ => "id") (mkDate 2026 2 23) "2026-02-23T08:00:00.000Z".

Definition emptyStore : Store := mkStore (mkSettings (Some 91) (Some 0.25)) None [] [].

Definition optionsWithReadiness (r : Readiness) : Options :=
  mkOptions None None (Some (mkDate 2026 2 23)) None true None None None None (Some r).

Definition readinessYYY : Readiness :=
  combineReadiness (chan "velocity" (Some YELLOW)) (chan "hrv" (Some YELLOW))
    (chan "vara" (Some YELLOW)).

Definition readinessRRnone : Readiness :=
  combineReadiness (chan "velocity" (Some RED)) (chan "hrv" (Some RED))
    (chan "vara" None).

(** A heavy Monday in week 2 of a default cycle: one top set that gives an
    estimated system max of 184, bodyweight 91, no readiness data, the last
    session three days before. *)
Definition week2Mesocycle : Mesocycle :=
  mkMesocycle "meso-1" (Some (mkDate 2026 2 16)) 4 defaultWeekDefs defaultWeekPlans.

Definition topSet184 : SetRec :=
  mkSet "pullup" "top" (Some "2026-02-20T10:00:00.000Z") (Some (467 # 7)) (Some 3)
    (Some 3) (Some 2) (Some 2).

Definition week2Options : Options :=
  mkOptions None (Some 91) (Some (mkDate 2026 2 23)) (Some week2Mesocycle) true None
    (Some [mkSession (Some (mkDate 2026 2 20))]) (Some [topSet184]) None None.

(** A top set of 67 kg for 3 reps with no effort distance recorded. *)
Definition topSetNoVx : SetRec :=
  mkSet "pullup" "top" (Some "2026-02-20T10:00:00.000Z") (Some 67) (Some 3)
    None None None.

(** A trial run on 2026-02-23 in the week-2 cycle whose last session was on
    the given day. *)
Definition optionsLastSession (last : ISODate) : Options :=
  mkOptions None (Some 91) (Some (mkDate 2026 2 23)) (Some week2Mesocycle) true None
    (Some [mkSession (Some last)]) (Some [topSet184]) None None.

(** A first run: trial mode, nothing stored and no mesocycle given; two
    environments that differ in the identifiers uid() hands out. *)
(** A trial run on 2026-02-23 in the week-2 cycle whose only top set has no
    effort distance. *)
Definition noVxOptions : Options :=
  mkOptions None (Some 91) (Some (mkDate 2026 2 23)) (Some week2Mesocycle) true None
    (Some [mkSession (Some (mkDate 2026 2 20))]) (Some [topSetNoVx]) None None.

Definition firstRunOptions : Options :=
  mkOptions None None (Some (mkDate 2026 2 23)) None true None None None None None.

Definition envA : Env :=
  mkEnv (fun n => "a-" ++ NilZero.string_of_uint (Nat.to_uint n)) (mkDate 2026 2 23)
    "2026-02-23T08:00:00.000Z".

Definition envB : Env :=
  mkEnv (fun n => "b-" ++ NilZero.string_of_uint (Nat.to_uint n)) (mkDate 2026 2 23)
    "2026-02-23T08:00:00.000Z".

(* ================================================================= *)
(** ** Further functions of the engine, and notions for their properties

    The code computes in doubles, where a product or a quotient can fall a
    hair beside the exact value; when that value is a tie of roundToHalf
    the code may round to the other neighbouring half kilo.  Properties of
    rounded loads are therefore stated to within one rounding step
    (0.25 kg), and exactly only where no tie can arise. *)

(* ================================================================= *)
(** ** More of the readiness system *)

(** Vara readiness from recent top-set overshoot. *)
Definition varaReadiness (recentTopSets : list SetRec) (windowN : nat) : ChannelResult :=
  let sets := filter hasBothVx (sliceLast windowN recentTopSets) in
  if Nat.ltb (length sets) 2 then mkChannel None None "vara" None None
  else
    let overshoots := map overshoot sets in
    let meanOvershoot := avg overshoots in
    let cls :=
      if Qle_bool 2 meanOvershoot then RED
      else if Qle_bool 1 meanOvershoot then YELLOW
      else GREEN in
    mkChannel None (Some cls) "vara" (Some meanOvershoot) None.

(** The distance getTodayPlan minimises: days apart within the week, going
    round the end of the week when that is shorter. *)
Definition wrapDistOf (today : Z) (d : DayPlan) : Z :=
  let dist := Z.abs (nullish (dayOfWeek d) 0 - today)%Z in
  Z.min dist (7 - dist)%Z.

(** A day plan whose dayOfWeek is a weekday number: one of JavaScript's
    getDay() values, or 7 for Sunday as recommend() counts it. *)
Definition weekdayPlan (d : DayPlan) : Prop :=
  exists k : Z, dayOfWeek d = Some k /\ (0 <= k <= 7)%Z.

(** *** What a run leaves in the store. *)

Definition isPutMesocycle (w : WriteOp) : bool :=
  match w with PutMesocycle _ => true | _ => false end.

(** A computation whose only writes are mesocycles. *)
Definition writesMesocycles {A : Type} (m : M A) : Prop :=
  forall env st,
    exists W, writes (snd (m env st)) = (writes st ++ W)%list
              /\ forallb isPutMesocycle W = true.

(** The record recommend() stores for the prescription [r], under the
    identifier [id] and the creation time [now]. *)
Definition savedAs (id : string) (r : Recommendation) (now : string) : SavedRecommendation :=
  mkSavedRecommendation id None None "top" (targetExternalLoad r) (deltaPct r)
    (rec_capLevel r) (rec_weekNum r) (rec_dayType r) (rec_targetReps r) (rec_targetVx r)
    now.

Definition taggedWith (id : string) (t : Trace) : Prop := tr_recId t = Some id.

(** The end of a run: every trace carries the prescription's identifier and,
    unless the run is a trial, the prescription and its traces are written
    after the mesocycles. *)
Definition finishes (dry : bool) (m : M Recommendation) : Prop :=
  forall env st,
    let r := fst (m env st) in
    let st' := snd (m env st) in
    Forall (taggedWith (recId r)) (rec_traces r)
    /\ (dry = false ->
        exists W id,
          writes st' = (writes st ++ W ++ PutRecommendation (savedAs id r (clockNow env))
                                          :: map PutDecisionTrace (rec_traces r))%list
          /\ forallb isPutMesocycle W = true
          /\ (recId r <> "" -> id = recId r)).

(* ================================================================= *)
(** ** Failure reaction *)

Record FailureReaction := mkFailureReaction {
  nextSetLoad : Q;
  nextSetReps : Q;
  shouldStop : bool;
  fr_message : JsVal
}.

Definition failureReaction (currentLoadKg targetReps : Q) (isPrimary : bool)
    (consecutiveFailures : Z) : FailureReaction :=
  let nextSetLoad := roundToHalf (currentLoadKg * 0.90) in
  let nextSetReps := if isPrimary then Qmax (targetReps - 1) 1 else targetReps in
  if (2 <=? consecutiveFailures)%Z then
    mkFailureReaction nextSetLoad nextSetReps true
      (VStr "2× failure — lopetatko tähän liikkeeseen?")
  else
    mkFailureReaction nextSetLoad nextSetReps false
      (VText [FStr "Failure — seuraava sarja: "; FNum nextSetLoad; FStr " kg"]).

(* ================================================================= *)
(** ** Accessory progression *)

Record HistoryPoint := mkHistoryPoint {
  hp_dateISO : ISODate;
  hp_e1rm : Q
}.

(** The progress record of one movement.  The two counters are numbers in
    every record updateMovementProgressFromSets builds, so [x || 0] on them
    is [x]. *)
Record Progress := mkProgress {
  pg_movementId : string;
  currentE1RM : option Q;
  e1rmHistory : list HistoryPoint;
  lastLoadKg : option Q;
  lastReps : option Q;
  suggestedLoadKg : option Q;
  suggestedAction : string;
  consecutiveTargetMetSessions : Z;
  stagnationWeeks : Z;
  stagnationFlagged : bool;
  stagnationNotifiedAt : option string;
  pg_status : string;
  restingSince : option string
}.

Record Progression := mkProgression {
  action : string;
  suggestedLoad : option Q;
  pn_reason : JsVal;
  stagnationWarning : bool
}.

Definition accessoryProgression (progress : option Progress) (isLowerBody : bool)
    : Progression :=
  match progress with
  | None => mkProgression "hold" None (VStr "Ei progressiodataa") false
  | Some p =>
    let increment := if isLowerBody then 5 else 2.5 in
    if (2 <=? consecutiveTargetMetSessions p)%Z then
      let newLoad := roundToHalf (orNum (lastLoadKg p) 0 + increment) in
      mkProgression "increase" (Some newLoad)
        (VText [FStr "Target saavutettu ";
                FNum (inject_Z (consecutiveTargetMetSessions p));
                FStr "× peräkkäin → +"; FNum increment; FStr "kg"])
        false
    else if (3 <=? stagnationWeeks p)%Z then
      mkProgression "hold" (lastLoadKg p)
        (VText [FStr "Stagnaatio "; FNum (inject_Z (stagnationWeeks p));
                FStr " viikkoa — harkitse liikkeen vaihtoa"])
        true
    else mkProgression "hold" (lastLoadKg p) (VStr "Jatka samalla painolla") false
  end.

(** One set of the session against its targets.  [None] is the value null
    here: a null rep count compares as 0 and a null Vara (of the set or of
    the session) counts as met.  A set that lacks the key altogether
    compares as NaN in the code and counts as missed; the properties that
    depend on a set being met assume the keys are there. *)
Definition targetMet (sessionTargetReps : Q) (sessionTargetVx : option Q) (s : SetRec)
    : bool :=
  let repsMet := Qle_bool (orNum (targetReps s) sessionTargetReps) (nullish (reps s) 0) in
  let varaMet := match sessionTargetVx, actualVx s with
                 | None, _ => true
                 | _, None => true
                 | Some t, Some a => Qle_bool t a
                 end in
  repsMet && varaMet.

Definition freshProgress (movementId : string) : Progress :=
  mkProgress movementId None [] None None None "hold" 0 0 false None "active" None.

(** Update movement progress after a session; the record is changed in
    place and returned, the clock is read when an estimate is logged. *)
Definition updateMovementProgressFromSets (existingProgress : option Progress)
    (sessionSets : list SetRec) (targetReps : Q) (targetVx : option Q)
    : M (option Progress) :=
  match lastOf sessionSets with
  | None => ret existingProgress
  | Some lastSet =>
    let lastLoadKg' := externalLoadKg lastSet in
    let lastReps' := reps lastSet in
    (* Calculate e1RM for accessory *)
    let e1rm := e1rmAccessory (nullish lastLoadKg' 0) (nullish lastReps' 0) in
    (* Check if target was met for all sets *)
    let allTargetMet := forallb (targetMet targetReps targetVx) sessionSets in
    let progress := nullish existingProgress (freshProgress (movementId lastSet)) in
    (* Update e1RM *)
    let prevE1RM := currentE1RM progress in
    history <- match e1rm with
               | Some e =>
                 today <- todayISO ;;
                 ret (e1rmHistory progress ++ [mkHistoryPoint today e])%list
               | None => ret (e1rmHistory progress)
               end ;;
    (* Update target met counter *)
    let consecutive :=
      if allTargetMet then (consecutiveTargetMetSessions progress + 1)%Z else 0%Z in
    (* Update stagnation *)
    let sw :=
      match prevE1RM, e1rm with
      | Some prev, Some e =>
        if Qle_bool e prev then ((stagnationWeeks progress + 1)%Z, stagnationFlagged progress)
        else (0%Z, false)
      | _, _ => (stagnationWeeks progress, stagnationFlagged progress)
      end in
    let flagged := if (3 <=? fst sw)%Z then true else snd sw in
    let updated :=
      mkProgress (pg_movementId progress) e1rm history lastLoadKg' lastReps'
        (suggestedLoadKg progress) (suggestedAction progress) consecutive (fst sw) flagged
        (stagnationNotifiedAt progress) (pg_status progress) (restingSince progress) in
    (* Compute suggestion *)
    let prog := accessoryProgression (Some updated) false in
    ret (Some (mkProgress (pg_movementId progress) e1rm history lastLoadKg' lastReps'
                 (suggestedLoad prog) (action prog) consecutive (fst sw) flagged
                 (stagnationNotifiedAt progress) (pg_status progress)
                 (restingSince progress)))
  end.

(* ================================================================= *)
(** ** Velocity loss % *)

(** [!v]: missing or zero. *)
Definition falsyNum (v : option Q) : bool :=
  match v with Some x => Qeq_bool x 0 | None => true end.

Definition velocityLossPercent (rep1Velocity lastRepVelocity : option Q) : option Q :=
  if falsyNum rep1Velocity || falsyNum lastRepVelocity
     || Qle_bool (nullish rep1Velocity 0) 0 then None
  else
    Some ((nullish rep1Velocity 0 - nullish lastRepVelocity 0) / nullish rep1Velocity 0 * 100).

(* ================================================================= *)
(** ** Stagnation detection *)

Record Stagnation := mkStagnation {
  stagnated : bool;
  severity : option string;
  sg_message : JsVal
}.

Definition checkStagnation (progress : option Progress) : Stagnation :=
  match progress with
  | None => mkStagnation false None VNull
  | Some p =>
    if (stagnationWeeks p <? 3)%Z then mkStagnation false None VNull
    else if (6 <=? stagnationWeeks p)%Z then
      mkStagnation true (Some "orange")
        (VText [FNum (inject_Z (stagnationWeeks p));
                FStr " viikkoa ilman edistystä — suosittelemme liikkeen vaihtoa"])
    else
      mkStagnation true (Some "yellow")
        (VText [FNum (inject_Z (stagnationWeeks p));
                FStr " viikkoa ilman edistystä — harkitse liikkeen vaihtoa"])
  end.

(* ================================================================= *)
(** ** Speed day load *)

Definition speedDayLoad (e1rmExternal : option Q) (bodyweightKg : Q) : option Q :=
  match e1rmExternal with
  | None => None
  | Some e =>
    let pct := 0.575 in
    let systemE1RM := e + bodyweightKg in
    let targetSystem := systemE1RM * pct in
    Some (roundToHalf (Qmax 0 (targetSystem - bodyweightKg)))
  end.

(* ================================================================= *)
(** ** Weekly stimulus tracker *)

Record Movement := mkMovement {
  mv_movementId : string;
  mv_category : option string;
  countsAsPullVolume : bool
}.

Record CategoryStat := mkCategoryStat {
  cs_sets : Z;
  cs_tonnage : Q
}.

Record Stimulus := mkStimulus {
  pullVolumeSets : Z;
  pullVolumeTonnage : Q;
  heavyExposures : Z;
  totalTonnageExternal : Q;
  byCategory : list (string * CategoryStat)
}.

(** [new Map(movements.map(m => [m.movementId, m])).get(id)]: of two
    movements with one identifier the later one wins. *)
Definition movementMapGet (movements : list Movement) (id : string) : option Movement :=
  findFirst (fun m => String.eqb (mv_movementId m) id) (rev movements).

(** The object byCategory, as its own properties in the order they were
    created: [byCategory[category].sets++] and [.tonnage += tonnage], on a
    fresh [{ sets: 0, tonnage: 0 }] when the category is new. *)
Fixpoint bumpCategory (category : string) (tonnage : Q) (o : list (string * CategoryStat))
    : list (string * CategoryStat) :=
  match o with
  | [] => [(category, mkCategoryStat 1 (0 + tonnage))]
  | (k, v) :: t =>
    if String.eqb k category then
      (k, mkCategoryStat (cs_sets v + 1) (cs_tonnage v + tonnage)) :: t
    else (k, v) :: bumpCategory category tonnage t
  end.

Definition categoryOf (movements : list Movement) (s : SetRec) : string :=
  orStr (match movementMapGet movements (movementId s) with
         | Some m => mv_category m
         | None => None
         end) "muu".

Definition countsAsPull (movements : list Movement) (s : SetRec) : bool :=
  match movementMapGet movements (movementId s) with
  | Some m => countsAsPullVolume m
  | None => false
  end.

Definition setTonnage (s : SetRec) : Q := orNum (externalLoadKg s) 0 * orNum (reps s) 0.

Definition isHeavyExposure (s : SetRec) : bool :=
  Qle_bool (orNum (reps s) 0 + setVara s) 4.

Definition stimulusStep (movements : list Movement) (acc : Stimulus) (s : SetRec)
    : Stimulus :=
  let tonnage := setTonnage s in
  let pull := countsAsPull movements s in
  mkStimulus
    (if pull then pullVolumeSets acc + 1 else pullVolumeSets acc)%Z
    (if pull then pullVolumeTonnage acc + tonnage else pullVolumeTonnage acc)
    (if isHeavyExposure s then heavyExposures acc + 1 else heavyExposures acc)%Z
    (totalTonnageExternal acc + tonnage)
    (bumpCategory (categoryOf movements s) tonnage (byCategory acc)).

Definition weeklyStimulus (sets : list SetRec) (movements : list Movement) : Stimulus :=
  fold_left (stimulusStep movements) sets (mkStimulus 0 0 0 0 []).

(** Property names every JavaScript object inherits; a category of one of
    these names would not start from a fresh counter. *)
Definition inheritedKeys : list string :=
  [ "constructor"; "toString"; "toLocaleString"; "valueOf"; "hasOwnProperty";
    "isPrototypeOf"; "propertyIsEnumerable"; "__proto__"; "__defineGetter__";
    "__defineSetter__"; "__lookupGetter__"; "__lookupSetter__" ].

Definition plainCategories (movements : list Movement) : Prop :=
  forall m, In m movements ->
            existsb (String.eqb (orStr (mv_category m) "muu")) inheritedKeys = false.

(** The sets of one category. *)
Definition inCategory (movements : list Movement) (c : string) (s : SetRec) : bool :=
  String.eqb (categoryOf movements s) c.

(* ================================================================= *)
(** ** Elite volume/intensity check *)

Record Warning := mkWarning {
  w_type : string;
  w_current : option Z;
  w_target : option Z;
  w_pushSets : option Z;
  w_pullSets : option Z;
  w_message : JsVal
}.

Record EliteCheck := mkEliteCheck {
  stimulus : Stimulus;
  warnings : list Warning;
  isEliteReady : bool
}.

(** [byCategory[key]?.sets || 0] *)
Definition categorySets (o : list (string * CategoryStat)) (key : string) : Z :=
  match findFirst (fun kv => String.eqb (fst kv) key) o with
  | Some kv => cs_sets (snd kv)
  | None => 0%Z
  end.

Definition eliteVolumeCheck (weekSets : list SetRec) (movements : list Movement)
    : EliteCheck :=
  let stimulus := weeklyStimulus weekSets movements in
  (* Elite pull volume *)
  let w1 :=
    if (pullVolumeSets stimulus <? 12)%Z then
      [mkWarning "low_pull_volume" (Some (pullVolumeSets stimulus)) (Some 15%Z) None None
         (VText [FStr "Vetosarjoja "; FNum (inject_Z (pullVolumeSets stimulus));
                 FStr "/viikko — eliittitasolla suositus ≥15"])]
    else [] in
  (* Heavy exposure frequency *)
  let w2 :=
    if (heavyExposures stimulus <? 3)%Z then
      [mkWarning "low_heavy_exposure" (Some (heavyExposures stimulus)) (Some 6%Z) None None
         (VText [FStr "Heavy-altistuksia "; FNum (inject_Z (heavyExposures stimulus));
                 FStr "/viikko — suositus ≥6"])]
    else [] in
  (* Check push-pull balance *)
  let pushSets := (categorySets (byCategory stimulus) "horisontaalityöntö"
                   + categorySets (byCategory stimulus) "vertikaalityöntö")%Z in
  let pullSets := pullVolumeSets stimulus in
  let w3 :=
    if (0 <? pullSets)%Z && Qlt_bool (inject_Z pushSets) (inject_Z pullSets * 0.5) then
      [mkWarning "push_pull_imbalance" None None (Some pushSets) (Some pullSets)
         (VText [FStr "Työntö/veto-suhde "; FNum (inject_Z pushSets); FStr ":";
                 FNum (inject_Z pullSets);
                 FStr " — lisää työntöliikkeitä (tavoite ≥1:2)"])]
    else [] in
  let warnings := (w1 ++ w2 ++ w3)%list in
  mkEliteCheck stimulus warnings (Nat.eqb (length warnings) 0).

(** The sets and the tonnage of all categories together. *)
Definition categorySetsTotal (o : list (string * CategoryStat)) : Z :=
  fold_right (fun kv a => (cs_sets (snd kv) + a)%Z) 0%Z o.

Definition categoryTonnageTotal (o : list (string * CategoryStat)) : Q :=
  fold_right (fun kv a => cs_tonnage (snd kv) + a) 0 o.

(* ================================================================= *)
(** ** All-movement e1RM computation *)

(** [s.externalLoadKg > 0 && s.reps >= 1]; a missing value fails both. *)
Definition hasValidData (s : SetRec) : bool :=
  match externalLoadKg s, reps s with
  | Some l, Some r => Qlt_bool 0 l && Qle_bool 1 r
  | _, _ => false
  end.

Definition computeMovementE1RM (movementSets : list SetRec) (isPrimary : bool)
    (bodyweightKg : Q) : option Q :=
  match movementSets with
  | [] => None
  | _ =>
    (* Take last 6 sets with valid data *)
    let recent := sliceLast 6 (filter hasValidData movementSets) in
    match recent with
    | [] => None
    | _ =>
      let values :=
        notNull (map (fun s =>
                        if isPrimary then
                          let vara := setVara s in
                          e1rmSystem bodyweightKg (nullish (externalLoadKg s) 0)
                            (nullish (reps s) 0) (Some vara)
                        else e1rmAccessory (nullish (externalLoadKg s) 0)
                               (nullish (reps s) 0))
                     recent) in
      match values with
      | [] => None
      | _ => Some (median values)
      end
    end
  end.

(* ================================================================= *)
(** ** Adaptive mesocycle calibration *)

Record Calibration := mkCalibration {
  adjustment : Q;
  cal_avgOvershoot : option Q;
  cal_reason : JsVal
}.

(** The filter keeps the sets whose two Vara values are not null.  A set
    that lacks one of the keys altogether passes the filter of the code and
    turns the average into NaN (adjustment 0); the properties about the
    average assume that every set carries both values. *)
Definition calibrateMesocycle (varaFeedbackSets : list SetRec) : Calibration :=
  match varaFeedbackSets with
  | [] => mkCalibration 0 None (VStr "Ei dataa")
  | _ =>
    let overshoots := map overshoot (filter hasBothVx varaFeedbackSets) in
    match overshoots with
    | [] => mkCalibration 0 None (VStr "Ei Vara-dataa")
    | _ =>
      let avgOvershoot := avg overshoots in
      if Qlt_bool 1.0 avgOvershoot then
        mkCalibration 0.01 (Some avgOvershoot)
          (VText [FStr "Liian kevyt (avgOvershoot="; FFixed 2 avgOvershoot;
                  FStr ") → +1%"])
      else if Qlt_bool avgOvershoot (-0.5) then
        mkCalibration (-0.01) (Some avgOvershoot)
          (VText [FStr "Liian raskas (avgOvershoot="; FFixed 2 avgOvershoot;
                  FStr ") → -1%"])
      else
        mkCalibration 0 (Some avgOvershoot)
          (VText [FStr "Sopiva (avgOvershoot="; FFixed 2 avgOvershoot; FStr ")"])
    end
  end.

(** *** The shape of a decision trace. *)

(** A stretch of the trace: one rule, or any number of rules out of a list. *)
Inductive Stretch :=
| One (rule : string)
| AnyOf (allowed : list string).

Fixpoint follows (g : list Stretch) (l : list string) : Prop :=
  match g with
  | [] => l = []
  | One r :: g' => exists t, l = r :: t /\ follows g' t
  | AnyOf a :: g' =>
    exists l1 l2, l = (l1 ++ l2)%list /\ Forall (fun r => In r a) l1 /\ follows g' l2
  end.

(** The rules of recommend() in the order of its steps. *)
Definition cycleRules : list string := ["MESOCYCLE_CREATED"; "MESOCYCLE_NEW_CYCLE"].

Definition breakRules : list string :=
  ["RETURN_FROM_BREAK_DAYTYPE"; "RETURN_FROM_BREAK"; "MESOCYCLE_BREAK_RESET"].

Definition adjustmentRules : list string :=
  ["VARA_TREND_CORRECTION"; "BREAK_MODIFIER"; "CAP_RED_DAYTYPE"; "CAP_RED"; "CAP_YELLOW"].

Definition closingRules : list string :=
  ["VARA_FEEDBACK"; "ACCESSORY_CAP_ACTIVE"; "DAY_PLAN_GENERATED"].

Definition traceShape : list Stretch :=
  [ AnyOf cycleRules; One "MESOCYCLE_PHASE"; AnyOf breakRules;
    One "E1RM_COMPUTED"; One "DELTA_PCT_RAW"; AnyOf adjustmentRules;
    One "TARGET_LOAD"; AnyOf closingRules ].

(** A computation that only adds traces, all of rules out of [a]. *)
Definition emits {A : Type} (a : list string) (m : M A) : Prop :=
  forall env st,
    exists l, map ruleId (traces (snd (m env st))) = (map ruleId (traces st) ++ l)%list
              /\ Forall (fun r => In r a) l.

(** A computation whose prescription's trace continues the run's trace by
    a list of the shape [g]. *)
Definition ends (g : list Stretch) (m : M Recommendation) : Prop :=
  forall env st,
    exists l, map ruleId (rec_traces (fst (m env st))) = (map ruleId (traces st) ++ l)%list
              /\ follows g l.

(* ================================================================= *)
(** * Properties *)

(** ** Comparisons on numbers *)

Lemma Qle_bool_false (x y : Q) : Qle_bool x y = false <-> y < x.
Proof.
  split; intro H.
  - apply Qnot_le_lt. intro L. apply Qle_bool_iff in L. congruence.
  - destruct (Qle_bool x y) eqn:E; [|reflexivity].
    apply Qle_bool_iff in E. exfalso. apply (Qlt_not_le _ _ H E).
Qed.

Lemma Qlt_bool_true (x y : Q) : Qlt_bool x y = true <-> x < y.
Proof.
  unfold Qlt_bool. rewrite negb_true_iff. apply Qle_bool_false.
Qed.

Lemma Qlt_bool_false (x y : Q) : Qlt_bool x y = false <-> y <= x.
Proof.
  unfold Qlt_bool. rewrite negb_false_iff. apply Qle_bool_iff.
Qed.

(** ** Readiness fusion *)

Ltac by_channel_cases :=
  repeat match goal with
         | c : ChannelResult |- _ => destruct c as [? [[| |]|] ? ? ?]
         end.

(** C1.  For every triple of channel results, combineReadiness follows the
    fusion rule of the specification: no active channel gives GREEN with
    cap 0; otherwise the 2/3 vote, then the velocity veto (velocity RED
    turns GREEN into YELLOW, and with another channel YELLOW or RED it
    forces RED); capLevel is 0, 1, 2 for GREEN, YELLOW, RED.  The four
    golden cases follow. *)
Theorem combineReadiness_fusion_rule :
  forall velocityR hrvR varaR : ChannelResult,
    let res := combineReadiness velocityR hrvR varaR in
    (combined res, capLevel res)
      = fusionRule (class velocityR) (class hrvR) (class varaR)
    /\ capLevel res = capOf (combined res)
    /\ (class velocityR = Some RED -> class hrvR = Some GREEN ->
        class varaR = Some GREEN -> combined res = YELLOW)
    /\ (class velocityR = Some RED ->
        class hrvR = Some YELLOW \/ class varaR = Some YELLOW -> combined res = RED)
    /\ (class velocityR = Some GREEN -> class hrvR = Some GREEN ->
        class varaR = Some GREEN -> combined res = GREEN /\ capLevel res = 0%Z)
    /\ ((class velocityR = Some RED /\ class hrvR = Some RED)
        \/ (class velocityR = Some RED /\ class varaR = Some RED)
        \/ (class hrvR = Some RED /\ class varaR = Some RED) ->
        combined res = RED /\ capLevel res = 2%Z).
Proof.
  intros velocityR hrvR varaR.
  by_channel_cases; cbn;
    repeat split; intros; try reflexivity;
      repeat match goal with
             | H : _ \/ _ |- _ => destruct H
             | H : _ /\ _ |- _ => destruct H
             end; try discriminate.
Qed.

Lemma combineReadiness_fusion_rule_witness :
  combined (combineReadiness (chan "velocity" (Some RED)) (chan "hrv" (Some GREEN))
              (chan "vara" (Some GREEN))) = YELLOW
  /\ combined (combineReadiness (chan "velocity" (Some RED)) (chan "hrv" (Some YELLOW))
                 (chan "vara" (Some GREEN))) = RED.
Proof.
  split.
  - destruct (combineReadiness_fusion_rule (chan "velocity" (Some RED))
                (chan "hrv" (Some GREEN)) (chan "vara" (Some GREEN)))
      as (_ & _ & H & _).
    apply H; reflexivity.
  - destruct (combineReadiness_fusion_rule (chan "velocity" (Some RED))
                (chan "hrv" (Some YELLOW)) (chan "vara" (Some GREEN)))
      as (_ & _ & _ & H & _).
    apply H; [reflexivity | left; reflexivity].
Defined.

(** ** z-score classification *)

Lemma classifyReadinessZ_spec (z : Q) :
  (-0.5 <= z -> classifyReadinessZ z = GREEN)
  /\ (-1.0 <= z < -0.5 -> classifyReadinessZ z = YELLOW)
  /\ (z < -1.0 -> classifyReadinessZ z = RED).
Proof.
  unfold classifyReadinessZ.
  destruct (Qle_bool (-0.5) z) eqn:E1;
    [apply Qle_bool_iff in E1 | apply Qle_bool_false in E1];
    [| destruct (Qle_bool (-1.0) z) eqn:E2;
       [apply Qle_bool_iff in E2 | apply Qle_bool_false in E2]];
    repeat split; intros; try reflexivity; exfalso; lra.
Qed.

(** C2.  What classifyReadinessZ returns on its two boundaries: -0.50 is
    GREEN and -1.00 is YELLOW, since both comparisons are [>=].  The test
    suite of the repository expects YELLOW and RED there. *)
Theorem classifyReadinessZ_boundaries :
  classifyReadinessZ (-0.50) = GREEN /\ classifyReadinessZ (-1.00) = YELLOW.
Proof. split; reflexivity. Qed.

(** ** Strength estimators *)

(** On whole repetition counts the guard [reps < 1] is [reps <= 0]. *)
Lemma whole_reps_guard (n : Z) : inject_Z n < 1 <-> inject_Z n <= 0.
Proof. unfold Qlt, Qle. cbn. lia. Qed.

(** C9, as stated, fails on half a repetition: the mass and the reps are
    positive, and both estimators return null. *)
Lemma e1rm_fractional_reps_counterexample :
  ~ e1rmSystem_as_stated 91 67 (1 # 2) (Some 2)
  /\ ~ e1rmAccessory_as_stated 80 (1 # 2).
Proof.
  split; intros [_ H]; destruct H as [v Hv]; try discriminate Hv;
    intros [L | L]; revert L; apply Qlt_not_le; reflexivity.
Qed.

(** C9 (amended).  e1rmSystem returns null exactly when bodyweight +
    externalLoad <= 0 or reps < 1, and e1rmAccessory exactly when load <= 0
    or reps < 1; on every other input they return the Epley estimate. *)
Theorem e1rm_null_cases :
  forall (bw ext load r : Q) (vx : option Q),
    (e1rmSystem bw ext r vx = None <-> bw + ext <= 0 \/ r < 1)
    /\ (~ (bw + ext <= 0 \/ r < 1) ->
        e1rmSystem bw ext r vx
          = Some ((bw + ext) * (1 + (r + nullish vx 2) / 30)))
    /\ (e1rmAccessory load r = None <-> load <= 0 \/ r < 1)
    /\ (~ (load <= 0 \/ r < 1) ->
        e1rmAccessory load r = Some (load * (1 + r / 30))).
Proof.
  intros bw ext load r vx.
  unfold e1rmSystem, e1rmAccessory.
  destruct (Qle_bool (bw + ext) 0) eqn:E1;
    [apply Qle_bool_iff in E1 | apply Qle_bool_false in E1];
  (destruct (Qle_bool load 0) eqn:E3;
    [apply Qle_bool_iff in E3 | apply Qle_bool_false in E3]);
  (destruct (Qlt_bool r 1) eqn:E2;
    [apply Qlt_bool_true in E2 | apply Qlt_bool_false in E2]);
  cbn [orb]; repeat split; intros; try reflexivity; try discriminate; auto;
    try (exfalso; tauto);
    try (exfalso; match goal with H : _ \/ _ |- _ => destruct H end; lra).
Qed.

Lemma e1rm_null_cases_witness :
  e1rmSystem 91 67 3 None = Some ((91 + 67) * (1 + (3 + nullish None 2) / 30)).
Proof.
  apply (e1rm_null_cases 91 67 80 3 None).
  intros [L | L]; revert L; [apply Qlt_not_le | apply Qle_not_lt]; vm_compute; congruence.
Defined.

(** ** Return from break *)

Lemma newDate_diff (last today : ISODate) :
  ((newDate today - newDate last) / MS_PER_DAY)%Z = daysBetween last today.
Proof.
  unfold newDate, daysBetween.
  rewrite <- Z.mul_sub_distr_r.
  apply Z.div_mul. unfold MS_PER_DAY. lia.
Qed.

(** With [skippedWeeks = floor(breakDays / 7)], as recommend() computes it,
    the reset is flagged from 14 days on. *)
Lemma skippedWeeks_reset (m : option Mesocycle) (d : Z) :
  reset (mesocycleBreakReset m (d / 7)) = true <-> (14 <= d)%Z.
Proof.
  unfold mesocycleBreakReset.
  destruct (2 <=? d / 7)%Z eqn:E; cbn [reset].
  - apply Z.leb_le in E. split; [intros _ | reflexivity].
    pose proof (Z.mul_div_le d 7). lia.
  - apply Z.leb_gt in E. split; [discriminate | intro H].
    assert (2 <= d / 7)%Z by (apply Z.div_le_lower_bound; lia). lia.
Qed.

(** C5.  For every last-session date and current date, with [d] the days
    between them: breakAnalysis reports [d]; below 7 days the modifier is 0
    with no forced day type; 7 to 13 days give -5% and no forced day type;
    14 to 27 days give -10% and a forced volume day; 28 days or more give
    -15% and a forced volume day.  The reset is flagged exactly from 14 days
    on, and not for a 7-day break. *)
Theorem breakAnalysis_thresholds :
  forall (clock last today : ISODate) (m : option Mesocycle),
    let d := daysBetween last today in
    let b := breakAnalysis clock (Some last) (Some today) in
    breakDays b = Some d
    /\ ((d < 7)%Z -> modifier b = 0 /\ forcedDayType b = None)
    /\ ((7 <= d < 14)%Z -> modifier b = -0.05 /\ forcedDayType b = None)
    /\ ((14 <= d < 28)%Z -> modifier b = -0.10 /\ forcedDayType b = Some "volume")
    /\ ((28 <= d)%Z -> modifier b = -0.15 /\ forcedDayType b = Some "volume")
    /\ (reset (mesocycleBreakReset m (d / 7)) = true <-> (14 <= d)%Z)
    /\ (d = 7%Z -> reset (mesocycleBreakReset m (d / 7)) = false).
Proof.
  intros clock last today m d b.
  assert (R7 : d = 7%Z -> reset (mesocycleBreakReset m (d / 7)) = false).
  { intros ->. reflexivity. }
  pose proof (skippedWeeks_reset m d) as Hw.
  subst b. unfold breakAnalysis. cbn [nullish].
  rewrite newDate_diff. fold d.
  destruct (d <? 7)%Z eqn:E7; [apply Z.ltb_lt in E7 | apply Z.ltb_ge in E7];
    [| destruct (d <? 14)%Z eqn:E14; [apply Z.ltb_lt in E14 | apply Z.ltb_ge in E14];
       [| destruct (d <? 28)%Z eqn:E28; [apply Z.ltb_lt in E28 | apply Z.ltb_ge in E28]]];
    cbn [breakDays modifier forcedDayType];
    repeat split; intros; try lia; try reflexivity; try (apply Hw; assumption);
      try (apply R7; assumption).
Qed.

Lemma breakAnalysis_thresholds_witness :
  (modifier (breakAnalysis (mkDate 2026 2 25) (Some (mkDate 2026 2 18))
               (Some (mkDate 2026 2 25))) = -0.05
   /\ forcedDayType (breakAnalysis (mkDate 2026 2 25) (Some (mkDate 2026 2 18))
                       (Some (mkDate 2026 2 25))) = None)
  /\ (modifier (breakAnalysis (mkDate 2026 2 25) (Some (mkDate 2026 1 28))
                  (Some (mkDate 2026 2 25))) = -0.15
      /\ forcedDayType (breakAnalysis (mkDate 2026 2 25) (Some (mkDate 2026 1 28))
                          (Some (mkDate 2026 2 25))) = Some "volume").
Proof.
  split.
  - destruct (breakAnalysis_thresholds (mkDate 2026 2 25) (mkDate 2026 2 18)
                (mkDate 2026 2 25) None) as (_ & _ & H & _).
    apply H. vm_compute. split; [discriminate | reflexivity].
  - destruct (breakAnalysis_thresholds (mkDate 2026 2 25) (mkDate 2026 1 28)
                (mkDate 2026 2 25) None) as (_ & _ & _ & _ & H & _).
    apply H. vm_compute. discriminate.
Defined.

(** ** Running recommend() step by step *)

(** Name the result of the first action of a bind. *)
Ltac run_bind :=
  lazymatch goal with
  | |- context [bind ?m ?k ?env ?st] =>
    let a := fresh "a" in
    let s := fresh "s" in
    let E := fresh "E" in
    change (bind m k env st) with (let (x, s') := m env st in k x env s');
    destruct (m env st) as [a s] eqn:E; cbv beta
  end.

Lemma runRecommend_fst (env : Env) (db : Store) (o : Options) :
  fst (runRecommend env db o) = fst (recommend db o env initialState).
Proof.
  unfold runRecommend. destruct (recommend db o env initialState); reflexivity.
Qed.

(** ** Readiness cap *)

Lemma stepReadinessCap_value (c : Z) (d : Q) (dayType : string) (env : Env) (st : RunState) :
  fst (stepReadinessCap c d dayType env st)
  = if (c =? 2)%Z then
      (Qmin d 0, if String.eqb dayType "heavy" then "volume" else dayType)
    else if (c =? 1)%Z then (d * 0.5, dayType)
    else (d, dayType).
Proof.
  unfold stepReadinessCap.
  destruct (c =? 2)%Z.
  - destruct (String.eqb dayType "heavy"); reflexivity.
  - destruct (c =? 1)%Z; reflexivity.
Qed.

Lemma stepReadinessCap_writes (c : Z) (d : Q) (dayType : string) (env : Env) (st : RunState) :
  writes (snd (stepReadinessCap c d dayType env st)) = writes st.
Proof.
  unfold stepReadinessCap.
  destruct (c =? 2)%Z.
  - destruct (String.eqb dayType "heavy"); reflexivity.
  - destruct (c =? 1)%Z; reflexivity.
Qed.


(** C4.  Cap-only: for every clamped adjustment [d] and every capLevel, the
    capped adjustment lies between min(d, 0) and max(d, 0); the day type
    changes only from heavy to volume at capLevel 2; the store is not
    written. *)
Theorem readiness_cap_only :
  forall (c : Z) (d : Q) (dayType : string) (env : Env) (st : RunState),
    let r := fst (stepReadinessCap c d dayType env st) in
    Qmin d 0 <= fst r <= Qmax d 0
    /\ snd r = (if ((c =? 2)%Z && String.eqb dayType "heavy")%bool
                then "volume" else dayType)
    /\ writes (snd (stepReadinessCap c d dayType env st)) = writes st.
Proof.
  intros c d dayType env st r. subst r.
  rewrite stepReadinessCap_value, stepReadinessCap_writes.
  assert (Hmin : Qmin d 0 <= d) by apply Q.le_min_l.
  assert (Hmin0 : Qmin d 0 <= 0) by apply Q.le_min_r.
  assert (Hmax : d <= Qmax d 0) by apply Q.le_max_l.
  assert (Hmax0 : 0 <= Qmax d 0) by apply Q.le_max_r.
  destruct (c =? 2)%Z; [| destruct (c =? 1)%Z]; cbn [fst snd andb];
    repeat split; try reflexivity; try lra.
Qed.

(** In every run the prescription's adjustment and day type are what the
    cap step returns at the run's capLevel. *)
Lemma recommend_applies_cap (db : Store) (o : Options) (env : Env) (st : RunState) :
  let r := fst (recommend db o env st) in
  exists (d : Q) (t : string) (s : RunState),
    (deltaPct r, rec_dayType r) = fst (stepReadinessCap (rec_capLevel r) d t env s).
Proof.
  cbv zeta. unfold recommend. repeat run_bind. unfold ret.
  cbn [fst deltaPct rec_dayType rec_capLevel].
  match goal with
  | E : stepReadinessCap _ ?d ?t _ ?s = (?a, _) |- _ =>
    exists d, t, s; rewrite E; destruct a; reflexivity
  end.
Qed.

(** With a RED cap no run prescribes an increase or a heavy day. *)
Lemma recommend_red_cap (db : Store) (o : Options) (env : Env) (st : RunState) :
  let r := fst (recommend db o env st) in
  rec_capLevel r = 2%Z -> deltaPct r <= 0 /\ rec_dayType r <> "heavy".
Proof.
  cbv zeta. intro H2.
  destruct (recommend_applies_cap db o env st) as (d & t & s & H).
  rewrite H2, stepReadinessCap_value in H. cbn [Z.eqb Pos.eqb] in H.
  injection H as Hd Ht. rewrite Hd, Ht. split; [apply Q.le_min_r |].
  destruct (String.eqb t "heavy") eqn:E; [discriminate |].
  apply String.eqb_neq. exact E.
Qed.

(** ** Accessory-volume cap *)

Lemma stepAccessoryCap_value (c : Z) (r : Readiness) (env : Env) (st : RunState) :
  fst (stepAccessoryCap c r env st) = ((c =? 2)%Z && allBadOf r)%bool.
Proof.
  unfold stepAccessoryCap.
  destruct (c =? 2)%Z; [|reflexivity].
  destruct (allBadOf r); reflexivity.
Qed.

Lemma stepDayPlan_value (dp : option DayPlan) (t : string) (wd : option WeekDef)
    (a : bool) (env : Env) (st : RunState) :
  fst (stepDayPlan dp t wd a env st)
  = match dp with
    | Some p => match slots p with
                | [] => generateDefaultDayPlan t wd a
                | _ => p
                end
    | None => generateDefaultDayPlan t wd a
    end.
Proof.
  unfold stepDayPlan. destruct dp as [p|]; [destruct (slots p) |]; reflexivity.
Qed.

Lemma allBadOf_spec (r : Readiness) :
  allBadOf r = true
  <-> forall ch, In ch (classifiedChannels r) ->
                 class ch = Some YELLOW \/ class ch = Some RED.
Proof.
  unfold allBadOf. rewrite forallb_forall.
  split; intros H ch Hin; specialize (H ch Hin); unfold isYellowOrRed in *;
    destruct (class ch) as [[| |]|]; auto; try discriminate;
      destruct H; discriminate.
Qed.

Lemma capSlot_spec (s : Slot) :
  (role s = "accessory" ->
     sets (capSlot s) = inject_Z (Z.max 2 (Math_round (sets s * 0.7)))
     /\ role (capSlot s) = role s /\ category (capSlot s) = category s
     /\ defaultMovementName (capSlot s) = defaultMovementName s
     /\ slot_reps (capSlot s) = slot_reps s /\ slot_targetVx (capSlot s) = slot_targetVx s)
  /\ (role s <> "accessory" -> capSlot s = s).
Proof.
  unfold capSlot. split; intro H.
  - rewrite H. cbn. repeat split; assumption || reflexivity.
  - apply String.eqb_neq in H. rewrite H. reflexivity.
Qed.

Lemma freshCycle_steps (o : Options) (d : ISODate) (env : Env) (st s0 s1 : RunState)
    (m0 m1 : Mesocycle) :
  createDefaultMesocycle (Some d) env st = (m0, s0) ->
  (if dryRun o then ret m0 else saveMesocycle m0) env s0 = (m1, s1) ->
  defaultShaped d m1.
Proof.
  unfold createDefaultMesocycle, bind, uid, ret. intros [= <- <-].
  destruct (dryRun o).
  - intros [= <- _]. repeat split; reflexivity.
  - unfold saveMesocycle, bind, uid, ret, dbPut. cbn [mesocycleId].
    destruct (String.eqb _ ""); intros [= <- _]; repeat split; reflexivity.
Qed.

Lemma stepGetMesocycle_cycle (db : Store) (o : Options) (d : ISODate) (env : Env)
    (st : RunState) :
  match orElse (opt_mesocycle o) (getActiveMesocycle db) with
  | Some m => fst (stepGetMesocycle db o d env st) = m
  | None => defaultShaped d (fst (stepGetMesocycle db o d env st))
  end.
Proof.
  unfold stepGetMesocycle.
  destruct (orElse (opt_mesocycle o) (getActiveMesocycle db)) as [m|]; [reflexivity |].
  repeat run_bind. unfold ret. cbn [fst].
  eapply freshCycle_steps; eassumption.
Qed.

Lemma defaultShaped_week (d : ISODate) (m : Mesocycle) :
  defaultShaped d m -> getMesocycleWeek (Some m) d = Some 1%Z.
Proof.
  intros (Hs & Hc & _). unfold getMesocycleWeek. rewrite Hs, Hc. cbv zeta.
  rewrite newDate_diff. unfold daysBetween. rewrite Z.sub_diag. reflexivity.
Qed.

Lemma stepWeek_cycle (o : Options) (d : ISODate) (m : Mesocycle) (env : Env)
    (st : RunState) :
  match getMesocycleWeek (Some m) d with
  | Some w => fst (stepWeek o d m env st) = (m, w)
  | None => defaultShaped d (fst (fst (stepWeek o d m env st)))
            /\ snd (fst (stepWeek o d m env st)) = 1%Z
  end.
Proof.
  unfold stepWeek.
  destruct (getMesocycleWeek (Some m) d) as [w|]; [reflexivity |].
  repeat run_bind. unfold ret. cbn [fst snd].
  split; [eapply freshCycle_steps; eassumption | reflexivity].
Qed.

Lemma samePlans (m1 m2 : Mesocycle) (w dow : Z) :
  weekDefs m1 = weekDefs m2 -> weekPlans m1 = weekPlans m2 ->
  getTodayPlan (Some m1) w dow = getTodayPlan (Some m2) w dow
  /\ getWeekDef (Some m1) w = getWeekDef (Some m2) w.
Proof.
  intros Hd Hp. unfold getTodayPlan, getWeekDef. rewrite Hd, Hp. split; reflexivity.
Qed.

(** Steps 1 and 2 of a run end on the plan of [planOfRun]. *)
Lemma run_starts_from_plan (db : Store) (o : Options) (env : Env) (s s0 : RunState) :
  let d := nullish (opt_dateISO o) (clockToday env) in
  let dow := (if (getDay d =? 0)%Z then 7 else getDay d)%Z in
  let mw := fst (stepWeek o d (fst (stepGetMesocycle db o d env s)) env s0) in
  (getTodayPlan (Some (fst mw)) (snd mw) dow, getWeekDef (Some (fst mw)) (snd mw))
  = planOfRun env db o.
Proof.
  cbv zeta. unfold planOfRun. cbv zeta.
  set (d := nullish (opt_dateISO o) (clockToday env)).
  set (dow := (if (getDay d =? 0)%Z then 7 else getDay d)%Z).
  pose proof (stepGetMesocycle_cycle db o d env s) as H1.
  set (m1 := fst (stepGetMesocycle db o d env s)) in *.
  pose proof (stepWeek_cycle o d m1 env s0) as H2.
  assert (Hfresh : forall m, defaultShaped d m ->
            forall w, (getTodayPlan (Some m) w dow, getWeekDef (Some m) w)
                      = (getTodayPlan (Some defaultCycle) w dow,
                         getWeekDef (Some defaultCycle) w)).
  { intros m (_ & _ & Hd & Hp) w.
    destruct (samePlans m defaultCycle w dow Hd Hp) as [-> ->]. reflexivity. }
  destruct (orElse (opt_mesocycle o) (getActiveMesocycle db)) as [m|].
  - rewrite H1 in H2.  subst m1. rewrite H1.
    destruct (getMesocycleWeek (Some m) d) as [w|].
    + rewrite H2. reflexivity.
    + destruct H2 as [Hs Hw]. rewrite Hw. cbn [fst snd]. apply Hfresh, Hs.
  - rewrite (defaultShaped_week d m1 H1) in H2. rewrite H2. cbn [fst snd].
    apply Hfresh, H1.
Qed.

(** C6, as stated, fails in both directions.  Three YELLOW channels combine
    to YELLOW (capLevel 1) and the cap stays off; velocity RED, HRV RED and
    no Vara data combine to RED and the cap is on with two channels. *)
Lemma accessoryCap_counterexample :
  ~ accessoryCap_as_stated exampleEnv emptyStore (optionsWithReadiness readinessYYY)
  /\ ~ accessoryCap_as_stated exampleEnv emptyStore (optionsWithReadiness readinessRRnone).
Proof.
  split; intros [H1 H2].
  - assert (F : accessoryCapActive
                  (fst (runRecommend exampleEnv emptyStore
                          (optionsWithReadiness readinessYYY))) = false)
      by (vm_compute; reflexivity).
    rewrite H2 in F; [discriminate | vm_compute; reflexivity].
  - assert (F : allThreeYellowOrRed
                  (rec_readiness (fst (runRecommend exampleEnv emptyStore
                          (optionsWithReadiness readinessRRnone)))) = false)
      by (vm_compute; reflexivity).
    rewrite H1 in F; [discriminate | vm_compute; reflexivity].
Qed.

(** C6.  What recommend() does about the accessory-volume cap, in every
    run.  The cap is active exactly when the capLevel is 2 (combined RED)
    and every channel that is present and classified is YELLOW or RED: an
    unclassified channel is skipped, so two RED channels with the third
    unclassified turn the cap on, and three YELLOW channels (capLevel 1)
    leave it off, where the claim, the comment of the step and the text of
    its trace all say 3 of 3 channels.  The day plan returned is the plan
    of the run's date ([planOfRun]: the day of the cycle in effect, or the
    generated default when that has no slots) with the cap applied: when
    active, each slot of role accessory gets max(2, round(sets * 0.7))
    sets and every other slot, the primary one included, is unchanged, and
    no slot is added or dropped; when inactive the plan is unchanged. *)
Theorem accessory_cap_rule :
  forall (db : Store) (o : Options) (env : Env) (st : RunState),
    let r := fst (recommend db o env st) in
    rec_readiness r = nullish (opt_readiness o) defaultReadiness
    /\ accessoryCapActive r
       = ((capLevel (rec_readiness r) =? 2)%Z && allBadOf (rec_readiness r))%bool
    /\ (allBadOf (rec_readiness r) = true
        <-> forall ch, In ch (classifiedChannels (rec_readiness r)) ->
                       class ch = Some YELLOW \/ class ch = Some RED)
    /\ (let planned := fst (planOfRun env db o) in
        let wd := snd (planOfRun env db o) in
        let resolved := match planned with
                        | Some p => match slots p with
                                    | [] => generateDefaultDayPlan (rec_dayType r) wd
                                              (accessoryCapActive r)
                                    | _ => p
                                    end
                        | None => generateDefaultDayPlan (rec_dayType r) wd
                                    (accessoryCapActive r)
                        end in
        rec_dayPlan r = applyAccessoryCap (accessoryCapActive r) resolved
        /\ (accessoryCapActive r = true ->
            slots (rec_dayPlan r) = map capSlot (slots resolved)
            /\ length (slots (rec_dayPlan r)) = length (slots resolved))
        /\ (accessoryCapActive r = false -> rec_dayPlan r = resolved))
    /\ (forall s : Slot,
          (role s = "accessory" ->
           sets (capSlot s) = inject_Z (Z.max 2 (Math_round (sets s * 0.7))))
          /\ (role s <> "accessory" -> capSlot s = s)
          /\ (role s = "primary" -> capSlot s = s)).
Proof.
  intros db o env st. cbv zeta.
  split; [| split; [| split; [apply allBadOf_spec | split]]].
  - unfold recommend. repeat run_bind. reflexivity.
  - unfold recommend. repeat run_bind. unfold ret.
    cbn [fst rec_readiness accessoryCapActive].
    match goal with
    | E : stepAccessoryCap ?c ?r ?e ?s = (?a, _) |- _ =>
      pose proof (stepAccessoryCap_value c r e s) as V; rewrite E in V; cbn [fst] in V
    end.
    assumption.
  - unfold recommend. repeat run_bind. unfold ret.
    cbn [fst rec_dayPlan rec_dayType accessoryCapActive].
    match goal with
    | E : stepDayPlan ?dp ?t ?wd ?a ?e ?s = (?p, _) |- _ =>
      pose proof (stepDayPlan_value dp t wd a e s) as V; rewrite E in V; cbn [fst] in V
    end.
    match goal with
    | E : todayISO _ _ = _ |- _ => unfold todayISO in E; injection E as <- <-
    end.
    match goal with
    | Eg : stepGetMesocycle _ _ _ _ ?s = (?m1, ?s0), Ew : stepWeek _ _ ?m1 _ ?s0 = (?mw, _)
      |- _ =>
      pose proof (run_starts_from_plan db o env s s0) as P; cbv zeta in P;
        rewrite Eg in P; cbn [fst] in P; rewrite Ew in P; cbn [fst] in P
    end.
    rewrite <- P. cbn [fst snd]. rewrite <- V.
    split; [reflexivity |].
    split; intro H; rewrite H; cbn [applyAccessoryCap slots];
      [split; [reflexivity | rewrite length_map; reflexivity] | reflexivity].
  - intro s. split; [| split]; intro H.
    + apply (capSlot_spec s); assumption.
    + apply (capSlot_spec s); assumption.
    + apply (capSlot_spec s). rewrite H. discriminate.
Qed.

Lemma accessory_cap_rule_witness :
  sets (capSlot (accessorySlot "horisontaalityöntö" "Penkkipunnerrus" 4 6 (Some 3)))
  = inject_Z (Z.max 2 (Math_round (4 * 0.7)))
  /\ capSlot (primarySlot 3 3 2) = primarySlot 3 3 2.
Proof.
  destruct (accessory_cap_rule emptyStore firstRunOptions exampleEnv initialState)
    as (_ & _ & _ & _ & H).
  split.
  - apply (H (accessorySlot "horisontaalityöntö" "Penkkipunnerrus" 4 6 (Some 3))).
    reflexivity.
  - apply (H (primarySlot 3 3 2)). reflexivity.
Defined.

(** ** Target load *)

(** A rounded load is a whole number of half units. *)
Lemma roundToHalf_half_unit (v : Q) :
  roundToHalf v == inject_Z (Math_round (v * 2)) * 0.5.
Proof. unfold roundToHalf. field. Qed.

(** C7.  With an estimated system max of 184, 3 target reps, target effort
    distance 2, an adjustment of +2.5% and bodyweight 91, the target
    external load of recommend() is 70.5: within [69.5, 71.5] and a
    multiple of 0.5.  The run of a heavy Monday in week 2 whose only top set
    gives that estimated max prescribes this load. *)
Theorem inverse_model_example :
  exists x : Q,
    targetExternalLoadOf (Some 184) 3 2 0.025 91 = Some x
    /\ x == 70.5
    /\ 69.5 <= x <= 71.5
    /\ (exists k : Z, x == inject_Z k * 0.5)
    /\ (let r := fst (runRecommend exampleEnv emptyStore week2Options) in
        rec_e1rmSystem r = Some (median [(91 + (467 # 7)) * (1 + (3 + 2) / 30)])
        /\ (91 + (467 # 7)) * (1 + (3 + 2) / 30) == 184
        /\ rec_weekNum r = 2%Z /\ rec_dayType r = "heavy"
        /\ rec_targetReps r = 3 /\ rec_targetVx r = 2 /\ rec_capLevel r = 0%Z
        /\ deltaPct r == 0.025
        /\ exists y, targetExternalLoad r = Some y /\ y == x).
Proof.
  eexists. split; [reflexivity |].
  split; [reflexivity |].
  split; [split; discriminate |].
  split; [exists 141%Z; reflexivity |].
  cbv zeta.
  vm_compute.
  repeat split; try reflexivity. eexists; split; reflexivity.
Qed.

(** ** Estimated max from the recent top sets *)

Lemma notNull_In {A : Type} (l : list (option A)) (x : A) :
  In (Some x) l -> In x (notNull l).
Proof.
  induction l as [|[y|] t IH]; cbn; intros H.
  - contradiction.
  - destruct H as [H | H]; [left; congruence | right; auto].
  - destruct H as [H | H]; [discriminate | auto].
Qed.

Lemma currentE1RMSystemOf_available (bw : Q) (recent : list SetRec) (s : SetRec) (v : Q) :
  In s recent -> setE1RM bw s = Some v ->
  exists e, currentE1RMSystemOf bw recent = Some e.
Proof.
  intros Hin Hv. unfold currentE1RMSystemOf.
  assert (H : In v (e1rmValuesOf bw recent)).
  { unfold e1rmValuesOf. apply notNull_In. rewrite <- Hv. apply in_map. exact Hin. }
  destruct (e1rmValuesOf bw recent) as [|w ws]; [contradiction | eauto].
Qed.

Lemma recommend_e1rm (db : Store) (o : Options) (env : Env) (st : RunState) :
  let r := fst (recommend db o env st) in
  rec_e1rmSystem r
  = currentE1RMSystemOf (rec_bodyweightKg r)
      (sliceLast 6 (topSetsOf (primaryMovementId o)
                      (nullish (opt_allSets o) (getAllSets db)))).
Proof.
  cbv zeta. unfold recommend. repeat run_bind. reflexivity.
Qed.

(** C10.  A missing effort distance is replaced by 2: e1rmSystem treats a
    null effort distance as 2; the estimated-max step of recommend() uses
    the set's actual effort distance, else its target, else 2.  A top set
    without effort distance has a numeric estimate whenever the same set
    with one has, and when it is among the recent top sets of a run (with
    positive system load and at least one rep) the run has a numeric
    estimated max.  The estimated max of every run is the median of the
    estimates of its recent top sets, each taken at the set's actual effort
    distance, else its target, else 2 (null when no set gives one); a run
    on a single top set returns that set's estimate. *)
Theorem missing_effort_distance_default :
  forall (bw ext r : Q) (s : SetRec),
    e1rmSystem bw ext r None = e1rmSystem bw ext r (Some 2)
    /\ setVara s = match actualVx s with
                   | Some a => a
                   | None => match targetVx s with Some t => t | None => 2 end
                   end
    /\ setE1RM bw s
       = e1rmSystem bw (orNum (externalLoadKg s) 0)
           (orNum (orNumOpt (reps s) (targetReps s)) 3) (Some (setVara s))
    /\ (actualVx s = None -> targetVx s = None ->
        0 < bw + orNum (externalLoadKg s) 0 ->
        1 <= orNum (orNumOpt (reps s) (targetReps s)) 3 ->
        setE1RM bw s
        = Some ((bw + orNum (externalLoadKg s) 0)
                * (1 + (orNum (orNumOpt (reps s) (targetReps s)) 3 + 2) / 30)))
    /\ (forall v : Q,
          isSome (setE1RM bw (withActualVx None s))
          = isSome (setE1RM bw (withActualVx (Some v) s)))
    /\ (forall (db : Store) (o : Options) (env : Env) (st : RunState),
          let run := fst (recommend db o env st) in
          let recent := sliceLast 6 (topSetsOf (primaryMovementId o)
                                       (nullish (opt_allSets o) (getAllSets db))) in
          In s recent -> actualVx s = None ->
          0 < rec_bodyweightKg run + orNum (externalLoadKg s) 0 ->
          1 <= orNum (orNumOpt (reps s) (targetReps s)) 3 ->
          exists e, rec_e1rmSystem run = Some e)
    /\ (forall (db : Store) (o : Options) (env : Env) (st : RunState),
          let run := fst (recommend db o env st) in
          let recent := sliceLast 6 (topSetsOf (primaryMovementId o)
                                       (nullish (opt_allSets o) (getAllSets db))) in
          let estimate (t : SetRec) :=
            e1rmSystem (rec_bodyweightKg run) (orNum (externalLoadKg t) 0)
              (orNum (orNumOpt (reps t) (targetReps t)) 3)
              (Some match actualVx t with
                    | Some a => a
                    | None => match targetVx t with Some v => v | None => 2 end
                    end) in
          rec_e1rmSystem run
          = match notNull (map estimate recent) with
            | [] => None
            | v :: vs => Some (median (v :: vs))
            end)
    /\ (forall (db : Store) (o : Options) (env : Env) (st : RunState),
          let run := fst (recommend db o env st) in
          sliceLast 6 (topSetsOf (primaryMovementId o)
                         (nullish (opt_allSets o) (getAllSets db))) = [s] ->
          0 < rec_bodyweightKg run + orNum (externalLoadKg s) 0 ->
          1 <= orNum (orNumOpt (reps s) (targetReps s)) 3 ->
          rec_e1rmSystem run
          = Some ((rec_bodyweightKg run + orNum (externalLoadKg s) 0)
                  * (1 + (orNum (orNumOpt (reps s) (targetReps s)) 3
                          + match actualVx s with
                            | Some a => a
                            | None => match targetVx s with Some v => v | None => 2 end
                            end) / 30))).
Proof.
  intros bw ext r s.
  assert (Hnum : forall b, 0 < b + orNum (externalLoadKg s) 0 ->
            1 <= orNum (orNumOpt (reps s) (targetReps s)) 3 ->
            setE1RM b s
            = Some ((b + orNum (externalLoadKg s) 0)
                    * (1 + (orNum (orNumOpt (reps s) (targetReps s)) 3 + setVara s) / 30))).
  { intros b Hl Hr. unfold setE1RM, e1rmSystem.
    apply Qle_bool_false in Hl. apply Qlt_bool_false in Hr.
    rewrite Hl, Hr. reflexivity. }
  assert (Hvara : forall t : SetRec,
            setVara t = match actualVx t with
                        | Some a => a
                        | None => match targetVx t with Some v => v | None => 2 end
                        end).
  { intro t. unfold setVara, nullish. destruct (actualVx t), (targetVx t); reflexivity. }
  assert (Hrun : forall (db : Store) (o : Options) (env : Env) (st : RunState),
            rec_e1rmSystem (fst (recommend db o env st))
            = match notNull
                      (map (fun t : SetRec =>
                              e1rmSystem (rec_bodyweightKg (fst (recommend db o env st)))
                                (orNum (externalLoadKg t) 0)
                                (orNum (orNumOpt (reps t) (targetReps t)) 3)
                                (Some match actualVx t with
                                      | Some a => a
                                      | None => match targetVx t with
                                                | Some v => v
                                                | None => 2
                                                end
                                      end))
                         (sliceLast 6 (topSetsOf (primaryMovementId o)
                                         (nullish (opt_allSets o) (getAllSets db)))))
              with
              | [] => None
              | v :: vs => Some (median (v :: vs))
              end).
  { intros db o env st. rewrite recommend_e1rm.
    unfold currentE1RMSystemOf, e1rmValuesOf.
    assert (Hmap : forall b l,
              map (setE1RM b) l
              = map (fun t : SetRec =>
                       e1rmSystem b (orNum (externalLoadKg t) 0)
                         (orNum (orNumOpt (reps t) (targetReps t)) 3)
                         (Some match actualVx t with
                               | Some a => a
                               | None => match targetVx t with
                                         | Some v => v
                                         | None => 2
                                         end
                               end)) l).
    { intros b l. apply map_ext. intro t. unfold setE1RM. rewrite Hvara. reflexivity. }
    rewrite Hmap.
    destruct (notNull _); reflexivity. }
  split; [reflexivity |].
  split; [apply Hvara |].
  split; [reflexivity |].
  split; [| split; [| split; [| split]]].
  - intros Ha Ht Hl Hr. rewrite (Hnum bw Hl Hr).
    unfold setVara. rewrite Ha, Ht. reflexivity.
  - intro v. unfold setE1RM, e1rmSystem. cbn [withActualVx externalLoadKg reps targetReps].
    destruct (Qle_bool _ 0 || Qlt_bool _ 1)%bool; reflexivity.
  - intros db o env st run recent Hin Ha Hl Hr.
    subst run. rewrite recommend_e1rm. fold recent.
    apply (currentE1RMSystemOf_available _ recent s _ Hin (Hnum _ Hl Hr)).
  - intros db o env st. cbv zeta. apply Hrun.
  - intros db o env st. cbv zeta. intros Hrecent Hl Hr.
    rewrite Hrun, Hrecent. cbn [map].
    apply Qle_bool_false in Hl. apply Qlt_bool_false in Hr.
    unfold e1rmSystem. rewrite Hl, Hr. cbn [orb notNull nullish]. reflexivity.
Qed.

Lemma missing_effort_distance_default_witness :
  setE1RM 91 topSetNoVx = Some ((91 + 67) * (1 + (3 + 2) / 30))
  /\ rec_e1rmSystem (fst (recommend emptyStore noVxOptions exampleEnv initialState))
     = Some ((rec_bodyweightKg (fst (recommend emptyStore noVxOptions exampleEnv
                                      initialState)) + 67)
             * (1 + (3 + 2) / 30)).
Proof.
  destruct (missing_effort_distance_default 91 67 3 topSetNoVx)
    as (_ & _ & _ & H & _ & _ & _ & R).
  split.
  - apply H; [reflexivity | reflexivity | reflexivity | discriminate].
  - apply (R emptyStore noVxOptions exampleEnv initialState);
      [reflexivity | vm_compute; reflexivity | discriminate].
Defined.

(** ** Trial runs leave the store alone *)

Lemma keeps_ret {A : Type} (a : A) : keepsWrites (ret a).
Proof. intros env st. reflexivity. Qed.

Lemma keeps_bind {A B : Type} (m : M A) (k : A -> M B) :
  keepsWrites m -> (forall a, keepsWrites (k a)) -> keepsWrites (bind m k).
Proof.
  intros Hm Hk env st. unfold bind.
  specialize (Hm env st). destruct (m env st) as [a st']. cbn [snd] in Hm.
  rewrite (Hk a env st'). exact Hm.
Qed.

Lemma keeps_uid : keepsWrites uid.
Proof. intros env st. reflexivity. Qed.

Lemma keeps_todayISO : keepsWrites todayISO.
Proof. intros env st. reflexivity. Qed.

Lemma keeps_trace (rid : string) (b a : Obj) (w : JsVal) : keepsWrites (trace rid b a w).
Proof. intros env st. reflexivity. Qed.

Lemma keeps_getTraces : keepsWrites getTraces.
Proof. intros env st. reflexivity. Qed.

Lemma keeps_setTraces (l : list Trace) : keepsWrites (setTraces l).
Proof. intros env st. reflexivity. Qed.

Ltac keeps :=
  repeat first
    [ apply keeps_ret
    | apply keeps_trace
    | apply keeps_uid
    | apply keeps_todayISO
    | apply keeps_getTraces
    | apply keeps_setTraces
    | apply keeps_bind; [| intro]
    | match goal with
      | |- keepsWrites (if ?c then _ else _) => destruct c
      | |- keepsWrites (match ?x with _ => _ end) => destruct x
      end ].

Lemma keeps_createDefaultMesocycle (d : option ISODate) :
  keepsWrites (createDefaultMesocycle d).
Proof. unfold createDefaultMesocycle. keeps. Qed.

Lemma keeps_stepGetMesocycle (db : Store) (o : Options) (d : ISODate) :
  dryRun o = true -> keepsWrites (stepGetMesocycle db o d).
Proof.
  intro Hdry. unfold stepGetMesocycle. rewrite Hdry.
  destruct (orElse _ _); [apply keeps_ret |].
  apply keeps_bind; [apply keeps_createDefaultMesocycle | intro]. keeps.
Qed.

Lemma keeps_stepWeek (o : Options) (d : ISODate) (m : Mesocycle) :
  dryRun o = true -> keepsWrites (stepWeek o d m).
Proof.
  intro Hdry. unfold stepWeek. rewrite Hdry.
  destruct (getMesocycleWeek _ _); [apply keeps_ret |].
  apply keeps_bind; [apply keeps_createDefaultMesocycle | intro]. keeps.
Qed.

Lemma keeps_stepBreak (o : Options) (d : ISODate) (bi : BreakInfo) (m : Mesocycle)
    (w : Z) (t : string) :
  dryRun o = true -> keepsWrites (stepBreak o d bi m w t).
Proof.
  intro Hdry. unfold stepBreak. rewrite Hdry.
  destruct (negb _); [| apply keeps_ret].
  apply keeps_bind; [keeps | intro].
  apply keeps_bind; [keeps | intro].
  destruct (14 <=? _)%Z; [| apply keeps_ret].
  destruct (reset _); [| apply keeps_ret].
  apply keeps_bind; [apply keeps_createDefaultMesocycle | intro]. keeps.
Qed.

Lemma keeps_stepReadinessCap (c : Z) (d : Q) (t : string) :
  keepsWrites (stepReadinessCap c d t).
Proof. unfold stepReadinessCap. keeps. Qed.

Lemma keeps_stepAccessoryCap (c : Z) (r : Readiness) : keepsWrites (stepAccessoryCap c r).
Proof. unfold stepAccessoryCap. keeps. Qed.

Lemma keeps_stepDayPlan (dp : option DayPlan) (t : string) (wd : option WeekDef) (a : bool) :
  keepsWrites (stepDayPlan dp t wd a).
Proof. unfold stepDayPlan. cbv zeta. keeps. Qed.

Lemma keeps_recommend (db : Store) (o : Options) :
  dryRun o = true -> keepsWrites (recommend db o).
Proof.
  intro Hdry. unfold recommend. cbv zeta. rewrite Hdry.
  apply keeps_bind; [apply keeps_todayISO | intro today].
  apply keeps_bind; [apply keeps_stepGetMesocycle, Hdry | intro m].
  apply keeps_bind; [apply keeps_stepWeek, Hdry | intro mw].
  apply keeps_bind; [apply keeps_trace | intros _].
  apply keeps_bind; [apply keeps_stepBreak, Hdry | intro mwd].
  apply keeps_bind; [apply keeps_trace | intros _].
  apply keeps_bind; [apply keeps_trace | intros _].
  apply keeps_bind; [keeps | intro d1].
  apply keeps_bind; [keeps | intro d2].
  apply keeps_bind; [apply keeps_stepReadinessCap | intro capped].
  apply keeps_bind; [apply keeps_trace | intros _].
  apply keeps_bind; [keeps | intros _].
  apply keeps_bind; [apply keeps_stepAccessoryCap | intro active].
  apply keeps_bind; [apply keeps_stepDayPlan | intro plan].
  keeps.
Qed.

Lemma runRecommend_dryRun (env : Env) (db : Store) (o : Options) :
  dryRun o = true -> snd (runRecommend env db o) = [].
Proof.
  intro Hdry. unfold runRecommend.
  pose proof (keeps_recommend db o Hdry env initialState) as H.
  destruct (recommend db o env initialState) as [r st]. exact H.
Qed.

(** ** Two runs that differ in the identifiers uid() returns *)

Section Related.

Variable strict : bool.

Lemma related_ret {A : Type} (R : A -> A -> Prop) (a b : A) :
  R a b -> related strict R (ret a) (ret b).
Proof. intros H e1 e2 s1 s2 _ Hs. split; assumption. Qed.

Lemma related_bind {A B : Type} (R : A -> A -> Prop) (R' : B -> B -> Prop)
    (m1 m2 : M A) (k1 k2 : A -> M B) :
  related strict R m1 m2 ->
  (forall a b, R a b -> related strict R' (k1 a) (k2 b)) ->
  related strict R' (bind m1 k1) (bind m2 k2).
Proof.
  intros Hm Hk e1 e2 s1 s2 He Hs. unfold bind.
  destruct (Hm e1 e2 s1 s2 He Hs) as [Ha Hs'].
  destruct (m1 e1 s1) as [a t1], (m2 e2 s2) as [b t2]. cbn [fst snd] in *.
  apply (Hk a b Ha); assumption.
Qed.

Lemma related_bind_eq {A B : Type} (R' : B -> B -> Prop)
    (m1 m2 : M A) (k1 k2 : A -> M B) :
  related strict eq m1 m2 ->
  (forall a, related strict R' (k1 a) (k2 a)) ->
  related strict R' (bind m1 k1) (bind m2 k2).
Proof.
  intros Hm Hk. apply (related_bind eq R' m1 m2 k1 k2 Hm).
  intros a b <-. apply Hk.
Qed.

Lemma related_weaken {A : Type} (R R' : A -> A -> Prop) (m1 m2 : M A) :
  (forall a b, R a b -> R' a b) -> related strict R m1 m2 -> related strict R' m1 m2.
Proof.
  intros HR Hm e1 e2 s1 s2 He Hs. destruct (Hm e1 e2 s1 s2 He Hs). auto.
Qed.

Lemma related_uid : related strict anyTwo uid uid.
Proof. intros e1 e2 s1 s2 _ Hs. split; [exact I | exact Hs]. Qed.

Lemma related_todayISO : related strict eq todayISO todayISO.
Proof. intros e1 e2 s1 s2 He Hs. split; assumption. Qed.

Lemma related_nowISO : related strict anyTwo nowISO nowISO.
Proof. intros e1 e2 s1 s2 _ Hs. split; [exact I | exact Hs]. Qed.

Lemma related_dbPut (w1 w2 : WriteOp) : related strict eq (dbPut w1) (dbPut w2).
Proof. intros e1 e2 s1 s2 _ Hs. split; [reflexivity | exact Hs]. Qed.

Lemma sameTraces_app (l1 l2 : list Trace) (t1 t2 : Trace) :
  sameTraces strict l1 l2 -> sameTrace strict t1 t2 ->
  sameTraces strict (l1 ++ [t1]) (l2 ++ [t2]).
Proof.
  unfold sameTraces, sameTrace. intros Hl Ht. rewrite !map_app. cbn. congruence.
Qed.

Lemma sameTraces_cons_inv (t1 t2 : Trace) (l1 l2 : list Trace) :
  sameTraces strict (t1 :: l1) (t2 :: l2) ->
  sameTrace strict t1 t2 /\ sameTraces strict l1 l2.
Proof.
  unfold sameTraces, sameTrace. cbn [map].
  generalize (scrubTrace strict t1) (scrubTrace strict t2)
             (map (scrubTrace strict) l1) (map (scrubTrace strict) l2).
  intros a b la lb H. injection H; auto.
Qed.

Lemma sameTraces_setRecId (i1 i2 : string) (l1 l2 : list Trace) :
  sameTraces strict l1 l2 ->
  sameTraces strict (map (setRecId i1) l1) (map (setRecId i2) l2).
Proof.
  unfold sameTraces. rewrite !map_map. intro H. exact H.
Qed.

(** A trace entry pushed with the same rule, states and rationale. *)
Lemma related_trace (rid : string) (b a : Obj) (w : JsVal) :
  related strict eq (trace rid b a w) (trace rid b a w).
Proof.
  intros e1 e2 s1 s2 _ Hs. split; [reflexivity |].
  apply sameTraces_app; [exact Hs | reflexivity].
Qed.

(** The entry of a created mesocycle, whose after-state holds its
    identifier: the same when after-states are not compared there. *)
Lemma related_trace_created (b a1 a2 : Obj) (w : JsVal) :
  strict = false ->
  related strict eq (trace "MESOCYCLE_CREATED" b a1 w) (trace "MESOCYCLE_CREATED" b a2 w).
Proof.
  intros Hstrict e1 e2 s1 s2 _ Hs. split; [reflexivity |].
  apply sameTraces_app; [exact Hs |]. unfold sameTrace, scrubTrace.
  rewrite Hstrict. reflexivity.
Qed.

Lemma related_getTraces : related strict (sameTraces strict) getTraces getTraces.
Proof. intros e1 e2 s1 s2 _ Hs. split; exact Hs. Qed.

Lemma related_setTraces (l1 l2 : list Trace) :
  sameTraces strict l1 l2 -> related strict eq (setTraces l1) (setTraces l2).
Proof. intros Hl e1 e2 s1 s2 _ _. split; [reflexivity | exact Hl]. Qed.

Lemma related_createDefaultMesocycle (d : option ISODate) :
  related strict simMeso (createDefaultMesocycle d) (createDefaultMesocycle d).
Proof.
  unfold createDefaultMesocycle.
  apply (related_bind anyTwo _ _ _ _ _ related_uid). intros i1 i2 _.
  apply related_bind_eq.
  - destruct d; [apply related_ret; reflexivity | apply related_todayISO].
  - intro start. apply related_ret. repeat split.
Qed.

Lemma related_saveMesocycle (m1 m2 : Mesocycle) :
  simMeso m1 m2 -> related strict simMeso (saveMesocycle m1) (saveMesocycle m2).
Proof.
  intros Hm. unfold saveMesocycle.
  apply (related_bind simMeso).
  - destruct Hm as (H1 & H2 & H3 & H4).
    destruct (String.eqb (mesocycleId m1) ""), (String.eqb (mesocycleId m2) "").
    + apply (related_bind anyTwo _ _ _ _ _ related_uid). intros i1 i2 _.
      apply related_ret. repeat split; assumption.
    + intros e1 e2 s1 s2 _ Hs. split; [repeat split; assumption | exact Hs].
    + intros e1 e2 s1 s2 _ Hs. split; [repeat split; assumption | exact Hs].
    + apply related_ret. repeat split; assumption.
  - intros a b Hab. apply related_bind_eq; [apply related_dbPut |].
    intros _. apply related_ret. exact Hab.
Qed.

Lemma related_maybeSave (dry : bool) (m1 m2 : Mesocycle) :
  simMeso m1 m2 ->
  related strict simMeso (if dry then ret m1 else saveMesocycle m1)
                         (if dry then ret m2 else saveMesocycle m2).
Proof.
  intros Hm. destruct dry; [apply related_ret | apply related_saveMesocycle]; exact Hm.
Qed.

Lemma simMeso_refl (m : Mesocycle) : simMeso m m.
Proof. repeat split. Qed.

Lemma getMesocycleWeek_sim (m1 m2 : Mesocycle) (d : ISODate) :
  simMeso m1 m2 -> getMesocycleWeek (Some m1) d = getMesocycleWeek (Some m2) d.
Proof.
  intros (H1 & H2 & _). unfold getMesocycleWeek. rewrite H1, H2. reflexivity.
Qed.

Lemma getWeekDef_sim (m1 m2 : Mesocycle) (w : Z) :
  simMeso m1 m2 -> getWeekDef (Some m1) w = getWeekDef (Some m2) w.
Proof.
  intros (_ & _ & H3 & _). unfold getWeekDef. rewrite H3. reflexivity.
Qed.

Lemma getTodayPlan_sim (m1 m2 : Mesocycle) (w d : Z) :
  simMeso m1 m2 -> getTodayPlan (Some m1) w d = getTodayPlan (Some m2) w d.
Proof.
  intros (_ & _ & _ & H4). unfold getTodayPlan. rewrite H4. reflexivity.
Qed.

(** Step 1.  When after-states are compared in full, the run must not
    create its first mesocycle. *)
Lemma related_stepGetMesocycle (db : Store) (o : Options) (d : ISODate) :
  (strict = true -> orElse (opt_mesocycle o) (getActiveMesocycle db) <> None) ->
  related strict simMeso (stepGetMesocycle db o d) (stepGetMesocycle db o d).
Proof.
  intro Hgiven. unfold stepGetMesocycle.
  destruct (orElse (opt_mesocycle o) (getActiveMesocycle db)) as [m|].
  - apply related_ret, simMeso_refl.
  - assert (Hstrict : strict = false).
    { destruct strict; [exfalso; apply Hgiven; reflexivity | reflexivity]. }
    apply (related_bind simMeso); [apply related_createDefaultMesocycle |].
    intros m1 m2 Hm.
    apply (related_bind simMeso); [apply related_maybeSave; exact Hm |].
    intros m1' m2' Hm'.
    apply related_bind_eq; [apply related_trace_created; exact Hstrict |].
    intros _. apply related_ret. exact Hm'.
Qed.

Lemma related_stepWeek (o : Options) (d : ISODate) (m1 m2 : Mesocycle) :
  simMeso m1 m2 -> related strict simMesoWeek (stepWeek o d m1) (stepWeek o d m2).
Proof.
  intros Hm. unfold stepWeek. rewrite <- (getMesocycleWeek_sim m1 m2 d Hm).
  destruct (getMesocycleWeek (Some m1) d) as [w|].
  - apply related_ret. split; [exact Hm | reflexivity].
  - apply (related_bind simMeso); [apply related_createDefaultMesocycle |].
    intros a b Hab.
    apply (related_bind simMeso); [apply related_maybeSave; exact Hab |].
    intros a' b' Hab'.
    apply related_bind_eq; [apply related_trace |].
    intros _. apply related_ret. split; [exact Hab' | reflexivity].
Qed.

Lemma related_stepBreak (o : Options) (d : ISODate) (bi : BreakInfo)
    (m1 m2 : Mesocycle) (w : Z) (t : string) :
  simMeso m1 m2 ->
  related strict simBreak (stepBreak o d bi m1 w t) (stepBreak o d bi m2 w t).
Proof.
  intros Hm. unfold stepBreak.
  assert (Hret : forall t', related strict simBreak (ret (m1, w, t')) (ret (m2, w, t'))).
  { intro t'. apply related_ret. repeat split; try reflexivity; apply Hm. }
  destruct (negb (Qeq_bool (modifier bi) 0)); [| apply Hret].
  apply related_bind_eq.
  - destruct (truthyStr (forcedDayType bi)).
    + apply related_bind_eq; [apply related_trace |].
      intros _. apply related_ret. reflexivity.
    + apply related_ret. reflexivity.
  - intro t'. apply related_bind_eq; [apply related_trace |]. intros _.
    destruct (14 <=? nullish (breakDays bi) 0)%Z; [| apply Hret].
    unfold mesocycleBreakReset.
    destruct (2 <=? nullish (breakDays bi) 0 / 7)%Z; cbn [reset reason]; [| apply Hret].
    apply (related_bind simMeso); [apply related_createDefaultMesocycle |].
    intros a b Hab.
    apply (related_bind simMeso); [apply related_maybeSave; exact Hab |].
    intros a' b' Hab'.
    apply related_bind_eq; [apply related_trace |].
    intros _. apply related_ret. repeat split; try reflexivity; apply Hab'.
Qed.

(** A computation that draws no identifier into its values is related to
    itself: decompose it along its binds and branches. *)
Ltac rel_same :=
  repeat first
    [ apply related_trace
    | apply related_ret; reflexivity
    | apply related_bind_eq; [| intro]
    | match goal with
      | |- related _ _ (if ?c then _ else _) _ => destruct c
      | |- related _ _ (match ?x with _ => _ end) _ => destruct x
      end ].

Lemma related_stepReadinessCap (c : Z) (d : Q) (t : string) :
  related strict eq (stepReadinessCap c d t) (stepReadinessCap c d t).
Proof. unfold stepReadinessCap. rel_same. Qed.

Lemma related_stepAccessoryCap (c : Z) (r : Readiness) :
  related strict eq (stepAccessoryCap c r) (stepAccessoryCap c r).
Proof. unfold stepAccessoryCap. rel_same. Qed.

Lemma related_stepDayPlan (dp : option DayPlan) (t : string) (wd : option WeekDef)
    (a : bool) :
  related strict eq (stepDayPlan dp t wd a) (stepDayPlan dp t wd a).
Proof. unfold stepDayPlan. cbv zeta. rel_same. Qed.

Lemma related_saveDecisionTrace (t1 t2 : Trace) :
  sameTrace strict t1 t2 ->
  related strict (sameTrace strict) (saveDecisionTrace t1) (saveDecisionTrace t2).
Proof.
  intros Ht. unfold saveDecisionTrace.
  apply (related_bind (sameTrace strict)).
  - destruct (String.eqb (traceId t1) ""), (String.eqb (traceId t2) "").
    + apply (related_bind anyTwo _ _ _ _ _ related_uid). intros i1 i2 _.
      apply related_ret. exact Ht.
    + intros e1 e2 s1 s2 _ Hs. split; [exact Ht | exact Hs].
    + intros e1 e2 s1 s2 _ Hs. split; [exact Ht | exact Hs].
    + apply related_ret. exact Ht.
  - intros a b Hab. apply related_bind_eq; [apply related_dbPut |].
    intros _. apply related_ret. exact Hab.
Qed.

Lemma related_mapM_save (l1 l2 : list Trace) :
  sameTraces strict l1 l2 ->
  related strict (sameTraces strict)
    (mapM saveDecisionTrace l1) (mapM saveDecisionTrace l2).
Proof.
  revert l2. induction l1 as [|t1 l1 IH]; intros [|t2 l2] H; try discriminate H.
  - apply related_ret. reflexivity.
  - apply sameTraces_cons_inv in H. destruct H as [Ht Hl].
    cbn [mapM].
    apply (related_bind (sameTrace strict)); [apply related_saveDecisionTrace; exact Ht |].
    intros a b Hab.
    apply (related_bind (sameTraces strict)); [apply IH; exact Hl |].
    intros la lb Hlab. apply related_ret.
    unfold sameTraces. cbn [map]. f_equal; assumption.
Qed.

Lemma related_saveRecommendation (r1 r2 : SavedRecommendation) :
  related strict eq (saveRecommendation r1) (saveRecommendation r2).
Proof.
  unfold saveRecommendation.
  apply (related_bind anyTwo).
  - destruct (String.eqb (sv_recId r1) ""), (String.eqb (sv_recId r2) "").
    + apply (related_bind anyTwo _ _ _ _ _ related_uid). intros i1 i2 _.
      apply related_ret. exact I.
    + intros e1 e2 s1 s2 _ Hs. split; [exact I | exact Hs].
    + intros e1 e2 s1 s2 _ Hs. split; [exact I | exact Hs].
    + apply related_ret. exact I.
  - intros a b _. apply related_dbPut.
Qed.

(** recommend() run twice on the same store and options. *)
Lemma related_recommend (db : Store) (o : Options) :
  (strict = true -> orElse (opt_mesocycle o) (getActiveMesocycle db) <> None) ->
  related strict (sameRec strict) (recommend db o) (recommend db o).
Proof.
  intro Hgiven. unfold recommend. cbv zeta.
  apply related_bind_eq; [apply related_todayISO | intro today].
  apply (related_bind simMeso);
    [apply related_stepGetMesocycle; exact Hgiven | intros m1 m2 Hm].
  apply (related_bind simMesoWeek); [apply related_stepWeek; exact Hm |].
  intros [m1' w] [m2' w'] [Hm' Hw]. cbn [fst snd] in *. subst w'.
  rewrite <- !(getWeekDef_sim m1' m2' w Hm').
  rewrite <- !(getTodayPlan_sim m1' m2' w _ Hm').
  apply related_bind_eq; [apply related_trace | intros _].
  apply (related_bind simBreak); [apply related_stepBreak; exact Hm' |].
  intros [[m1'' w1] t1] [[m2'' w2] t2] (Hm'' & Hw'' & Ht''). cbn [fst snd] in *.
  subst w2 t2.
  apply related_bind_eq; [apply related_trace | intros _].
  apply related_bind_eq; [apply related_trace | intros _].
  apply related_bind_eq; [rel_same | intro d1].
  apply related_bind_eq; [rel_same | intro d2].
  apply related_bind_eq; [apply related_stepReadinessCap | intro capped].
  apply related_bind_eq; [apply related_trace | intros _].
  apply related_bind_eq; [rel_same | intros _].
  apply related_bind_eq; [apply related_stepAccessoryCap | intro active].
  apply related_bind_eq; [apply related_stepDayPlan | intro plan].
  apply (related_bind anyTwo _ _ _ _ _ related_uid). intros i1 i2 _.
  apply (related_bind (sameTraces strict) _ _ _ _ _ related_getTraces). intros l1 l2 Hl.
  apply related_bind_eq; [apply related_setTraces, sameTraces_setRecId, Hl | intros _].
  clear l1 l2 Hl.
  apply (related_bind anyTwo).
  { destruct (dryRun o); [apply related_ret; exact I |].
    apply (related_bind anyTwo _ _ _ _ _ related_nowISO). intros n1 n2 _.
    apply (related_bind anyTwo).
    { eapply related_weaken; [| apply related_saveRecommendation]. intros; exact I. }
    intros _ _ _.
    apply (related_bind (sameTraces strict) _ _ _ _ _ related_getTraces).
    intros l1 l2 Hl.
    apply (related_bind (sameTraces strict)); [apply related_mapM_save; exact Hl |].
    intros l1' l2' Hl'.
    eapply related_weaken; [| apply related_setTraces; exact Hl']. intros; exact I. }
  intros _ _ _.
  apply (related_bind (sameTraces strict) _ _ _ _ _ related_getTraces). intros l1 l2 Hl.
  apply related_ret. unfold sameRec, scrubRec. cbn.
  unfold sameTraces in Hl. rewrite Hl. reflexivity.
Qed.

End Related.

(** ** Determinism of recommend() *)

Lemma scrubbed_ruleIds (strict : bool) (l : list Trace) :
  map ruleId (map (scrubTrace strict) l) = map ruleId l.
Proof. rewrite map_map. apply map_ext. reflexivity. Qed.

Lemma scrubbed_befores (strict : bool) (l : list Trace) :
  map before (map (scrubTrace strict) l) = map before l.
Proof. rewrite map_map. apply map_ext. reflexivity. Qed.

Lemma scrubbed_whys (strict : bool) (l : list Trace) :
  map why (map (scrubTrace strict) l) = map why l.
Proof. rewrite map_map. apply map_ext. reflexivity. Qed.

Lemma scrubbed_afters (l : list Trace) :
  map after (map (scrubTrace true) l) = map after l.
Proof. rewrite map_map. apply map_ext. reflexivity. Qed.

Lemma sameRec_traces (strict : bool) (r1 r2 : Recommendation) :
  sameRec strict r1 r2 ->
  map (scrubTrace strict) (rec_traces r1) = map (scrubTrace strict) (rec_traces r2).
Proof.
  intro H. apply (f_equal rec_traces) in H. exact H.
Qed.

Lemma runRecommend_related (strict : bool) (db : Store) (o : Options) (today : ISODate)
    (uids1 uids2 : nat -> string) (now1 now2 : string) :
  (strict = true -> orElse (opt_mesocycle o) (getActiveMesocycle db) <> None) ->
  sameRec strict (fst (runRecommend (mkEnv uids1 today now1) db o))
                 (fst (runRecommend (mkEnv uids2 today now2) db o)).
Proof.
  intro Hgiven. rewrite !runRecommend_fst.
  apply (related_recommend strict db o Hgiven
           (mkEnv uids1 today now1) (mkEnv uids2 today now2) initialState initialState);
    reflexivity.
Qed.

(** C8, as stated, fails on a first run: with no mesocycle given or stored,
    the MESOCYCLE_CREATED entry records the new mesocycle's identifier in
    its after-state, so two trial runs on identical inputs differ there. *)
Lemma determinism_counterexample :
  dryRun firstRunOptions = true
  /\ clockToday envA = clockToday envB
  /\ ~ sameRec true (fst (runRecommend envA emptyStore firstRunOptions))
                    (fst (runRecommend envB emptyStore firstRunOptions)).
Proof.
  split; [reflexivity | split; [reflexivity |]].
  intro H. apply sameRec_traces in H.
  apply (f_equal (map after)) in H. rewrite !scrubbed_afters in H.
  vm_compute in H. discriminate H.
Qed.

(** C8 (amended).  Two trial runs of recommend() on the same store, options
    and clock day, whatever identifiers uid() returns: neither writes to
    the store; the prescriptions are equal in every field except the
    generated identifiers (recId, mesocycleId, and each trace's traceId and
    recId) and the after-state of a MESOCYCLE_CREATED entry, which holds the
    new mesocycle's identifier; the traces have the same rule identifiers,
    before-states and rationales in the same order.  When a mesocycle is
    given or stored, the after-states are all equal too. *)
Theorem recommend_deterministic :
  forall (db : Store) (o : Options) (today : ISODate)
         (uids1 uids2 : nat -> string) (now1 now2 : string),
    dryRun o = true ->
    let run1 := runRecommend (mkEnv uids1 today now1) db o in
    let run2 := runRecommend (mkEnv uids2 today now2) db o in
    snd run1 = [] /\ snd run2 = []
    /\ sameRec false (fst run1) (fst run2)
    /\ map ruleId (rec_traces (fst run1)) = map ruleId (rec_traces (fst run2))
    /\ map before (rec_traces (fst run1)) = map before (rec_traces (fst run2))
    /\ map why (rec_traces (fst run1)) = map why (rec_traces (fst run2))
    /\ (orElse (opt_mesocycle o) (getActiveMesocycle db) <> None ->
        sameRec true (fst run1) (fst run2)
        /\ map after (rec_traces (fst run1)) = map after (rec_traces (fst run2))).
Proof.
  intros db o today uids1 uids2 now1 now2 Hdry run1 run2.
  assert (Hloose : sameRec false (fst run1) (fst run2)).
  { apply runRecommend_related. discriminate. }
  pose proof (sameRec_traces false _ _ Hloose) as Ht.
  split; [apply runRecommend_dryRun; exact Hdry |].
  split; [apply runRecommend_dryRun; exact Hdry |].
  split; [exact Hloose |].
  split; [rewrite <- (scrubbed_ruleIds false), Ht; apply scrubbed_ruleIds |].
  split; [rewrite <- (scrubbed_befores false), Ht; apply scrubbed_befores |].
  split; [rewrite <- (scrubbed_whys false), Ht; apply scrubbed_whys |].
  intro Hgiven.
  assert (Hstrict : sameRec true (fst run1) (fst run2)).
  { apply runRecommend_related. intros _. exact Hgiven. }
  split; [exact Hstrict |].
  pose proof (sameRec_traces true _ _ Hstrict) as Hs.
  rewrite <- scrubbed_afters, Hs. apply scrubbed_afters.
Qed.

Lemma recommend_deterministic_witness :
  sameRec false (fst (runRecommend envA emptyStore firstRunOptions))
                (fst (runRecommend envB emptyStore firstRunOptions))
  /\ snd (runRecommend envA emptyStore firstRunOptions) = [].
Proof.
  destruct (recommend_deterministic emptyStore firstRunOptions (mkDate 2026 2 23)
              (uidSupply envA) (uidSupply envB)
              "2026-02-23T08:00:00.000Z" "2026-02-23T08:00:00.000Z")
    as (Hw & _ & Hsame & _).
  - reflexivity.
  - split; [exact Hsame | exact Hw].
Defined.

(** ** Golden fixtures of the repository's test suite, on the embedding *)

Example fixture_median_mad :
  median [10; 12; 11; 13; 14; 10; 11; 12; 13; 11] == 11.5
  /\ mad [10; 12; 11; 13; 14; 10; 11; 12; 13; 11] == 1
  /\ madSigma [10; 12; 11; 13; 14; 10; 11; 12; 13; 11] == 1.4826.
Proof. repeat split; vm_compute; reflexivity. Qed.

Example fixture_z_classes :
  classifyReadinessZ (-0.49) = GREEN /\ classifyReadinessZ (-0.99) = YELLOW
  /\ classifyReadinessZ 0.5 = GREEN /\ classifyReadinessZ (-1.5) = RED.
Proof. repeat split; reflexivity. Qed.

Example fixture_e1rm :
  (exists x, e1rmSystem 91 67 3 (Some 2) = Some x /\ Qabs (x - 184.33) <= 0.5)
  /\ (exists y, e1rmExternal 91 67 3 (Some 2) = Some y /\ Qabs (y - 93.33) <= 0.5)
  /\ (exists a, e1rmAccessory 80 8 = Some a /\ Qabs (a - 101.33) <= 0.5).
Proof.
  repeat split; eexists; (split; [reflexivity | vm_compute; discriminate]).
Qed.

Example fixture_break_return :
  breakDays (breakAnalysis (mkDate 2026 2 25) (Some (mkDate 2026 2 18))
               (Some (mkDate 2026 2 25))) = Some 7%Z
  /\ breakDays (breakAnalysis (mkDate 2026 2 25) (Some (mkDate 2026 2 11))
                  (Some (mkDate 2026 2 25))) = Some 14%Z
  /\ breakDays (breakAnalysis (mkDate 2026 2 25) (Some (mkDate 2026 1 28))
                  (Some (mkDate 2026 2 25))) = Some 28%Z
  /\ reset (mesocycleBreakReset None 2) = true
  /\ reset (mesocycleBreakReset None 1) = false.
Proof. repeat split; reflexivity. Qed.

Example fixture_mesocycle_week :
  let meso := fst (createDefaultMesocycle (Some (mkDate 2026 2 1)) exampleEnv initialState) in
  getMesocycleWeek (Some meso) (mkDate 2026 2 1) = Some 1%Z
  /\ getMesocycleWeek (Some meso) (mkDate 2026 2 8) = Some 2%Z
  /\ getMesocycleWeek (Some meso) (mkDate 2026 2 15) = Some 3%Z
  /\ getMesocycleWeek (Some meso) (mkDate 2026 2 22) = Some 4%Z
  /\ getMesocycleWeek (Some meso) (mkDate 2026 3 1) = None.
Proof. repeat split; reflexivity. Qed.

(** 1970-01-01 was a Thursday, 2026-02-23 is a Monday. *)
Example fixture_weekdays :
  daysFromCivil (mkDate 1970 1 1) = 0%Z /\ getDay (mkDate 1970 1 1) = 4%Z
  /\ getDay (mkDate 2026 2 23) = 1%Z /\ getDay (mkDate 2026 3 1) = 0%Z.
Proof. repeat split; reflexivity. Qed.

(** A 14-day break inside recommend(): -10%, a forced volume day and the
    cycle reset to week 1; a 7-day break: -5%, the heavy day kept, no reset. *)
Example fixture_break_in_recommend :
  let r14 := fst (runRecommend exampleEnv emptyStore (optionsLastSession (mkDate 2026 2 9))) in
  let r7 := fst (runRecommend exampleEnv emptyStore (optionsLastSession (mkDate 2026 2 16))) in
  rec_dayType r14 = "volume" /\ rec_weekNum r14 = 1%Z
  /\ In "MESOCYCLE_BREAK_RESET" (map ruleId (rec_traces r14))
  /\ option_map modifier (rec_breakInfo r14) = Some (-0.10)
  /\ rec_dayType r7 = "heavy" /\ rec_weekNum r7 = 2%Z
  /\ ~ In "MESOCYCLE_BREAK_RESET" (map ruleId (rec_traces r7))
  /\ option_map modifier (rec_breakInfo r7) = Some (-0.05).
Proof.
  cbv zeta. vm_compute.
  repeat split; try reflexivity.
  - tauto.
  - intros H. repeat (destruct H as [H | H]; [discriminate H |]). exact H.
Qed.

(* ================================================================= *)
(** * Further properties of the engine *)

(** ** Sorting *)

Lemma sortInsert_perm {A : Type} (le : A -> A -> bool) (x : A) (l : list A) :
  Permutation (sortInsert le x l) (x :: l).
Proof.
  induction l as [|y t IH]; cbn [sortInsert].
  - apply Permutation_refl.
  - destruct (le y x).
    + apply perm_trans with (y :: x :: t); [apply perm_skip, IH | apply perm_swap].
    + apply Permutation_refl.
Qed.

Lemma sortBy_fold_perm {A : Type} (le : A -> A -> bool) (l acc : list A) :
  Permutation (fold_left (fun a x => sortInsert le x a) l acc) (l ++ acc).
Proof.
  revert acc. induction l as [|x t IH]; intro acc; cbn [fold_left app].
  - apply Permutation_refl.
  - apply perm_trans with (t ++ sortInsert le x acc)%list; [apply IH |].
    apply perm_trans with (t ++ x :: acc)%list.
    + apply Permutation_app_head, sortInsert_perm.
    + apply Permutation_sym, Permutation_middle.
Qed.

Lemma sortBy_perm {A : Type} (le : A -> A -> bool) (l : list A) :
  Permutation (sortBy le l) l.
Proof.
  unfold sortBy. rewrite <- (app_nil_r l) at 2. apply sortBy_fold_perm.
Qed.

Section SortedBy.

Variable A : Type.
Variable le : A -> A -> bool.
Hypothesis le_total : forall a b, le a b = false -> le b a = true.
Hypothesis le_trans : forall a b c, le a b = true -> le b c = true -> le a c = true.

Let leP (a b : A) : Prop := le a b = true.

Lemma sortInsert_sorted (x : A) (l : list A) :
  StronglySorted leP l -> StronglySorted leP (sortInsert le x l).
Proof.
  induction 1 as [|y t Ht IH Hy]; cbn [sortInsert].
  - constructor; constructor.
  - destruct (le y x) eqn:E.
    + constructor; [exact IH |].
      apply Forall_forall. intros z Hz.
      apply (Permutation_in _ (sortInsert_perm le x t)) in Hz.
      destruct Hz as [<- | Hz]; [exact E |].
      rewrite Forall_forall in Hy. apply Hy, Hz.
    + assert (Hxy : leP x y) by (apply le_total, E).
      constructor; [constructor; assumption |].
      constructor; [exact Hxy |].
      apply Forall_forall. intros z Hz. rewrite Forall_forall in Hy.
      apply (le_trans x y z Hxy), Hy, Hz.
Qed.

Lemma sortBy_fold_sorted (l acc : list A) :
  StronglySorted leP acc ->
  StronglySorted leP (fold_left (fun a x => sortInsert le x a) l acc).
Proof.
  revert acc. induction l as [|x t IH]; intros acc H; cbn [fold_left].
  - exact H.
  - apply IH, sortInsert_sorted, H.
Qed.

Lemma sortBy_sorted (l : list A) : StronglySorted leP (sortBy le l).
Proof. apply sortBy_fold_sorted. constructor. Qed.

End SortedBy.

Lemma Qle_bool_total (a b : Q) : Qle_bool a b = false -> Qle_bool b a = true.
Proof.
  intro H. apply Qle_bool_iff. apply Qlt_le_weak. apply Qle_bool_false. exact H.
Qed.

Lemma Qle_bool_trans (a b c : Q) :
  Qle_bool a b = true -> Qle_bool b c = true -> Qle_bool a c = true.
Proof.
  rewrite !Qle_bool_iff. apply Qle_trans.
Qed.

Lemma StronglySorted_impl {A : Type} (R R' : A -> A -> Prop) (l : list A) :
  (forall a b, R a b -> R' a b) -> StronglySorted R l -> StronglySorted R' l.
Proof.
  intros HR H. induction H as [|y t Ht IH Hy]; constructor; [exact IH |].
  eapply Forall_impl; [| exact Hy]. intros z Hz. apply HR, Hz.
Qed.

Lemma sortBy_Qle_sorted (arr : list Q) : StronglySorted Qle (sortBy Qle_bool arr).
Proof.
  apply (StronglySorted_impl (fun a b => Qle_bool a b = true)).
  - intros a b. apply Qle_bool_iff.
  - apply (sortBy_sorted Q Qle_bool Qle_bool_total Qle_bool_trans).
Qed.

(** The sorted copy median() works on is an ascending rearrangement of the
    array. *)
Theorem sort_numbers_sorted_permutation :
  forall arr : list Q,
    Permutation (sortBy Qle_bool arr) arr
    /\ StronglySorted Qle (sortBy Qle_bool arr)
    /\ length (sortBy Qle_bool arr) = length arr.
Proof.
  intro arr. split; [apply sortBy_perm |]. split; [apply sortBy_Qle_sorted |].
  apply Permutation_length, sortBy_perm.
Qed.

(** ** Median *)

Lemma filter_length_perm {A : Type} (p : A -> bool) (l l' : list A) :
  Permutation l l' -> length (filter p l) = length (filter p l').
Proof.
  induction 1 as [| x l l' _ IH | x y l | l l' l'' _ IH1 _ IH2]; cbn [filter].
  - reflexivity.
  - destruct (p x); cbn [length]; congruence.
  - destruct (p x), (p y); reflexivity.
  - congruence.
Qed.

Lemma sorted_nth_le (s : list Q) (i j : nat) :
  StronglySorted Qle s -> (i <= j)%nat -> (j < length s)%nat -> nth i s 0 <= nth j s 0.
Proof.
  intro H. revert i j. induction H as [|a t Ht IH Ha]; intros i j Hij Hj.
  - cbn in Hj. lia.
  - destruct i as [|i], j as [|j]; cbn [nth length] in *.
    + apply Qle_refl.
    + rewrite Forall_forall in Ha. apply Ha, nth_In. lia.
    + lia.
    + apply IH; lia.
Qed.

Lemma count_prefix {A : Type} (p : A -> bool) (d : A) (s : list A) (k : nat) :
  (k <= length s)%nat -> (forall i, (i < k)%nat -> p (nth i s d) = true) ->
  (k <= length (filter p s))%nat.
Proof.
  revert k. induction s as [|a t IH]; intros k Hk Hp.
  - cbn in Hk. lia.
  - destruct k as [|k]; [lia |].
    pose proof (Hp 0%nat ltac:(lia)) as H0. cbn [nth] in H0.
    cbn [filter]. rewrite H0. cbn [length].
    apply le_n_S, IH; [cbn in Hk; lia |].
    intros i Hi. apply (Hp (S i)). lia.
Qed.

Lemma count_suffix {A : Type} (p : A -> bool) (d : A) (s : list A) (k : nat) :
  (forall i, (k <= i)%nat -> (i < length s)%nat -> p (nth i s d) = true) ->
  (length s - k <= length (filter p s))%nat.
Proof.
  revert k. induction s as [|a t IH]; intros k Hp.
  - cbn. lia.
  - destruct k as [|k].
    + pose proof (Hp 0%nat ltac:(lia) ltac:(cbn; lia)) as H0. cbn [nth] in H0.
      cbn [filter]. rewrite H0. cbn [length].
      assert (length t - 0 <= length (filter p t))%nat.
      { apply IH. intros i _ Hi. apply (Hp (S i)); cbn; lia. }
      lia.
    + cbn [length]. 
      assert (length t - k <= length (filter p t))%nat.
      { apply IH. intros i Hk Hi. apply (Hp (S i)); cbn; lia. }
      cbn [filter]. destruct (p a); cbn [length]; lia.
Qed.

Lemma Qhalf_sum_le (a b c : Q) : a + b <= 2 * c <-> (a + b) / 2 <= c.
Proof.
  split; intro H.
  - apply Qle_shift_div_r; [reflexivity | lra].
  - assert (E : a + b == (a + b) / 2 * 2) by field. lra.
Qed.

Lemma Qhalf_sum_ge (a b c : Q) : 2 * c <= a + b <-> c <= (a + b) / 2.
Proof.
  split; intro H.
  - apply Qle_shift_div_l; [reflexivity | lra].
  - assert (E : a + b == (a + b) / 2 * 2) by field. lra.
Qed.

(** The two middle elements of the sorted list enclose the median. *)
Lemma median_middle (arr : list Q) :
  arr <> [] ->
  let s := sortBy Qle_bool arr in
  let n := length s in
  (0 < n)%nat
  /\ ((Nat.odd n = true /\ (2 * (n / 2) + 1 = n)%nat /\ median arr = nth (n / 2) s 0)
      \/ (Nat.odd n = false /\ (2 * (n / 2) = n)%nat /\ (0 < n / 2)%nat
          /\ median arr = (nth (n / 2 - 1) s 0 + nth (n / 2) s 0) / 2)).
Proof.
  intros Hne s n.
  assert (Hn : (0 < n)%nat).
  { subst n s. rewrite (Permutation_length (sortBy_perm Qle_bool arr)).
    destruct arr; [contradiction | cbn; lia]. }
  split; [exact Hn |].
  unfold median. destruct arr as [|a t]; [contradiction |].
  fold s. fold n.
  destruct (Nat.odd n) eqn:E.
  - left. split; [reflexivity |]. split; [| reflexivity].
    apply Nat.odd_spec in E. destruct E as [k Hk]. rewrite Hk.
    replace ((2 * k + 1) / 2)%nat with k; [lia |].
    apply (Nat.div_unique _ 2 k 1); lia.
  - right. split; [reflexivity |].
    assert (Hev : Nat.even n = true) by (rewrite <- Nat.negb_odd, E; reflexivity).
    apply Nat.even_spec in Hev. destruct Hev as [k Hk].
    assert (Hd : (n / 2 = k)%nat).
    { rewrite Hk. symmetry. apply (Nat.div_unique _ 2 k 0); lia. }
    rewrite Hd. repeat split; lia || reflexivity.
Qed.

Lemma median_bounds (arr : list Q) (lo hi : Q) :
  arr <> [] -> (forall x, In x arr -> lo <= x <= hi) -> lo <= median arr <= hi.
Proof.
  intros Hne Hb.
  pose proof (sortBy_perm Qle_bool arr) as Hperm.
  destruct (median_middle arr Hne) as [Hn Hmid].
  remember (sortBy Qle_bool arr) as s eqn:Es.
  remember (length s) as n eqn:En.
  assert (Hin : forall i, (i < n)%nat -> In (nth i s 0) arr).
  { intros i Hi. apply (Permutation_in _ Hperm), nth_In. lia. }
  assert (Hhalf : (n / 2 < n)%nat) by (apply Nat.div_lt; lia).
  destruct Hmid as [(_ & Ho & ->) | (_ & He & Hpos & ->)].
  - apply Hb, Hin, Hhalf.
  - assert (Hprev : (n / 2 - 1 < n)%nat) by lia.
    destruct (Hb _ (Hin _ Hprev)). destruct (Hb _ (Hin _ Hhalf)).
    split; [apply Qhalf_sum_ge | apply Qhalf_sum_le]; lra.
Qed.

Lemma median_counts (arr : list Q) :
  arr <> [] ->
  (length arr <= 2 * length (filter (fun x => Qle_bool x (median arr)) arr))%nat
  /\ (length arr <= 2 * length (filter (fun x => Qle_bool (median arr) x) arr))%nat.
Proof.
  intro Hne.
  pose proof (sortBy_perm Qle_bool arr) as Hperm.
  pose proof (sortBy_Qle_sorted arr) as Hsorted.
  pose proof (Permutation_length Hperm) as Hlen.
  destruct (median_middle arr Hne) as [Hn Hmid].
  remember (sortBy Qle_bool arr) as s eqn:Es.
  remember (length s) as n eqn:En.
  assert (Hle : forall i j, (i <= j)%nat -> (j < n)%nat -> nth i s 0 <= nth j s 0).
  { intros i j Hij Hj. apply sorted_nth_le; [exact Hsorted | exact Hij | lia]. }
  assert (Hhalf : (n / 2 < n)%nat) by (apply Nat.div_lt; lia).
  split.
  - rewrite <- Hlen, (filter_length_perm _ _ _ (Permutation_sym Hperm)).
    destruct Hmid as [(_ & Ho & Hm) | (_ & He & Hpos & Hm)]; rewrite Hm.
    + assert (n / 2 + 1 <= length (filter (fun x => Qle_bool x (nth (n / 2) s 0%Q)) s))%nat.
      { apply (count_prefix _ 0); [lia |].
        intros i Hi. apply Qle_bool_iff, Hle; lia. }
      lia.
    + assert (n / 2 <= length (filter
                (fun x => Qle_bool x ((nth (n / 2 - 1) s 0%Q + nth (n / 2) s 0%Q) / 2)) s))%nat.
      { apply (count_prefix _ 0); [lia |].
        intros i Hi. apply Qle_bool_iff.
        assert (nth i s 0 <= nth (n / 2 - 1) s 0) by (apply Hle; lia).
        assert (nth (n / 2 - 1) s 0 <= nth (n / 2) s 0) by (apply Hle; lia).
        apply Qhalf_sum_ge. lra. }
      lia.
  - rewrite <- Hlen, (filter_length_perm _ _ _ (Permutation_sym Hperm)).
    destruct Hmid as [(_ & Ho & Hm) | (_ & He & Hpos & Hm)]; rewrite Hm.
    + assert (length s - n / 2
              <= length (filter (fun x => Qle_bool (nth (n / 2) s 0%Q) x) s))%nat.
      { apply (count_suffix _ 0).
        intros i Hk Hi. apply Qle_bool_iff, Hle; lia. }
      lia.
    + assert (length s - n / 2 <= length (filter
                (fun x => Qle_bool ((nth (n / 2 - 1) s 0%Q + nth (n / 2) s 0%Q) / 2) x) s))%nat.
      { apply (count_suffix _ 0).
        intros i Hk Hi. apply Qle_bool_iff.
        assert (nth (n / 2) s 0 <= nth i s 0) by (apply Hle; lia).
        assert (nth (n / 2 - 1) s 0 <= nth (n / 2) s 0) by (apply Hle; lia).
        apply Qhalf_sum_le. lra. }
      lia.
Qed.

(** X1.  median() returns 0 for an empty array; for a non-empty array its
    result lies between any lower and upper bound of the elements, at least
    half of the elements are less than or equal to it and at least half are
    greater than or equal to it. *)
Theorem median_is_middle_value :
  forall arr : list Q,
    (arr = [] -> median arr = 0)
    /\ (arr <> [] ->
        (forall lo hi : Q,
            (forall x, In x arr -> lo <= x <= hi) -> lo <= median arr <= hi)
        /\ (length arr <= 2 * length (filter (fun x => Qle_bool x (median arr)) arr))%nat
        /\ (length arr <= 2 * length (filter (fun x => Qle_bool (median arr) x) arr))%nat).
Proof.
  intro arr. split; [intros ->; reflexivity |]. intro Hne.
  split; [intros lo hi; apply median_bounds, Hne | apply median_counts, Hne].
Qed.

Lemma median_is_middle_value_witness :
  1 <= median [3; 1; 2] <= 3.
Proof.
  destruct (median_is_middle_value [3; 1; 2]) as [_ H].
  destruct H as [H _]; [discriminate |].
  apply H. intros x Hx. cbn in Hx.
  destruct Hx as [<- | [<- | [<- | []]]]; split; discriminate.
Defined.

(** ** Scale estimate and z-score *)

Lemma mad_nonneg (arr : list Q) : 0 <= mad arr.
Proof.
  unfold mad. destruct arr as [|a t]; [discriminate |].
  set (l := map (fun x => Qabs (x - median (a :: t))) (a :: t)).
  assert (Hne : l <> []) by discriminate.
  assert (Hub : exists hi, forall x, In x l -> x <= hi).
  { clearbody l. clear. induction l as [|y l [hi IH]].
    - exists 0. intros x [].
    - exists (Qmax y hi). intros x [<- | Hx]; [apply Q.le_max_l |].
      apply Qle_trans with hi; [apply IH, Hx | apply Q.le_max_r]. }
  destruct Hub as [hi Hhi].
  apply (median_bounds l 0 hi Hne).
  intros x Hx. split; [| apply Hhi, Hx].
  subst l. apply in_map_iff in Hx. destruct Hx as (y & <- & _). apply Qabs_nonneg.
Qed.

Lemma median_of_equal (arr : list Q) (c : Q) :
  arr <> [] -> (forall x, In x arr -> x == c) -> median arr == c.
Proof.
  intros Hne Hc. apply Qle_antisym; apply (median_bounds arr c c Hne);
    intros x Hx; rewrite (Hc x Hx); split; apply Qle_refl.
Qed.

Lemma madSigma_pos (arr : list Q) : 0 < madSigma arr.
Proof.
  pose proof (mad_nonneg arr) as Hmad.
  unfold madSigma. destruct (Qeq_bool (1.4826 * mad arr) 0) eqn:E; [reflexivity |].
  apply Qeq_bool_neq in E.
  destruct (Qlt_le_dec 0 (1.4826 * mad arr)) as [L | L]; [exact L |].
  exfalso. apply E. apply Qle_antisym; [exact L | lra].
Qed.

(** X2.  mad() is never negative and madSigma() is always strictly positive;
    for an array whose elements are all equal (and for the empty array)
    madSigma() is exactly the floor value 1e-6. *)
Theorem madSigma_never_zero :
  forall arr : list Q,
    0 <= mad arr
    /\ 0 < madSigma arr
    /\ (forall c : Q, (forall x, In x arr -> x == c) -> madSigma arr = 1 / 1000000).
Proof.
  intro arr.
  pose proof (mad_nonneg arr) as Hmad.
  split; [exact Hmad |]. split; [apply madSigma_pos |].
  intros c Hc. unfold madSigma.
    assert (E : 1.4826 * mad arr == 0).
    { unfold mad. destruct arr as [|a t]; [reflexivity |].
      assert (Hz : median (map (fun x => Qabs (x - median (a :: t))) (a :: t)) == 0).
      { apply median_of_equal; [discriminate |].
        intros x Hx. apply in_map_iff in Hx. destruct Hx as (y & <- & Hy).
        assert (Hm : median (a :: t) == c) by (apply median_of_equal; [discriminate | exact Hc]).
        rewrite (Hc y Hy), Hm. setoid_replace (c - c) with 0 by ring. reflexivity. }
      rewrite Hz. ring. }
  apply Qeq_bool_iff in E. rewrite E. reflexivity.
Qed.

Lemma madSigma_never_zero_witness : madSigma [5; 5; 5; 5] = 1 / 1000000.
Proof.
  destruct (madSigma_never_zero [5; 5; 5; 5]) as (_ & _ & H).
  apply (H 5). intros x Hx. cbn in Hx.
  destruct Hx as [<- | [<- | [<- | [<- | []]]]]; reflexivity.
Defined.

Lemma zScore_denominator (sigma : Q) : 0 < Qmax (1 / 1000000) sigma.
Proof.
  apply Qlt_le_trans with (1 / 1000000); [reflexivity | apply Q.le_max_l].
Qed.

Lemma zScore_monotone (v1 v2 med sigma : Q) :
  v1 <= v2 -> zScore v1 med sigma <= zScore v2 med sigma.
Proof.
  intro H. unfold zScore.
  pose proof (zScore_denominator sigma) as Hd.
  apply Qle_shift_div_l; [exact Hd |].
  assert ((v1 - med) / Qmax (1 / 1000000) sigma * Qmax (1 / 1000000) sigma == v1 - med)
    by (field; lra).
  lra.
Qed.

(** X3.  zScore(value, med, sigma) is non-negative exactly when value >= med
    and zero exactly when value = med, whatever sigma is (also zero or
    negative); it grows with value; and when sigma is at least 1e-6 the
    score times sigma gives back value - med. *)
Theorem zScore_sign_and_order :
  forall value med sigma : Q,
    (0 <= zScore value med sigma <-> med <= value)
    /\ (zScore value med sigma == 0 <-> value == med)
    /\ (1 / 1000000 <= sigma -> zScore value med sigma * sigma == value - med)
    /\ (forall value' : Q, value <= value' ->
          zScore value med sigma <= zScore value' med sigma).
Proof.
  intros value med sigma.
  pose proof (zScore_denominator sigma) as Hd.
  assert (Hmul : zScore value med sigma * Qmax (1 / 1000000) sigma == value - med).
  { unfold zScore. field. lra. }
  split; [| split; [| split]].
  - split; intro H.
    + assert (0 * Qmax (1 / 1000000) sigma
              <= zScore value med sigma * Qmax (1 / 1000000) sigma)
        by (apply Qmult_le_compat_r; [exact H | lra]).
      lra.
    + unfold zScore. apply Qle_shift_div_l; [exact Hd | lra].
  - split; intro H.
    + rewrite H in Hmul. lra.
    + unfold zScore. setoid_replace (value - med) with 0 by lra.
      field. lra.
  - intro Hs. rewrite <- Hmul. rewrite (Q.max_r _ _ Hs). reflexivity.
  - intros value' Hv. apply zScore_monotone, Hv.
Qed.

Lemma zScore_sign_and_order_witness : zScore 12 10 2 * 2 == 12 - 10.
Proof.
  apply (zScore_sign_and_order 12 10 2). discriminate.
Defined.

(** ** Baseline and the two z-score channels *)

Lemma In_skipn {A : Type} (n : nat) (l : list A) (x : A) :
  In x (skipn n l) -> In x l.
Proof.
  intro H. rewrite <- (firstn_skipn n l). apply in_or_app. right. exact H.
Qed.

Lemma sliceLast_In {A : Type} (n : nat) (l : list A) (x : A) :
  In x (sliceLast n l) -> In x l.
Proof.
  unfold sliceLast. destruct n; [auto | apply In_skipn].
Qed.

Lemma sliceLast_length {A : Type} (n : nat) (l : list A) :
  length (sliceLast n l) = match n with O => length l | _ => Nat.min n (length l) end.
Proof.
  unfold sliceLast. destruct n as [|n]; [reflexivity |].
  rewrite length_skipn. lia.
Qed.

Lemma classifyReadinessZ_monotone (z1 z2 : Q) :
  z1 <= z2 ->
  (READINESS_CLASSES (classifyReadinessZ z2) <= READINESS_CLASSES (classifyReadinessZ z1))%Z.
Proof.
  intro H. unfold classifyReadinessZ.
  destruct (Qle_bool (-0.5) z1) eqn:A1;
    [apply Qle_bool_iff in A1 | apply Qle_bool_false in A1];
  (destruct (Qle_bool (-0.5) z2) eqn:A2;
    [apply Qle_bool_iff in A2 | apply Qle_bool_false in A2]);
  (destruct (Qle_bool (-1.0) z1) eqn:B1;
    [apply Qle_bool_iff in B1 | apply Qle_bool_false in B1]);
  (destruct (Qle_bool (-1.0) z2) eqn:B2;
    [apply Qle_bool_iff in B2 | apply Qle_bool_false in B2]);
  cbn; try lia; exfalso; lra.
Qed.

(** X4.  computeBaseline(values, windowN) is null exactly when the last
    windowN values are fewer than 3; otherwise n is at least 3, at most the
    number of values and (for windowN > 0) at most windowN, madSigma is
    strictly positive and the median lies between any bounds of the values. *)
Theorem computeBaseline_window :
  forall (values : list Q) (windowN : nat),
    (computeBaseline values windowN = None <-> (length (sliceLast windowN values) < 3)%nat)
    /\ (forall bl, computeBaseline values windowN = Some bl ->
          (3 <= bl_n bl)%nat /\ (bl_n bl <= length values)%nat
          /\ (windowN <> O -> (bl_n bl <= windowN)%nat)
          /\ 0 < bl_madSigma bl
          /\ (forall lo hi, (forall x, In x values -> lo <= x <= hi) ->
                           lo <= bl_median bl <= hi)).
Proof.
  intros values windowN. unfold computeBaseline.
  pose proof (sliceLast_length windowN values) as Hlen.
  destruct (Nat.ltb (length (sliceLast windowN values)) 3) eqn:E;
    [apply Nat.ltb_lt in E | apply Nat.ltb_ge in E].
  - split; [split; [intros _; exact E | reflexivity] | discriminate].
  - split; [split; [discriminate | lia] |].
    intros bl Hbl. injection Hbl as <-. cbn [bl_n bl_madSigma bl_median].
    split; [exact E |].
    split; [destruct windowN; lia |].
    split; [destruct windowN; [congruence | lia] |].
    split; [apply madSigma_pos |].
    intros lo hi Hb. apply median_bounds.
    + intro Hnil. rewrite Hnil in E. cbn in E. lia.
    + intros x Hx. apply Hb. apply (sliceLast_In _ _ _ Hx).
Qed.

Lemma computeBaseline_window_witness :
  0 < bl_madSigma (mkBaseline (median [0.40; 0.50; 0.60]) (madSigma [0.40; 0.50; 0.60]) 3)
  /\ computeBaseline [0.40; 0.50] 10 = None.
Proof.
  destruct (computeBaseline_window [0.40; 0.50; 0.60] 10) as [_ H].
  destruct (computeBaseline_window [0.40; 0.50] 10) as [[_ H'] _].
  split.
  - apply (H (mkBaseline (median [0.40; 0.50; 0.60]) (madSigma [0.40; 0.50; 0.60]) 3)).
    reflexivity.
  - apply H'. cbn. lia.
Defined.

Lemma z_channel_class (name : string) (today : option Q) (values : list Q) (n : nat)
    (f : option Q -> list Q -> nat -> ChannelResult) :
  (forall t v k, f t v k =
     match t with
     | None => mkChannel None None name None None
     | Some x =>
       match computeBaseline v k with
       | None => mkChannel None None name None None
       | Some bl =>
         mkChannel (Some (zScore x (bl_median bl) (bl_madSigma bl)))
           (Some (classifyReadinessZ (zScore x (bl_median bl) (bl_madSigma bl))))
           name None (Some bl)
       end
     end) ->
  (class (f today values n) = None
   <-> today = None \/ (length (sliceLast n values) < 3)%nat)
  /\ (forall v, today = Some v -> (3 <= length (sliceLast n values))%nat ->
                median (sliceLast n values) <= v -> class (f today values n) = Some GREEN)
  /\ (forall v1 v2 c1 c2, v1 <= v2 ->
        class (f (Some v1) values n) = Some c1 ->
        class (f (Some v2) values n) = Some c2 ->
        (READINESS_CLASSES c2 <= READINESS_CLASSES c1)%Z).
Proof.
  intro Hf. rewrite !Hf. unfold computeBaseline.
  destruct (Nat.ltb (length (sliceLast n values)) 3) eqn:E;
    [apply Nat.ltb_lt in E | apply Nat.ltb_ge in E].
  - split; [| split].
    + destruct today; cbn [class]; split; auto.
    + intros; lia.
    + intros v1 v2 c1 c2 _ H. rewrite Hf in H. unfold computeBaseline in H.
      apply Nat.ltb_lt in E. rewrite E in H. discriminate H.
  - split; [| split].
    + destruct today; cbn [class]; split; auto; try discriminate.
      intros [H | H]; [discriminate | lia].
    + intros v -> _ Hv. cbn [class bl_median bl_madSigma]. f_equal.
      apply classifyReadinessZ_spec.
      apply Qle_trans with 0; [discriminate |].
      unfold zScore. apply Qle_shift_div_l; [apply zScore_denominator | lra].
    + intros v1 v2 c1 c2 Hv H1 H2. rewrite Hf in H1, H2. unfold computeBaseline in H1, H2.
      apply Nat.ltb_ge in E. rewrite E in H1, H2.
      cbn [class bl_median bl_madSigma] in H1, H2.
      injection H1 as <-. injection H2 as <-.
      apply classifyReadinessZ_monotone, zScore_monotone, Hv.
Qed.

(** X5.  velocityReadiness() and hrvReadiness() are inactive (class null)
    exactly when today's reading is missing or the baseline window holds
    fewer than 3 values; a reading at or above the baseline median is GREEN;
    and against the same baseline a higher reading never gets a worse class
    than a lower one. *)
Theorem z_channels_readiness :
  forall (today : option Q) (values : list Q) (n : nat),
    ((class (velocityReadiness today values n) = None
      <-> today = None \/ (length (sliceLast n values) < 3)%nat)
     /\ (forall v, today = Some v -> (3 <= length (sliceLast n values))%nat ->
                   median (sliceLast n values) <= v ->
                   class (velocityReadiness today values n) = Some GREEN)
     /\ (forall v1 v2 c1 c2, v1 <= v2 ->
           class (velocityReadiness (Some v1) values n) = Some c1 ->
           class (velocityReadiness (Some v2) values n) = Some c2 ->
           (READINESS_CLASSES c2 <= READINESS_CLASSES c1)%Z))
    /\ ((class (hrvReadiness today values n) = None
         <-> today = None \/ (length (sliceLast n values) < 3)%nat)
        /\ (forall v, today = Some v -> (3 <= length (sliceLast n values))%nat ->
                      median (sliceLast n values) <= v ->
                      class (hrvReadiness today values n) = Some GREEN)
        /\ (forall v1 v2 c1 c2, v1 <= v2 ->
              class (hrvReadiness (Some v1) values n) = Some c1 ->
              class (hrvReadiness (Some v2) values n) = Some c2 ->
              (READINESS_CLASSES c2 <= READINESS_CLASSES c1)%Z)).
Proof.
  intros today values n. split.
  - apply (z_channel_class "velocity" today values n velocityReadiness).
    intros t v k. unfold velocityReadiness. destruct t; [| reflexivity].
    destruct (computeBaseline v k); reflexivity.
  - apply (z_channel_class "hrv" today values n hrvReadiness).
    intros t v k. unfold hrvReadiness. destruct t; [| reflexivity].
    destruct (computeBaseline v k); reflexivity.
Qed.

Lemma z_channels_readiness_witness :
  class (velocityReadiness (Some 0.5) [0.4; 0.5; 0.6] 10) = Some GREEN.
Proof.
  destruct (z_channels_readiness (Some 0.5) [0.4; 0.5; 0.6] 10) as [(_ & H & _) _].
  apply (H 0.5); [reflexivity | cbn; lia | vm_compute; discriminate].
Defined.

(** ** Means *)

Lemma fold_Qplus_bounds (l : list Q) (acc lo hi : Q) :
  (forall x, In x l -> lo <= x <= hi) ->
  acc + inject_Z (Z.of_nat (length l)) * lo <= fold_left Qplus l acc
  /\ fold_left Qplus l acc <= acc + inject_Z (Z.of_nat (length l)) * hi.
Proof.
  revert acc. induction l as [|a t IH]; intros acc Hb.
  - cbn. split; ring_simplify; apply Qle_refl.
  - cbn [fold_left length].
    destruct (Hb a (or_introl eq_refl)) as [Ha1 Ha2].
    destruct (IH (acc + a) (fun x Hx => Hb x (or_intror Hx))) as [I1 I2].
    rewrite Nat2Z.inj_succ. unfold Z.succ. rewrite inject_Z_plus.
    change (inject_Z 1) with 1.
    split; lra.
Qed.

Lemma avg_bounds (l : list Q) (lo hi : Q) :
  l <> [] -> (forall x, In x l -> lo <= x <= hi) -> lo <= avg l <= hi.
Proof.
  intros Hne Hb. unfold avg. destruct l as [|a t]; [contradiction |].
  set (l := a :: t) in *.
  destruct (fold_Qplus_bounds l 0 lo hi Hb) as [H1 H2].
  assert (Hn : 0 < inject_Z (Z.of_nat (length l))).
  { change 0 with (inject_Z 0). rewrite <- Zlt_Qlt. subst l. cbn [length]. lia. }
  split.
  - apply Qle_shift_div_l; [exact Hn | lra].
  - apply Qle_shift_div_r; [exact Hn | lra].
Qed.

(** X6.  varaReadiness() is inactive exactly when fewer than 2 of the last
    windowN top sets carry both a target and an actual Vara; otherwise it is
    GREEN when every such set missed its target by less than 1, YELLOW when
    every one missed by at least 1 and less than 2, RED when every one
    missed by 2 or more. *)
Theorem varaReadiness_classes :
  forall (recentTopSets : list SetRec) (windowN : nat),
    let sets := filter hasBothVx (sliceLast windowN recentTopSets) in
    let r := varaReadiness recentTopSets windowN in
    (class r = None <-> (length sets < 2)%nat)
    /\ ((2 <= length sets)%nat ->
        ((forall s, In s sets -> overshoot s < 1) -> class r = Some GREEN)
        /\ ((forall s, In s sets -> 1 <= overshoot s < 2) -> class r = Some YELLOW)
        /\ ((forall s, In s sets -> 2 <= overshoot s) -> class r = Some RED)).
Proof.
  intros recentTopSets windowN sets r. subst r. unfold varaReadiness. fold sets.
  destruct (Nat.ltb (length sets) 2) eqn:E;
    [apply Nat.ltb_lt in E | apply Nat.ltb_ge in E]; cbn [class].
  - split; [split; auto | intro; lia].
  - split; [split; [discriminate | lia] |]. intros _.
    assert (Hne : map overshoot sets <> []).
    { destruct sets; [cbn in E; lia | discriminate]. }
    assert (Hub : exists hi, forall x, In x (map overshoot sets) -> x <= hi).
    { clear. induction (map overshoot sets) as [|y l [hi IH]].
      - exists 0. intros x [].
      - exists (Qmax y hi). intros x [<- | Hx]; [apply Q.le_max_l |].
        apply Qle_trans with hi; [apply IH, Hx | apply Q.le_max_r]. }
    assert (Hlb : exists lo, forall x, In x (map overshoot sets) -> lo <= x).
    { clear. induction (map overshoot sets) as [|y l [lo IH]].
      - exists 0. intros x [].
      - exists (Qmin y lo). intros x [<- | Hx]; [apply Q.le_min_l |].
        apply Qle_trans with lo; [apply Q.le_min_r | apply IH, Hx]. }
    destruct Hub as [hi Hhi]. destruct Hlb as [lo Hlo].
    split; [| split]; intro H.
    + (* all below 1: the mean is below 1 *)
      assert (Hm : avg (map overshoot sets) < 1).
      { assert (Hmax : exists m, m < 1 /\ forall x, In x (map overshoot sets) -> x <= m).
        { assert (G : forall x, In x (map overshoot sets) -> x < 1).
          { intros x Hx. apply in_map_iff in Hx. destruct Hx as (s & <- & Hs). apply H, Hs. }
          revert G. clear. induction (map overshoot sets) as [|y l IH]; intro G.
          - exists 0. split; [reflexivity | intros x []].
          - destruct IH as (m & Hm1 & Hm2); [intros x Hx; apply G; right; exact Hx |].
            exists (Qmax y m). split.
            + apply Q.max_lub_lt; [apply G; left; reflexivity | exact Hm1].
            + intros x [<- | Hx]; [apply Q.le_max_l |].
              apply Qle_trans with m; [apply Hm2, Hx | apply Q.le_max_r]. }
        destruct Hmax as (m & Hm1 & Hm2).
        destruct (avg_bounds (map overshoot sets) lo m Hne) as [_ Ha].
        { intros x Hx. split; [apply Hlo, Hx | apply Hm2, Hx]. }
        lra. }
      assert (E2 : Qle_bool 2 (avg (map overshoot sets)) = false)
        by (apply Qle_bool_false; lra).
      assert (E1 : Qle_bool 1 (avg (map overshoot sets)) = false)
        by (apply Qle_bool_false; lra).
      rewrite E2, E1. reflexivity.
    + assert (Hm : 1 <= avg (map overshoot sets) < 2).
      { assert (Hmax : exists m, m < 2 /\ forall x, In x (map overshoot sets) -> 1 <= x <= m).
        { assert (G : forall x, In x (map overshoot sets) -> 1 <= x < 2).
          { intros x Hx. apply in_map_iff in Hx. destruct Hx as (s & <- & Hs). apply H, Hs. }
          revert G. clear. induction (map overshoot sets) as [|y l IH]; intro G.
          - exists 0. split; [reflexivity | intros x []].
          - destruct IH as (m & Hm1 & Hm2); [intros x Hx; apply G; right; exact Hx |].
            exists (Qmax y m). split.
            + apply Q.max_lub_lt; [apply G; left; reflexivity | exact Hm1].
            + intros x [<- | Hx].
              * split; [apply G; left; reflexivity | apply Q.le_max_l].
              * split; [apply Hm2, Hx |].
                apply Qle_trans with m; [apply Hm2, Hx | apply Q.le_max_r]. }
        destruct Hmax as (m & Hm1 & Hm2).
        destruct (avg_bounds (map overshoot sets) 1 m Hne Hm2) as [Ha1 Ha2].
        split; lra. }
      assert (E2 : Qle_bool 2 (avg (map overshoot sets)) = false)
        by (apply Qle_bool_false; lra).
      assert (E1 : Qle_bool 1 (avg (map overshoot sets)) = true)
        by (apply Qle_bool_iff; lra).
      rewrite E2, E1. reflexivity.
    + assert (Hm : 2 <= avg (map overshoot sets)).
      { destruct (avg_bounds (map overshoot sets) 2 hi Hne) as [Ha _]; [| exact Ha].
        intros x Hx. split; [| apply Hhi, Hx].
        apply in_map_iff in Hx. destruct Hx as (s & <- & Hs). apply H, Hs. }
      assert (E2 : Qle_bool 2 (avg (map overshoot sets)) = true)
        by (apply Qle_bool_iff; lra).
      rewrite E2. reflexivity.
Qed.

Lemma varaReadiness_classes_witness :
  class (varaReadiness
           [mkSet "pullup" "top" None (Some 67) (Some 3) (Some 3) (Some 3) (Some 1);
            mkSet "pullup" "top" None (Some 67) (Some 3) (Some 3) (Some 2) (Some 0)] 5)
  = Some RED.
Proof.
  pose proof (varaReadiness_classes
                [mkSet "pullup" "top" None (Some 67) (Some 3) (Some 3) (Some 3) (Some 1);
                 mkSet "pullup" "top" None (Some 67) (Some 3) (Some 3) (Some 2) (Some 0)] 5)
    as H.
  cbv zeta in H. destruct H as [_ H].
  destruct H as (_ & _ & H); [cbn; lia |].
  apply H. intros s Hs. cbn in Hs.
  destruct Hs as [<- | [<- | []]]; vm_compute; discriminate.
Defined.

(** ** Rounding to the half unit *)

Lemma Math_round_bounds (x : Q) :
  x - (1 # 2) < inject_Z (Math_round x) /\ inject_Z (Math_round x) <= x + (1 # 2).
Proof.
  unfold Math_round.
  pose proof (Qfloor_le (x + (1 # 2))) as H1.
  pose proof (Qlt_floor (x + (1 # 2))) as H2.
  rewrite inject_Z_plus in H2. change (inject_Z 1) with 1 in H2.
  split; lra.
Qed.

Lemma roundToHalf_comp (a b : Q) : a == b -> roundToHalf a = roundToHalf b.
Proof.
  intro H. unfold roundToHalf, Math_round.
  assert (E : Qfloor (a * 2 + (1 # 2)) = Qfloor (b * 2 + (1 # 2)))
    by (apply Qfloor_comp; rewrite H; reflexivity).
  rewrite E. reflexivity.
Qed.

Lemma roundToHalf_value (v : Q) : roundToHalf v * 2 == inject_Z (Math_round (v * 2)).
Proof. unfold roundToHalf. field. Qed.

Lemma roundToHalf_mono (v1 v2 : Q) : v1 <= v2 -> roundToHalf v1 <= roundToHalf v2.
Proof.
  intro H.
  assert (Hz : (Math_round (v1 * 2) <= Math_round (v2 * 2))%Z)
    by (unfold Math_round; apply Qfloor_resp_le; lra).
  rewrite Zle_Qle in Hz.
  pose proof (roundToHalf_value v1). pose proof (roundToHalf_value v2). lra.
Qed.

Lemma roundToHalf_nonneg (v : Q) : 0 <= v -> 0 <= roundToHalf v.
Proof.
  intro H. apply Qle_trans with (roundToHalf 0); [discriminate |].
  apply roundToHalf_mono, H.
Qed.

(** X7.  roundToHalf(v) is a whole multiple of 0.5 that differs from v by at
    most 0.25 (a tie goes up); rounding a rounded value changes nothing; the
    function is monotone and maps non-negative values to non-negative
    values. *)
Theorem roundToHalf_nearest_half_unit :
  forall v : Q,
    (exists k : Z, roundToHalf v == inject_Z k * 0.5)
    /\ v - 0.25 < roundToHalf v <= v + 0.25
    /\ roundToHalf (roundToHalf v) == roundToHalf v
    /\ (forall v' : Q, v <= v' -> roundToHalf v <= roundToHalf v')
    /\ (0 <= v -> 0 <= roundToHalf v).
Proof.
  intro v.
  pose proof (roundToHalf_value v) as Hv.
  destruct (Math_round_bounds (v * 2)) as [B1 B2].
  split; [exists (Math_round (v * 2)); lra |].
  split; [split; lra |].
  split.
  - assert (E : roundToHalf v * 2 + (1 # 2) == inject_Z (Math_round (v * 2)) + (1 # 2)) by lra.
    pose proof (roundToHalf_value (roundToHalf v)) as Hr.
    unfold Math_round in Hr at 1.
    rewrite (Qfloor_comp _ _ E) in Hr.
    assert (F : Qfloor (inject_Z (Math_round (v * 2)) + (1 # 2)) = Math_round (v * 2)).
    { apply Z.le_antisymm.
      - assert (L : (Qfloor (inject_Z (Math_round (v * 2)) + (1 # 2))
                     < Math_round (v * 2) + 1)%Z).
        { rewrite Zlt_Qlt. eapply Qle_lt_trans; [apply Qfloor_le |].
          rewrite inject_Z_plus. change (inject_Z 1) with 1. lra. }
        lia.
      - rewrite <- (Qfloor_Z (Math_round (v * 2))) at 1.
        apply Qfloor_resp_le. lra. }
    rewrite F in Hr. lra.
  - split; [intros v' H; apply roundToHalf_mono, H | apply roundToHalf_nonneg].
Qed.

Lemma roundToHalf_nearest_half_unit_witness : 0 <= roundToHalf 70.657.
Proof.
  apply (roundToHalf_nearest_half_unit 70.657). discriminate.
Defined.

Lemma roundToHalf_of_half_unit (k : Z) : roundToHalf (inject_Z k * 0.5) == inject_Z k * 0.5.
Proof.
  pose proof (roundToHalf_value (inject_Z k * 0.5)) as Hv.
  assert (E : Math_round (inject_Z k * 0.5 * 2) = k).
  { unfold Math_round.
    assert (Hq : inject_Z k * 0.5 * 2 + (1 # 2) == inject_Z k + (1 # 2)) by ring.
    rewrite (Qfloor_comp _ _ Hq).
    apply Z.le_antisymm.
    - assert (L : (Qfloor (inject_Z k + (1 # 2)) < k + 1)%Z).
      { rewrite Zlt_Qlt. eapply Qle_lt_trans; [apply Qfloor_le |].
        rewrite inject_Z_plus. change (inject_Z 1) with 1. lra. }
      lia.
    - rewrite <- (Qfloor_Z k) at 1. apply Qfloor_resp_le. lra. }
  rewrite E in Hv. lra.
Qed.

(** ** Forward and inverse strength model *)

Lemma epley_factor_pos (r vx : Q) : 1 <= r -> 0 <= vx -> 0 < 1 + (r + vx) / 30.
Proof.
  intros Hr Hv.
  assert (0 <= (r + vx) / 30) by (apply Qle_shift_div_l; [reflexivity | lra]).
  lra.
Qed.

(** X8.  Round trip of the strength model: for external load >= 0, positive
    system load, reps >= 1 and Vara >= 0, feeding e1rmSystem(bw, load, reps,
    vara) back through targetLoadFromE1RM at the same reps and Vara gives a
    load within 0.25 kg of the original one (a load on a quarter kilo may
    come back as either neighbouring half kilo) and exactly the original
    load when that is a multiple of 0.5 kg; the inline inverse in
    recommend() at deltaPct = 0 gives the same value. *)
Theorem inverse_recovers_load_to_rounding :
  forall bw ext r vx : Q,
    0 <= ext -> 0 < bw + ext -> 1 <= r -> 0 <= vx ->
    exists x,
      targetLoadFromE1RM (e1rmSystem bw ext r (Some vx)) bw r vx = Some x
      /\ targetExternalLoadOf (e1rmSystem bw ext r (Some vx)) r vx 0 bw = Some x
      /\ ext - 0.25 <= x <= ext + 0.25
      /\ (forall k : Z, ext == inject_Z k * 0.5 -> x == ext).
Proof.
  intros bw ext r vx Hext Hsys Hr Hvx.
  pose proof (epley_factor_pos r vx Hr Hvx) as Hk.
  exists (roundToHalf ext).
  unfold e1rmSystem.
  assert (E1 : Qle_bool (bw + ext) 0 = false) by (apply Qle_bool_false; exact Hsys).
  assert (E2 : Qlt_bool r 1 = false) by (apply Qlt_bool_false; exact Hr).
  rewrite E1, E2. cbn [orb nullish].
  assert (Hpos : 0 < (bw + ext) * (1 + (r + vx) / 30))
    by (apply Qmult_lt_0_compat; assumption).
  unfold targetLoadFromE1RM, targetExternalLoadOf.
  assert (E3 : Qle_bool ((bw + ext) * (1 + (r + vx) / 30)) 0 = false)
    by (apply Qle_bool_false; exact Hpos).
  rewrite E3.
  assert (Hback : (bw + ext) * (1 + (r + vx) / 30) / (1 + (r + vx) / 30) == bw + ext)
    by (field; lra).
  split; [f_equal; apply roundToHalf_comp; rewrite Hback; rewrite Q.max_r by lra; ring |].
  split; [f_equal; apply roundToHalf_comp; rewrite Hback; rewrite Q.max_r by lra; ring |].
  pose proof (roundToHalf_value ext) as Hv.
  destruct (Math_round_bounds (ext * 2)) as [B1 B2].
  split; [split; lra |].
  intros k Hk'. rewrite (roundToHalf_comp _ _ Hk'), Hk'.
  apply roundToHalf_of_half_unit.
Qed.

Lemma inverse_recovers_load_to_rounding_witness :
  exists x,
    targetLoadFromE1RM (e1rmSystem 91 67 3 (Some 2)) 91 3 2 = Some x
    /\ targetExternalLoadOf (e1rmSystem 91 67 3 (Some 2)) 3 2 0 91 = Some x
    /\ 67 - 0.25 <= x <= 67 + 0.25
    /\ (forall k : Z, 67 == inject_Z k * 0.5 -> x == 67).
Proof.
  apply (inverse_recovers_load_to_rounding 91 67 3 2); discriminate || reflexivity.
Defined.

(** X9.  For a positive system load, reps >= 1 and Vara >= 0, e1rmSystem()
    is defined and strictly above the system load lifted, e1rmExternal() is
    defined, non-negative and strictly above the external load, and more
    reps at the same load never lower the estimate. *)
Theorem e1rm_estimate_exceeds_load :
  forall bw ext r vx : Q,
    0 < bw + ext -> 1 <= r -> 0 <= vx ->
    (exists e, e1rmSystem bw ext r (Some vx) = Some e /\ bw + ext < e)
    /\ (exists x, e1rmExternal bw ext r (Some vx) = Some x /\ 0 <= x /\ ext < x)
    /\ (forall r' e e', r <= r' ->
          e1rmSystem bw ext r (Some vx) = Some e ->
          e1rmSystem bw ext r' (Some vx) = Some e' -> e <= e').
Proof.
  intros bw ext r vx Hsys Hr Hvx.
  assert (E1 : Qle_bool (bw + ext) 0 = false) by (apply Qle_bool_false; exact Hsys).
  assert (E2 : Qlt_bool r 1 = false) by (apply Qlt_bool_false; exact Hr).
  assert (Hfrac : 0 < (r + vx) / 30) by (apply Qlt_shift_div_l; [reflexivity | lra]).
  assert (Hgain : 0 < (bw + ext) * ((r + vx) / 30))
    by (apply Qmult_lt_0_compat; assumption).
  assert (He : (bw + ext) * (1 + (r + vx) / 30)
               == (bw + ext) + (bw + ext) * ((r + vx) / 30)) by ring.
  split; [| split].
  - unfold e1rmSystem. rewrite E1, E2. cbn [orb nullish].
    eexists. split; [reflexivity | lra].
  - unfold e1rmExternal, e1rmSystem. rewrite E1, E2. cbn [orb nullish].
    eexists. split; [reflexivity |].
    pose proof (Q.le_max_l 0 ((bw + ext) * (1 + (r + vx) / 30) - bw)).
    pose proof (Q.le_max_r 0 ((bw + ext) * (1 + (r + vx) / 30) - bw)).
    split; lra.
  - intros r' e e' Hrr. unfold e1rmSystem. rewrite E1, E2.
    assert (E2' : Qlt_bool r' 1 = false) by (apply Qlt_bool_false; lra).
    rewrite E2'. cbn [orb nullish]. intros [= <-] [= <-].
    apply Qmult_le_l; [exact Hsys |].
    assert ((r + vx) / 30 <= (r' + vx) / 30).
    { apply Qle_shift_div_l; [reflexivity |].
      assert ((r + vx) / 30 * 30 == r + vx) by field. lra. }
    lra.
Qed.

Lemma e1rm_estimate_exceeds_load_witness :
  exists e, e1rmSystem 91 67 3 (Some 2) = Some e /\ 91 + 67 < e.
Proof.
  apply (e1rm_estimate_exceeds_load 91 67 3 2); discriminate || reflexivity.
Defined.

(** X10.  The target load recommend() computes is null exactly when there is
    no e1RM; otherwise it is a non-negative multiple of 0.5 kg; for a non-
    negative e1RM, reps >= 1 and Vara >= 0 a larger deltaPct never gives a
    smaller load; and at deltaPct = 0 with a positive e1RM it equals
    targetLoadFromE1RM(). *)
Theorem target_load_never_negative :
  forall (e : option Q) (r vx d1 d2 bw : Q),
    (targetExternalLoadOf e r vx d1 bw = None <-> e = None)
    /\ (forall x, targetExternalLoadOf e r vx d1 bw = Some x ->
          0 <= x /\ exists k : Z, x == inject_Z k * 0.5)
    /\ (forall ev x1 x2, e = Some ev -> 0 <= ev -> 1 <= r -> 0 <= vx -> d1 <= d2 ->
          targetExternalLoadOf e r vx d1 bw = Some x1 ->
          targetExternalLoadOf e r vx d2 bw = Some x2 -> x1 <= x2)
    /\ (forall ev, e = Some ev -> 0 < ev ->
          targetExternalLoadOf e r vx 0 bw = targetLoadFromE1RM e bw r vx).
Proof.
  intros e r vx d1 d2 bw. unfold targetExternalLoadOf.
  split; [| split; [| split]].
  - destruct e; split; intro H; congruence.
  - intros x Hx. destruct e as [ev|]; [| discriminate]. injection Hx as <-.
    split.
    + apply roundToHalf_nonneg, Q.le_max_l.
    + set (y := Qmax 0 _). exists (Math_round (y * 2)).
      pose proof (roundToHalf_value y). lra.
  - intros ev x1 x2 -> Hev Hr Hvx Hd [= <-] [= <-].
    pose proof (epley_factor_pos r vx Hr Hvx) as Hk.
    apply roundToHalf_mono.
    assert (Ht : 0 <= ev / (1 + (r + vx) / 30))
      by (apply Qle_shift_div_l; [exact Hk | lra]).
    assert (ev / (1 + (r + vx) / 30) * (1 + d1) <= ev / (1 + (r + vx) / 30) * (1 + d2)).
    { rewrite !(Qmult_comm (ev / (1 + (r + vx) / 30))).
      apply Qmult_le_compat_r; [lra | exact Ht]. }
    apply Q.max_le_compat_l. lra.
  - intros ev -> Hev. unfold targetLoadFromE1RM.
    assert (E : Qle_bool ev 0 = false) by (apply Qle_bool_false; exact Hev).
    rewrite E. f_equal. apply roundToHalf_comp.
    setoid_replace (ev / (1 + (r + vx) / 30) * (1 + 0) - bw)
      with (ev / (1 + (r + vx) / 30) - bw); [reflexivity |].
    unfold Qdiv. ring.
Qed.

Lemma target_load_never_negative_witness :
  roundToHalf (Qmax 0 (184 / (1 + (3 + 2) / 30) * (1 + 0.025) - 91))
  <= roundToHalf (Qmax 0 (184 / (1 + (3 + 2) / 30) * (1 + 0.05) - 91)).
Proof.
  destruct (target_load_never_negative (Some 184) 3 2 0.025 0.05 91) as (_ & _ & H & _).
  apply (H 184); reflexivity || discriminate.
Defined.

(** ** Position in the cycle *)

(** X11.  When getMesocycleWeek() returns a week w, the cycle has a start
    date, 1 <= w <= weekCount and the date lies 7(w-1) to 7w-1 days after
    the start; with a start date it returns null exactly when the date is
    before the start or 7*weekCount or more days after it; without a start
    date or a mesocycle it returns null. *)
Theorem getMesocycleWeek_range :
  forall (m : Mesocycle) (dateISO : ISODate),
    (forall w, getMesocycleWeek (Some m) dateISO = Some w ->
       exists start, startDateISO m = Some start
         /\ (1 <= w <= weekCount m)%Z
         /\ (7 * (w - 1) <= daysBetween start dateISO < 7 * w)%Z)
    /\ (forall start, startDateISO m = Some start ->
          (getMesocycleWeek (Some m) dateISO = None
           <-> (daysBetween start dateISO < 0
                \/ 7 * weekCount m <= daysBetween start dateISO)%Z))
    /\ (startDateISO m = None -> getMesocycleWeek (Some m) dateISO = None)
    /\ getMesocycleWeek None dateISO = None.
Proof.
  intros m dateISO. unfold getMesocycleWeek.
  split; [| split; [| split]].
  - intros w. destruct (startDateISO m) as [start|]; [| discriminate].
    cbv zeta. rewrite newDate_diff.
    destruct (Z.ltb_spec (daysBetween start dateISO) 0); [discriminate |].
    destruct (Z.ltb_spec (weekCount m) (daysBetween start dateISO / 7 + 1));
      [discriminate |].
    intros [= <-]. exists start. split; [reflexivity |].
    pose proof (Z.div_pos (daysBetween start dateISO) 7 ltac:(lia) ltac:(lia)).
    pose proof (Z.mul_div_le (daysBetween start dateISO) 7 ltac:(lia)).
    pose proof (Z.mul_succ_div_gt (daysBetween start dateISO) 7 ltac:(lia)).
    lia.
  - intros start ->. cbv zeta. rewrite newDate_diff.
    destruct (Z.ltb_spec (daysBetween start dateISO) 0).
    + split; [intros _; lia | reflexivity].
    + pose proof (Z.mul_div_le (daysBetween start dateISO) 7 ltac:(lia)).
      pose proof (Z.mul_succ_div_gt (daysBetween start dateISO) 7 ltac:(lia)).
      destruct (Z.ltb_spec (weekCount m) (daysBetween start dateISO / 7 + 1)).
      * split; [intros _; lia | reflexivity].
      * split; [discriminate | lia].
  - intros ->. reflexivity.
  - reflexivity.
Qed.

Lemma getMesocycleWeek_range_witness :
  getMesocycleWeek (Some week2Mesocycle) (mkDate 2026 1 1) = None.
Proof.
  destruct (getMesocycleWeek_range week2Mesocycle (mkDate 2026 1 1)) as (_ & H & _).
  apply (H (mkDate 2026 2 16)); [reflexivity |].
  left. vm_compute. reflexivity.
Defined.

Lemma nearest_fold (today : Z) (ds : list DayPlan) (b : DayPlan) :
  exists p,
    fold_left (nearestStep today) ds (Some b, Some (wrapDistOf today b))
    = (Some p, Some (wrapDistOf today p))
    /\ (p = b \/ In p ds)
    /\ (wrapDistOf today p <= wrapDistOf today b)%Z
    /\ (forall d, In d ds -> (wrapDistOf today p <= wrapDistOf today d)%Z).
Proof.
  revert b. induction ds as [|d t IH]; intro b; cbn [fold_left].
  - exists b. repeat split; [left; reflexivity | lia | intros d []].
  - unfold nearestStep at 2. cbn [snd].
    change (Z.min (Z.abs (nullish (dayOfWeek d) 0 - today))
                  (7 - Z.abs (nullish (dayOfWeek d) 0 - today)))%Z
      with (wrapDistOf today d).
    destruct (Z.ltb_spec (wrapDistOf today d) (wrapDistOf today b)) as [Hlt | Hge].
    + destruct (IH d) as (p & E & Hin & Hle & Hmin).
      exists p. split; [exact E |].
      split; [right; destruct Hin as [-> | Hin]; [left; reflexivity | right; exact Hin] |].
      split; [lia |].
      intros d' [<- | Hd']; [exact Hle | apply Hmin, Hd'].
    + destruct (IH b) as (p & E & Hin & Hle & Hmin).
      exists p. split; [exact E |].
      split; [destruct Hin as [-> | Hin]; [left; reflexivity | right; right; exact Hin] |].
      split; [exact Hle |].
      intros d' [<- | Hd']; [lia | apply Hmin, Hd'].
Qed.

Lemma wrapDistOf_nonneg (today : Z) (d : DayPlan) :
  (0 <= today <= 7)%Z -> weekdayPlan d -> (0 <= wrapDistOf today d)%Z.
Proof.
  intros Ht (k & E & Hk). unfold wrapDistOf. rewrite E. cbn [nullish]. lia.
Qed.

(** X12.  For a week plan with at least one day, all on weekdays 0..7, and a
    requested weekday 0..7 (getDay() values, or 7 for Sunday as recommend()
    counts it), getTodayPlan() returns one of the plan's days, none of the
    plan's days is closer to the requested weekday (distance counted round
    the week), and when the plan has a day on the requested weekday the
    returned day is on it. *)
Theorem getTodayPlan_nearest_day :
  forall (m : Mesocycle) (weekNum today : Z) (wp : WeekPlan),
    (0 <= today <= 7)%Z ->
    findFirst (fun w => (wp_week w =? weekNum)%Z) (weekPlans m) = Some wp ->
    days wp <> [] ->
    (forall d, In d (days wp) -> weekdayPlan d) ->
    exists p,
      getTodayPlan (Some m) weekNum today = Some p
      /\ In p (days wp)
      /\ (forall d, In d (days wp) -> (wrapDistOf today p <= wrapDistOf today d)%Z)
      /\ ((exists d, In d (days wp) /\ dayOfWeek d = Some today) ->
          dayOfWeek p = Some today).
Proof.
  intros m weekNum today wp Ht Hwp Hne Hall.
  unfold getTodayPlan. rewrite Hwp.
  destruct (days wp) as [|d0 t] eqn:Eds; [congruence |].
  set (isToday := fun d : DayPlan =>
                    match dayOfWeek d with Some k => (k =? today)%Z | None => false end).
  unfold findFirst at 1.
  destruct (find isToday (d0 :: t)) as [exact|] eqn:Ef.
  - apply find_some in Ef. destruct Ef as [Hin Hex].
    assert (Hdow : dayOfWeek exact = Some today).
    { unfold isToday in Hex. destruct (dayOfWeek exact) as [k|]; [| discriminate].
      apply Z.eqb_eq in Hex. congruence. }
    exists exact. split; [reflexivity |]. split; [exact Hin |].
    split; [| intros _; exact Hdow].
    intros d Hd.
    assert (E0 : wrapDistOf today exact = 0%Z).
    { unfold wrapDistOf. rewrite Hdow. cbn [nullish]. lia. }
    rewrite E0. apply wrapDistOf_nonneg; [exact Ht | apply Hall, Hd].
  - cbn [fold_left]. unfold nearestStep at 2. cbn [snd].
    change (Z.min (Z.abs (nullish (dayOfWeek d0) 0 - today))
                  (7 - Z.abs (nullish (dayOfWeek d0) 0 - today)))%Z
      with (wrapDistOf today d0).
    destruct (nearest_fold today t d0) as (p & E & Hin & Hle & Hmin).
    rewrite E. cbn [fst].
    exists p. split; [reflexivity |].
    split; [destruct Hin as [-> | Hin]; [left; reflexivity | right; exact Hin] |].
    split; [intros d [<- | Hd]; [exact Hle | apply Hmin, Hd] |].
    intros (d & Hd & Hdow).
    pose proof (find_none _ _ Ef d Hd) as Hno.
    unfold isToday in Hno. rewrite Hdow, Z.eqb_refl in Hno. discriminate.
Qed.

Lemma getTodayPlan_nearest_day_witness :
  exists p,
    getTodayPlan (Some week2Mesocycle) 2 7 = Some p
    /\ In p (days (mkWeekPlan 2 (loadingWeekDays 3 2 5 5 3 3)))
    /\ (forall d, In d (days (mkWeekPlan 2 (loadingWeekDays 3 2 5 5 3 3))) ->
          (wrapDistOf 7 p <= wrapDistOf 7 d)%Z)
    /\ ((exists d, In d (days (mkWeekPlan 2 (loadingWeekDays 3 2 5 5 3 3)))
                   /\ dayOfWeek d = Some 7%Z) ->
        dayOfWeek p = Some 7%Z).
Proof.
  apply (getTodayPlan_nearest_day week2Mesocycle 2 7 (mkWeekPlan 2 (loadingWeekDays 3 2 5 5 3 3))).
  - lia.
  - reflexivity.
  - discriminate.
  - intros d Hd. cbn in Hd.
    repeat (destruct Hd as [<- | Hd]; [eexists; split; [reflexivity | lia] |]).
    destruct Hd.
Defined.

(** ** Consequences of the fusion *)

Lemma combineReadiness_combined (v h r : ChannelResult) :
  combined (combineReadiness v h r) = fst (fusionRule (class v) (class h) (class r)).
Proof. by_channel_cases; reflexivity. Qed.

Lemma fusionRule_monotone (cv ch cr cv' ch' cr' : ReadinessClass) :
  (READINESS_CLASSES cv <= READINESS_CLASSES cv')%Z ->
  (READINESS_CLASSES ch <= READINESS_CLASSES ch')%Z ->
  (READINESS_CLASSES cr <= READINESS_CLASSES cr')%Z ->
  (READINESS_CLASSES (fst (fusionRule (Some cv) (Some ch) (Some cr)))
   <= READINESS_CLASSES (fst (fusionRule (Some cv') (Some ch') (Some cr'))))%Z.
Proof.
  destruct cv, cv'; cbn [READINESS_CLASSES]; intro H1; try lia;
    destruct ch, ch'; cbn [READINESS_CLASSES]; intro H2; try lia;
      destruct cr, cr'; cbn [READINESS_CLASSES]; intro H3; try lia;
        vm_compute; discriminate.
Qed.

(** X13.  Consequences of the fusion in combineReadiness(): with exactly one
    active channel the result is YELLOW (cap 1) whatever that channel says;
    the result is GREEN exactly when no channel is active or at least two
    are GREEN and velocity is not RED; swapping the HRV and Vara results
    does not change it; and with all three channels active, worsening any
    channel never improves the result. *)
Theorem combineReadiness_consequences :
  forall velocityR hrvR varaR : ChannelResult,
    let res := combineReadiness velocityR hrvR varaR in
    let active := filter (fun c => isSome (class c)) [velocityR; hrvR; varaR] in
    (length active = 1%nat -> combined res = YELLOW /\ capLevel res = 1%Z)
    /\ (combined res = GREEN
        <-> active = []
            \/ ((2 <= countClass GREEN [class velocityR; class hrvR; class varaR])%nat
                /\ class velocityR <> Some RED))
    /\ combined (combineReadiness velocityR varaR hrvR) = combined res
    /\ (forall velocityR' hrvR' varaR' cv ch cr cv' ch' cr',
          class velocityR = Some cv -> class hrvR = Some ch -> class varaR = Some cr ->
          class velocityR' = Some cv' -> class hrvR' = Some ch' ->
          class varaR' = Some cr' ->
          (READINESS_CLASSES cv <= READINESS_CLASSES cv')%Z ->
          (READINESS_CLASSES ch <= READINESS_CLASSES ch')%Z ->
          (READINESS_CLASSES cr <= READINESS_CLASSES cr')%Z ->
          (READINESS_CLASSES (combined res)
           <= READINESS_CLASSES (combined (combineReadiness velocityR' hrvR' varaR')))%Z).
Proof.
  intros velocityR hrvR varaR res active.
  split; [| split; [| split]].
  - subst res active. by_channel_cases; cbn; intro H; try discriminate H; split; reflexivity.
  - subst res active. by_channel_cases; cbn; split; intro H;
      first [ reflexivity
            | discriminate H
            | left; reflexivity
            | right; split; [lia | discriminate]
            | destruct H as [H | [H1 H2]];
              [discriminate H | first [lia | exfalso; apply H2; reflexivity]] ].
  - subst res. by_channel_cases; reflexivity.
  - intros velocityR' hrvR' varaR' cv ch cr cv' ch' cr' E1 E2 E3 E1' E2' E3' H1 H2 H3.
    subst res. rewrite !combineReadiness_combined.
    rewrite E1, E2, E3, E1', E2', E3'.
    apply fusionRule_monotone; assumption.
Qed.

Lemma combineReadiness_consequences_witness :
  combined (combineReadiness (chan "velocity" (Some GREEN)) (chan "hrv" None)
              (chan "vara" None)) = YELLOW
  /\ capLevel (combineReadiness (chan "velocity" (Some GREEN)) (chan "hrv" None)
                 (chan "vara" None)) = 1%Z.
Proof.
  pose proof (combineReadiness_consequences (chan "velocity" (Some GREEN)) (chan "hrv" None)
                (chan "vara" None)) as H.
  cbv zeta in H. destruct H as (H & _).
  apply H. reflexivity.
Defined.

(** ** Bounded corrections *)

Lemma clamp_bounds (v lo hi : Q) : lo <= hi -> lo <= clamp v lo hi <= hi.
Proof.
  intro H. unfold clamp. split; [apply Q.le_max_l |].
  apply Q.max_lub; [exact H | apply Q.le_min_l].
Qed.

Lemma clamp_inside (v lo hi : Q) : lo <= v <= hi -> clamp v lo hi == v.
Proof.
  intros [H1 H2]. unfold clamp.
  rewrite (Q.min_r hi v H2). apply Q.max_r, H1.
Qed.

(** X14.  For maxCorrection >= 0, varaTrendCorrection() stays within
    [-maxCorrection, +maxCorrection]; it is 0 when fewer than 4 sets carry
    both Vara values, and 0 when every set of the 6-set window is within 0.5
    of its target; it is never negative when no set undershoots and never
    positive when no set overshoots. *)
Theorem varaTrendCorrection_bounded :
  forall (recentTopSets : list SetRec) (maxCorrection : Q),
    let window := sliceLast 6 (filter hasBothVx recentTopSets) in
    let c := varaTrendCorrection recentTopSets maxCorrection in
    0 <= maxCorrection ->
    (- maxCorrection <= c <= maxCorrection)
    /\ ((length (filter hasBothVx recentTopSets) < 4)%nat -> c = 0)
    /\ ((forall s, In s window -> - 0.5 <= overshoot s <= 0.5) -> c = 0)
    /\ ((forall s, In s window -> 0 <= overshoot s) -> 0 <= c)
    /\ ((forall s, In s window -> overshoot s <= 0) -> c <= 0).
Proof.
  intros recentTopSets maxCorrection window c Hmax. subst c.
  unfold varaTrendCorrection. fold window.
  pose proof (sliceLast_length 6 (filter hasBothVx recentTopSets)) as Hlen.
  cbv iota beta in Hlen. fold window in Hlen.
  destruct (Nat.ltb (length window) 4) eqn:E;
    [apply Nat.ltb_lt in E | apply Nat.ltb_ge in E].
  - repeat split; intros; try reflexivity; try discriminate; lra.
  - assert (Hne : map overshoot window <> [])
      by (destruct window; [cbn in E; lia | discriminate]).
    assert (Hin : forall lo hi, (forall s, In s window -> lo <= overshoot s <= hi) ->
                                lo <= avg (map overshoot window) <= hi).
    { intros lo hi Hb. apply avg_bounds; [exact Hne |].
      intros x Hx. apply in_map_iff in Hx. destruct Hx as (s & <- & Hs). apply Hb, Hs. }
    assert (Hlo : forall lo, (forall s, In s window -> lo <= overshoot s) ->
                             lo <= avg (map overshoot window)).
    { intros lo Hb.
      assert (Hub : exists hi, forall s, In s window -> overshoot s <= hi).
      { clear. induction window as [|y l [hi IH]].
        - exists 0. intros s [].
        - exists (Qmax (overshoot y) hi). intros s [<- | Hs]; [apply Q.le_max_l |].
          apply Qle_trans with hi; [apply IH, Hs | apply Q.le_max_r]. }
      destruct Hub as [hi Hhi].
      apply (Hin lo hi). intros s Hs. split; [apply Hb, Hs | apply Hhi, Hs]. }
    assert (Hhi : forall hi, (forall s, In s window -> overshoot s <= hi) ->
                             avg (map overshoot window) <= hi).
    { intros hi Hb.
      assert (Hlb : exists lo, forall s, In s window -> lo <= overshoot s).
      { clear. induction window as [|y l [lo IH]].
        - exists 0. intros s [].
        - exists (Qmin (overshoot y) lo). intros s [<- | Hs]; [apply Q.le_min_l |].
          apply Qle_trans with lo; [apply Q.le_min_r | apply IH, Hs]. }
      destruct Hlb as [lo Hlo'].
      apply (Hin lo hi). intros s Hs. split; [apply Hlo', Hs | apply Hb, Hs]. }
    set (m := avg (map overshoot window)) in *.
    destruct (Qlt_bool 0.5 m) eqn:E1.
    + apply Qlt_bool_true in E1.
      destruct (clamp_bounds (m * 0.005) 0 maxCorrection Hmax) as [B1 B2].
      split; [split; lra |].
      split; [intro; lia |].
      split; [intro Hb; destruct (Hin _ _ Hb); lra |].
      split; [intros _; exact B1 |].
      intro Hb. pose proof (Hhi 0 Hb). lra.
    + apply Qlt_bool_false in E1.
      destruct (Qlt_bool m (-0.5)) eqn:E2.
      * apply Qlt_bool_true in E2.
        assert (Hmax' : - maxCorrection <= 0) by lra.
        destruct (clamp_bounds (m * 0.005) (- maxCorrection) 0 Hmax') as [B1 B2].
        split; [split; lra |].
        split; [intro; lia |].
        split; [intro Hb; destruct (Hin _ _ Hb); lra |].
        split; [| intros _; exact B2].
        intro Hb. pose proof (Hlo 0 Hb). lra.
      * repeat split; intros; try reflexivity; try discriminate; lra.
Qed.

Lemma varaTrendCorrection_bounded_witness :
  - 0.015 <= varaTrendCorrection [topSet184; topSet184; topSet184; topSet184] 0.015 <= 0.015.
Proof.
  pose proof (varaTrendCorrection_bounded [topSet184; topSet184; topSet184; topSet184] 0.015)
    as H.
  cbv zeta in H. destruct H as (H & _); [discriminate |].
  exact H.
Defined.

(** ** Longer breaks, more caution *)

(** X15.  breakAnalysis() is monotone in the length of the break: a longer
    break never gives a milder modifier, keeps a forced volume day and keeps
    a message; the modifier is always between -0.15 and 0, the volume day is
    forced exactly when the modifier is -0.10 or lower, breakDays is the
    calendar distance, a missing today falls back to the clock, and no last
    session gives the neutral result. *)
Theorem breakAnalysis_monotone :
  forall (clock : ISODate) (last1 today1 last2 today2 : ISODate),
    let b1 := breakAnalysis clock (Some last1) (Some today1) in
    let b2 := breakAnalysis clock (Some last2) (Some today2) in
    (daysBetween last1 today1 <= daysBetween last2 today2)%Z ->
    modifier b2 <= modifier b1
    /\ (forcedDayType b1 = Some "volume" -> forcedDayType b2 = Some "volume")
    /\ (message b1 <> None -> message b2 <> None)
    /\ (- 0.15 <= modifier b1 <= 0)
    /\ (forcedDayType b1 = Some "volume" <-> modifier b1 <= - 0.10)
    /\ breakDays b1 = Some (daysBetween last1 today1)
    /\ breakAnalysis clock (Some last1) None = breakAnalysis clock (Some last1) (Some clock)
    /\ breakAnalysis clock None (Some today1) = mkBreakInfo None 0 None None.
Proof.
  intros clock last1 today1 last2 today2 b1 b2 Hle. subst b1 b2.
  unfold breakAnalysis. cbn [nullish]. cbv zeta. rewrite !newDate_diff.
  set (d1 := daysBetween last1 today1) in *.
  set (d2 := daysBetween last2 today2) in *.
  destruct (Z.ltb_spec d1 7); [| destruct (Z.ltb_spec d1 14); [| destruct (Z.ltb_spec d1 28)]];
    (destruct (Z.ltb_spec d2 7);
     [| destruct (Z.ltb_spec d2 14); [| destruct (Z.ltb_spec d2 28)]]);
    try lia; cbn;
      repeat split; intros; try reflexivity; try discriminate; try congruence; try lra.
Qed.

Lemma breakAnalysis_monotone_witness :
  modifier (breakAnalysis (mkDate 2026 2 25) (Some (mkDate 2026 1 28))
              (Some (mkDate 2026 2 25)))
  <= modifier (breakAnalysis (mkDate 2026 2 25) (Some (mkDate 2026 2 18))
                 (Some (mkDate 2026 2 25))).
Proof.
  pose proof (breakAnalysis_monotone (mkDate 2026 2 25) (mkDate 2026 2 18) (mkDate 2026 2 25)
                (mkDate 2026 1 28) (mkDate 2026 2 25)) as H.
  cbv zeta in H. destruct H as (H & _); [vm_compute; discriminate |].
  exact H.
Defined.

(** ** The prescription of a run *)

(** X16.  In every run of recommend() whose maxDelta (settings.maxDelta ||
    0.25) is not negative, the prescribed deltaPct lies within [-maxDelta,
    +maxDelta] whatever week coefficient, Vara correction and break modifier
    went in; at capLevel 1 it lies within half that range and at capLevel 2
    it is at most 0. *)
Theorem recommend_adjustment_within_limit :
  forall (db : Store) (o : Options) (env : Env) (st : RunState),
    let r := fst (recommend db o env st) in
    let limit := orNum (maxDelta (nullish (opt_settings o) (getSettings db))) 0.25 in
    0 <= limit ->
    (- limit <= deltaPct r <= limit)
    /\ (rec_capLevel r = 1%Z -> - (limit * 0.5) <= deltaPct r <= limit * 0.5)
    /\ (rec_capLevel r = 2%Z -> deltaPct r <= 0).
Proof.
  cbv zeta. intros db o env st Hl.
  unfold recommend. repeat run_bind. unfold ret.
  cbn [fst deltaPct rec_capLevel].
  match goal with
  | E : stepReadinessCap ?c (clamp ?x ?lo ?hi) ?t _ ?s = (?a, _) |- _ =>
    pose proof (stepReadinessCap_value c (clamp x lo hi) t env s) as V;
      rewrite E in V; cbn [fst] in V;
      assert (Hlo : lo <= hi) by lra;
      destruct (clamp_bounds x lo hi Hlo) as [B1 B2];
      set (d := clamp x lo hi) in *
  end.
  destruct (Z.eqb_spec (capLevel (nullish (opt_readiness o) defaultReadiness)) 2) as [Hc2 | Hc2].
  - rewrite V. cbn [fst].
    pose proof (Q.le_min_l d 0). pose proof (Q.le_min_r d 0).
    assert (- orNum (maxDelta (nullish (opt_settings o) (getSettings db))) 0.25
            <= Qmin d 0) by (apply Q.min_glb; lra).
    split; [split; lra |]. split; [intro; lia | intros _; assumption].
  - destruct (Z.eqb_spec (capLevel (nullish (opt_readiness o) defaultReadiness)) 1)
      as [Hc1 | Hc1]; rewrite V; cbn [fst].
    + split; [split; lra |]. split; [intros _; split; lra | intro; lia].
    + split; [split; lra |]. split; intro; lia.
Qed.

Lemma recommend_adjustment_within_limit_witness :
  - orNum (maxDelta (nullish (opt_settings week2Options) (getSettings emptyStore))) 0.25
  <= deltaPct (fst (recommend emptyStore week2Options exampleEnv initialState))
  <= orNum (maxDelta (nullish (opt_settings week2Options) (getSettings emptyStore))) 0.25.
Proof.
  pose proof (recommend_adjustment_within_limit emptyStore week2Options exampleEnv
                initialState) as H.
  cbv zeta in H. destruct H as (H & _); [vm_compute; discriminate |].
  exact H.
Defined.

Lemma getMesocycleWeek_positive (m : option Mesocycle) (d : ISODate) (w : Z) :
  getMesocycleWeek m d = Some w -> (1 <= w)%Z.
Proof.
  unfold getMesocycleWeek. destruct m as [m|]; [| discriminate].
  destruct (startDateISO m) as [start|]; [| discriminate]. cbv zeta.
  destruct (Z.ltb_spec ((newDate d - newDate start) / MS_PER_DAY) 0); [discriminate |].
  destruct (_ <? _)%Z; [discriminate |].
  intros [= <-].
  pose proof (Z.div_pos ((newDate d - newDate start) / MS_PER_DAY) 7 ltac:(lia) ltac:(lia)).
  lia.
Qed.

Lemma stepWeek_positive (o : Options) (d : ISODate) (m : Mesocycle) (env : Env)
    (st : RunState) :
  (1 <= snd (fst (stepWeek o d m env st)))%Z.
Proof.
  unfold stepWeek.
  destruct (getMesocycleWeek (Some m) d) as [w|] eqn:E.
  - cbn. apply (getMesocycleWeek_positive _ _ _ E).
  - repeat run_bind. cbn. lia.
Qed.

Lemma stepBreak_weekNum (o : Options) (d : ISODate) (bi : BreakInfo) (m : Mesocycle)
    (w : Z) (t : string) (env : Env) (st : RunState) :
  snd (fst (fst (stepBreak o d bi m w t env st))) = w
  \/ snd (fst (fst (stepBreak o d bi m w t env st))) = 1%Z.
Proof.
  unfold stepBreak.
  destruct (negb _); [| left; reflexivity].
  repeat run_bind.
  destruct (14 <=? _)%Z; [| left; reflexivity].
  destruct (reset _); [| left; reflexivity].
  repeat run_bind. right. reflexivity.
Qed.

Lemma generateDefaultDayPlan_slots (t : string) (wd : option WeekDef) (a : bool) :
  slots (generateDefaultDayPlan t wd a) <> [].
Proof. unfold generateDefaultDayPlan. cbn. discriminate. Qed.

(** X17.  Every prescription recommend() returns is consistent with itself:
    targetExternalLoad is the inverse model applied to the returned
    e1rmSystem, targetReps, targetVx, deltaPct and bodyweightKg; it is null
    exactly when e1rmSystem is null and never negative; e1rmExternal is
    max(0, e1rmSystem - bodyweightKg); setCount is the recipe of the
    returned dayType; capLevel is the readiness's; weekNum is at least 1;
    and the day plan always has at least one slot. *)
Theorem recommend_prescription_consistent :
  forall (db : Store) (o : Options) (env : Env) (st : RunState),
    let r := fst (recommend db o env st) in
    targetExternalLoad r
    = targetExternalLoadOf (rec_e1rmSystem r) (rec_targetReps r) (rec_targetVx r)
        (deltaPct r) (rec_bodyweightKg r)
    /\ (targetExternalLoad r = None <-> rec_e1rmSystem r = None)
    /\ (forall x, targetExternalLoad r = Some x -> 0 <= x)
    /\ rec_e1rmExternal r
       = option_map (fun e => Qmax 0 (e - rec_bodyweightKg r)) (rec_e1rmSystem r)
    /\ setCount r = setCountOf (rec_dayType r)
    /\ rec_capLevel r = capLevel (rec_readiness r)
    /\ (1 <= rec_weekNum r)%Z
    /\ slots (rec_dayPlan r) <> [].
Proof.
  cbv zeta. intros db o env st.
  unfold recommend. repeat run_bind. unfold ret.
  cbn [fst targetExternalLoad rec_e1rmSystem rec_targetReps rec_targetVx deltaPct
       rec_bodyweightKg rec_e1rmExternal setCount rec_dayType rec_capLevel rec_readiness
       rec_weekNum rec_dayPlan].
  split; [reflexivity |].
  split; [unfold targetExternalLoadOf; destruct (currentE1RMSystemOf _ _);
          split; intro H; congruence |].
  split.
  { intros x Hx. unfold targetExternalLoadOf in Hx.
    destruct (currentE1RMSystemOf _ _); [| discriminate].
    injection Hx as <-. apply roundToHalf_nonneg, Q.le_max_l. }
  split; [reflexivity |]. split; [reflexivity |]. split; [reflexivity |].
  split.
  - match goal with
    | Ew : stepWeek ?o' ?d ?m _ ?s = (?a, _),
      Eb : stepBreak ?o'' ?d' ?bi ?m' (snd ?a) ?t _ ?s' = (?b, _) |- _ =>
      pose proof (stepWeek_positive o' d m env s) as Hw; rewrite Ew in Hw;
        cbn [fst] in Hw;
        pose proof (stepBreak_weekNum o'' d' bi m' (snd a) t env s') as Hb;
        rewrite Eb in Hb; cbn [fst] in Hb
    end.
    destruct Hb as [-> | ->]; [exact Hw | lia].
  - match goal with
    | E : stepDayPlan ?dp ?t ?wd ?a _ ?s = (?p, _) |- _ =>
      pose proof (stepDayPlan_value dp t wd a env s) as V; rewrite E in V; cbn [fst] in V
    end.
    assert (Hp : forall p b, slots p <> [] -> slots (applyAccessoryCap b p) <> []).
    { intros p b Hne. unfold applyAccessoryCap. destruct b; [| exact Hne].
      cbn [slots]. destruct (slots p); [congruence | discriminate]. }
    apply Hp. rewrite V.
    match goal with
    | |- slots (match ?dp with _ => _ end) <> [] =>
      destruct dp as [p|]; [destruct (slots p) eqn:Es |]
    end; try apply generateDefaultDayPlan_slots.
    rewrite Es. discriminate.
Qed.

(** ** What a run stores *)

Lemma wm_keeps {A : Type} (m : M A) : keepsWrites m -> writesMesocycles m.
Proof.
  intros H env st. exists []. rewrite (H env st), app_nil_r. split; reflexivity.
Qed.

Lemma wm_bind {A B : Type} (m : M A) (k : A -> M B) :
  writesMesocycles m -> (forall a, writesMesocycles (k a)) -> writesMesocycles (bind m k).
Proof.
  intros Hm Hk env st. unfold bind.
  destruct (Hm env st) as (W1 & E1 & F1).
  destruct (m env st) as [a st']. cbn [snd] in E1.
  destruct (Hk a env st') as (W2 & E2 & F2).
  exists (W1 ++ W2)%list. rewrite E2, E1, app_assoc, forallb_app, F1, F2.
  split; reflexivity.
Qed.

Lemma wm_saveMesocycle (m : Mesocycle) : writesMesocycles (saveMesocycle m).
Proof.
  intros env st. unfold saveMesocycle.
  destruct (String.eqb (mesocycleId m) ""); cbn; eexists [_]; split; reflexivity.
Qed.

Ltac wm :=
  repeat first
    [ apply wm_keeps; solve [keeps | apply keeps_createDefaultMesocycle]
    | apply wm_saveMesocycle
    | apply wm_bind; [| intro]
    | match goal with
      | |- writesMesocycles (if ?c then _ else _) => destruct c
      | |- writesMesocycles (match ?x with _ => _ end) => destruct x
      end ].

Lemma wm_stepGetMesocycle (db : Store) (o : Options) (d : ISODate) :
  writesMesocycles (stepGetMesocycle db o d).
Proof. unfold stepGetMesocycle. wm. Qed.

Lemma wm_stepWeek (o : Options) (d : ISODate) (m : Mesocycle) :
  writesMesocycles (stepWeek o d m).
Proof. unfold stepWeek. wm. Qed.

Lemma wm_stepBreak (o : Options) (d : ISODate) (bi : BreakInfo) (m : Mesocycle)
    (w : Z) (t : string) :
  writesMesocycles (stepBreak o d bi m w t).
Proof. unfold stepBreak. cbv zeta. wm. Qed.

Lemma finishes_bind {A : Type} (dry : bool) (m : M A) (k : A -> M Recommendation) :
  writesMesocycles m -> (forall a, finishes dry (k a)) -> finishes dry (bind m k).
Proof.
  intros Hm Hk env st. unfold bind.
  destruct (Hm env st) as (W1 & E1 & F1).
  destruct (m env st) as [a st']. cbn [snd] in E1.
  destruct (Hk a env st') as (Ht & Hw).
  split; [exact Ht |].
  intro Hdry. destruct (Hw Hdry) as (W2 & id & E2 & F2 & Hid).
  exists (W1 ++ W2)%list, id. rewrite E2, E1, forallb_app, F1, F2.
  split; [rewrite <- !app_assoc; reflexivity | split; [reflexivity | exact Hid]].
Qed.

Lemma saveRecommendation_run (r : SavedRecommendation) (env : Env) (st : RunState) :
  traces (snd (saveRecommendation r env st)) = traces st
  /\ exists id,
       writes (snd (saveRecommendation r env st))
       = (writes st ++ [PutRecommendation
                          (mkSavedRecommendation id (sv_sessionId r) (sv_variantId r)
                             (sv_targetSetRole r) (sv_targetLoadKg r) (sv_deltaPct r)
                             (sv_capLevel r) (sv_mesocycleWeek r) (sv_dayType r)
                             (sv_targetReps r) (sv_targetVx r) (sv_createdAtISO r))])%list
       /\ (sv_recId r <> "" -> id = sv_recId r).
Proof.
  unfold saveRecommendation.
  destruct (String.eqb_spec (sv_recId r) "") as [E | E]; cbn.
  - split; [reflexivity |]. eexists. split; [reflexivity | intro; contradiction].
  - split; [reflexivity |]. exists (sv_recId r). destruct r. split; reflexivity.
Qed.

Lemma mapM_saveDecisionTrace_run (ts : list Trace) (env : Env) (st : RunState) :
  traces (snd (mapM saveDecisionTrace ts env st)) = traces st
  /\ writes (snd (mapM saveDecisionTrace ts env st))
     = (writes st ++ map PutDecisionTrace (fst (mapM saveDecisionTrace ts env st)))%list
  /\ map tr_recId (fst (mapM saveDecisionTrace ts env st)) = map tr_recId ts.
Proof.
  revert st. induction ts as [|t ts IH]; intro st.
  - cbn. rewrite app_nil_r. repeat split.
  - cbn [mapM]. run_bind. run_bind. unfold ret. cbn [fst snd].
    destruct (IH s) as (I1 & I2 & I3). rewrite E0 in I1, I2, I3. cbn [fst snd] in *.
    assert (Hs : traces s = traces st /\ writes s = (writes st ++ [PutDecisionTrace a])%list
                 /\ tr_recId a = tr_recId t).
    { revert E. unfold saveDecisionTrace.
      destruct (String.eqb (traceId t) ""); cbn; intros [= <- <-]; repeat split. }
    destruct Hs as (S1 & S2 & S3).
    split; [congruence |].
    split; [rewrite I2, S2, <- app_assoc; reflexivity |].
    cbn [map]. congruence.
Qed.

(** X18.  Every trace of the returned prescription carries the
    prescription's recId; and a run that is not a dry run writes, after any
    mesocycles it created, exactly one recommendation record holding the
    returned load, deltaPct, capLevel, week, day type, reps and Vara (under
    the returned recId when that is not empty) followed by exactly the
    returned traces, in order. *)
Theorem recommend_saves_what_it_returns :
  forall (env : Env) (db : Store) (o : Options),
    let r := fst (runRecommend env db o) in
    let stored := snd (runRecommend env db o) in
    Forall (taggedWith (recId r)) (rec_traces r)
    /\ (dryRun o = false ->
        exists W id,
          stored = (W ++ PutRecommendation (savedAs id r (clockNow env))
                         :: map PutDecisionTrace (rec_traces r))%list
          /\ forallb isPutMesocycle W = true
          /\ (recId r <> "" -> id = recId r)).
Proof.
  intros env db o.
  assert (H : finishes (dryRun o) (recommend db o)).
  { unfold recommend. cbv zeta.
    apply finishes_bind; [apply wm_keeps, keeps_todayISO | intro today].
    apply finishes_bind; [apply wm_stepGetMesocycle | intro m].
    apply finishes_bind; [apply wm_stepWeek | intro mw].
    apply finishes_bind; [apply wm_keeps, keeps_trace | intros _].
    apply finishes_bind; [apply wm_stepBreak | intro mwd].
    apply finishes_bind; [apply wm_keeps, keeps_trace | intros _].
    apply finishes_bind; [apply wm_keeps, keeps_trace | intros _].
    apply finishes_bind; [apply wm_keeps; keeps | intro d1].
    apply finishes_bind; [apply wm_keeps; keeps | intro d2].
    apply finishes_bind; [apply wm_keeps, keeps_stepReadinessCap | intro capped].
    apply finishes_bind; [apply wm_keeps, keeps_trace | intros _].
    apply finishes_bind; [apply wm_keeps; keeps | intros _].
    apply finishes_bind; [apply wm_keeps, keeps_stepAccessoryCap | intro active].
    apply finishes_bind; [apply wm_keeps, keeps_stepDayPlan | intro plan].
    intros e s. cbv zeta.
    destruct (dryRun o).
    - cbn. split; [| discriminate].
      apply Forall_forall. intros t Ht. apply in_map_iff in Ht.
      destruct Ht as (t0 & <- & _). reflexivity.
    - repeat run_bind.
      match goal with E : bind _ _ _ _ = _ |- _ => revert E end.
      repeat run_bind. intro Elast. unfold ret. cbn [fst snd recId rec_traces].
      repeat match goal with
             | E : uid _ _ = _ |- _ => unfold uid in E; inversion E; subst; clear E
             | E : getTraces _ _ = _ |- _ => unfold getTraces in E; inversion E; subst; clear E
             | E : setTraces _ _ _ = _ |- _ =>
               unfold setTraces in E; inversion E; subst; clear E
             | E : nowISO _ _ = _ |- _ => unfold nowISO in E; inversion E; subst; clear E
             end.
      match goal with
      | E : saveRecommendation ?sr _ ?s0 = _ |- _ =>
        destruct (saveRecommendation_run sr e s0) as (S1 & id & S2 & S3);
          rewrite E in S1, S2; cbn [snd] in S1, S2
      end.
      match goal with
      | E : mapM saveDecisionTrace ?l _ ?s0 = _ |- _ =>
        destruct (mapM_saveDecisionTrace_run l e s0) as (M1 & M2 & M3);
          rewrite E in M1, M2, M3; cbn [fst snd] in M1, M2, M3
      end.
      cbn [traces writes uidCount sv_recId] in *.
      split.
      + rewrite S1 in M3.
        apply Forall_forall. intros t Ht.
        match goal with
        | Ht : In t ?l |- _ =>
          assert (Hin : In (tr_recId t) (map tr_recId l)) by (apply in_map, Ht)
        end.
        rewrite M3, map_map in Hin. apply in_map_iff in Hin.
        destruct Hin as (t0 & Ht0 & _). unfold taggedWith. rewrite <- Ht0. reflexivity.
      + intros _. exists [], id. cbn [writes app].
        rewrite M2, S2. rewrite <- app_assoc.
        split; [reflexivity | split; [reflexivity | exact S3]]. }
  unfold runRecommend. specialize (H env initialState). cbv zeta in H.
  destruct (recommend db o env initialState) as [r st']. cbn [fst snd] in *.
  exact H.
Qed.

Lemma recommend_saves_what_it_returns_witness :
  exists W id,
    snd (runRecommend exampleEnv emptyStore
           (mkOptions None (Some 91) (Some (mkDate 2026 2 23)) (Some week2Mesocycle) false
              None (Some [mkSession (Some (mkDate 2026 2 20))]) (Some [topSet184]) None None))
    = (W ++ PutRecommendation
             (savedAs id
                (fst (runRecommend exampleEnv emptyStore
                        (mkOptions None (Some 91) (Some (mkDate 2026 2 23))
                           (Some week2Mesocycle) false None
                           (Some [mkSession (Some (mkDate 2026 2 20))]) (Some [topSet184])
                           None None)))
                (clockNow exampleEnv))
           :: map PutDecisionTrace
                (rec_traces
                   (fst (runRecommend exampleEnv emptyStore
                           (mkOptions None (Some 91) (Some (mkDate 2026 2 23))
                              (Some week2Mesocycle) false None
                              (Some [mkSession (Some (mkDate 2026 2 20))])
                              (Some [topSet184]) None None)))))%list
    /\ forallb isPutMesocycle W = true
    /\ (recId
          (fst (runRecommend exampleEnv emptyStore
                  (mkOptions None (Some 91) (Some (mkDate 2026 2 23)) (Some week2Mesocycle)
                     false None (Some [mkSession (Some (mkDate 2026 2 20))])
                     (Some [topSet184]) None None))) <> "" -> id =
        recId
          (fst (runRecommend exampleEnv emptyStore
                  (mkOptions None (Some 91) (Some (mkDate 2026 2 23)) (Some week2Mesocycle)
                     false None (Some [mkSession (Some (mkDate 2026 2 20))])
                     (Some [topSet184]) None None)))).
Proof.
  pose proof (recommend_saves_what_it_returns exampleEnv emptyStore
                (mkOptions None (Some 91) (Some (mkDate 2026 2 23)) (Some week2Mesocycle)
                   false None (Some [mkSession (Some (mkDate 2026 2 20))])
                   (Some [topSet184]) None None)) as H.
  cbv zeta in H. destruct H as [_ H].
  apply H. reflexivity.
Defined.

(** ** Reaction to a failed set *)

(** X19.  failureReaction() asks to stop exactly when there were 2 or more
    consecutive failures; the next load is 90% of the current one rounded to
    the half kilo, never negative for a non-negative load and strictly
    lighter for any load above 2.5 kg; on a primary movement the next reps
    are at least 1, never above targetReps >= 1 and exactly targetReps - 1
    for targetReps >= 2; on other movements the reps are unchanged. *)
Theorem failureReaction_backs_off :
  forall (currentLoadKg targetReps : Q) (isPrimary : bool) (consecutiveFailures : Z),
    let r := failureReaction currentLoadKg targetReps isPrimary consecutiveFailures in
    (shouldStop r = true <-> (2 <= consecutiveFailures)%Z)
    /\ (currentLoadKg * 0.9 - 0.25 < nextSetLoad r <= currentLoadKg * 0.9 + 0.25)
    /\ (0 <= currentLoadKg -> 0 <= nextSetLoad r)
    /\ (2.5 < currentLoadKg -> nextSetLoad r < currentLoadKg)
    /\ (isPrimary = true ->
        1 <= nextSetReps r
        /\ (1 <= targetReps -> nextSetReps r <= targetReps)
        /\ (2 <= targetReps -> nextSetReps r == targetReps - 1))
    /\ (isPrimary = false -> nextSetReps r = targetReps).
Proof.
  intros load treps isPrimary fails r.
  assert (HL : nextSetLoad r = roundToHalf (load * 0.90)).
  { subst r. unfold failureReaction. destruct (2 <=? fails)%Z; reflexivity. }
  assert (HR : nextSetReps r = if isPrimary then Qmax (treps - 1) 1 else treps).
  { subst r. unfold failureReaction. destruct (2 <=? fails)%Z; reflexivity. }
  assert (HS : shouldStop r = (2 <=? fails)%Z).
  { subst r. unfold failureReaction. destruct (2 <=? fails)%Z; reflexivity. }
  rewrite HL, HR, HS.
  pose proof (Math_round_bounds (load * 0.90 * 2)) as [B1 B2].
  pose proof (roundToHalf_value (load * 0.90)) as Hv.
  split; [apply Z.leb_le |].
  split; [split; lra |].
  split; [intro H; apply roundToHalf_nonneg; lra |].
  split; [intro H; lra |].
  split.
  - intros ->.
    split; [apply Q.le_max_r |].
    split; intro H.
    + apply Q.max_lub; lra.
    + apply Q.max_l. lra.
  - intros ->. reflexivity.
Qed.

Lemma failureReaction_backs_off_witness :
  nextSetLoad (failureReaction 40 3 true 1) < 40.
Proof.
  pose proof (failureReaction_backs_off 40 3 true 1) as H.
  cbv zeta in H. destruct H as (_ & _ & _ & H & _).
  apply H. reflexivity.
Defined.

(** ** Progression of an accessory movement *)

(** X20.  accessoryProgression() answers increase or hold: increase exactly
    when the target was met in 2 or more consecutive sessions, and then the
    suggested load lies within 0.25 kg of last load + increment (2.5 kg, or
    5 kg for the lower body) and equals it when the last load is a multiple
    of 0.5 kg; otherwise the suggested load is the last load, with a
    stagnation warning exactly when stagnationWeeks >= 3; without a progress
    record it holds with no load. *)
Theorem accessoryProgression_rule :
  forall (p : Progress) (isLowerBody : bool),
    let r := accessoryProgression (Some p) isLowerBody in
    let increment := if isLowerBody then 5 else 2.5 in
    (action r = "increase" \/ action r = "hold")
    /\ (action r = "increase" <-> (2 <= consecutiveTargetMetSessions p)%Z)
    /\ ((2 <= consecutiveTargetMetSessions p)%Z ->
        exists x, suggestedLoad r = Some x
          /\ orNum (lastLoadKg p) 0 + increment - 0.25 < x
             <= orNum (lastLoadKg p) 0 + increment + 0.25
          /\ (forall k : Z, orNum (lastLoadKg p) 0 == inject_Z k * 0.5 ->
                x == orNum (lastLoadKg p) 0 + increment))
    /\ ((consecutiveTargetMetSessions p < 2)%Z -> suggestedLoad r = lastLoadKg p)
    /\ (stagnationWarning r = true
        <-> (consecutiveTargetMetSessions p < 2)%Z /\ (3 <= stagnationWeeks p)%Z)
    /\ action (accessoryProgression None isLowerBody) = "hold"
    /\ suggestedLoad (accessoryProgression None isLowerBody) = None.
Proof.
  intros p isLowerBody r increment. subst r. unfold accessoryProgression. fold increment.
  destruct (Z.leb_spec 2 (consecutiveTargetMetSessions p)) as [Hc | Hc].
  - cbn [action suggestedLoad stagnationWarning].
    split; [left; reflexivity |].
    split; [split; [intros _; exact Hc | reflexivity] |].
    split.
    { intros _. eexists. split; [reflexivity |].
      pose proof (Math_round_bounds ((orNum (lastLoadKg p) 0 + increment) * 2)) as [B1 B2].
      pose proof (roundToHalf_value (orNum (lastLoadKg p) 0 + increment)) as Hv.
      split; [split; lra |].
      intros k Hk.
      assert (Hi : exists j : Z, increment == inject_Z j * 0.5).
      { subst increment. destruct isLowerBody; [exists 10%Z | exists 5%Z]; reflexivity. }
      destruct Hi as [j Hj].
      assert (Hsum : orNum (lastLoadKg p) 0 + increment == inject_Z (k + j) * 0.5).
      { rewrite inject_Z_plus. lra. }
      rewrite (roundToHalf_comp _ _ Hsum). rewrite roundToHalf_of_half_unit. lra. }
    split; [intro; lia |].
    split; [split; [discriminate | intros [H _]; lia] |].
    split; reflexivity.
  - destruct (Z.leb_spec 3 (stagnationWeeks p)) as [Hs | Hs];
      cbn [action suggestedLoad stagnationWarning].
    + split; [right; reflexivity |].
      split; [split; [discriminate | intro; lia] |].
      split; [intro; lia |].
      split; [reflexivity |].
      split; [split; [intros _; split; assumption | reflexivity] |].
      split; reflexivity.
    + split; [right; reflexivity |].
      split; [split; [discriminate | intro; lia] |].
      split; [intro; lia |].
      split; [reflexivity |].
      split; [split; [discriminate | intros [_ H]; lia] |].
      split; reflexivity.
Qed.

Lemma lastOf_nonempty {A : Type} (l : list A) : l <> [] -> exists x, lastOf l = Some x.
Proof.
  unfold lastOf. induction l as [|a t IH]; [congruence |].
  intros _. destruct t as [|b t'].
  - exists a. reflexivity.
  - destruct IH as [x Hx]; [discriminate |]. exists x. exact Hx.
Qed.

(** The fields of the record one update returns. *)
Lemma update_fields (p0 : option Progress) (sessionSets : list SetRec) (sessionReps : Q)
    (sessionVx : option Q) (env : Env) (st : RunState) (lastSet : SetRec) :
  lastOf sessionSets = Some lastSet ->
  let progress := nullish p0 (freshProgress (movementId lastSet)) in
  let e1rm := e1rmAccessory (nullish (externalLoadKg lastSet) 0) (nullish (reps lastSet) 0) in
  exists p',
    fst (updateMovementProgressFromSets p0 sessionSets sessionReps sessionVx env st)
    = Some p'
    /\ currentE1RM p' = e1rm
    /\ lastLoadKg p' = externalLoadKg lastSet
    /\ lastReps p' = reps lastSet
    /\ consecutiveTargetMetSessions p'
       = (if forallb (targetMet sessionReps sessionVx) sessionSets
          then consecutiveTargetMetSessions progress + 1 else 0)%Z
    /\ stagnationWeeks p'
       = match currentE1RM progress, e1rm with
         | Some prev, Some e =>
           if Qle_bool e prev then (stagnationWeeks progress + 1)%Z else 0%Z
         | _, _ => stagnationWeeks progress
         end
    /\ stagnationFlagged p'
       = (if (3 <=? stagnationWeeks p')%Z then true
          else match currentE1RM progress, e1rm with
               | Some prev, Some e =>
                 if Qle_bool e prev then stagnationFlagged progress else false
               | _, _ => stagnationFlagged progress
               end)
    /\ e1rmHistory p'
       = (e1rmHistory progress
          ++ match e1rm with
             | Some e => [mkHistoryPoint (clockToday env) e]
             | None => []
             end)%list
    /\ suggestedAction p' = action (accessoryProgression (Some p') false)
    /\ suggestedLoadKg p' = suggestedLoad (accessoryProgression (Some p') false).
Proof.
  intros Hlast progress e1rm.
  unfold updateMovementProgressFromSets. rewrite Hlast. cbv zeta.
  fold progress. fold e1rm.
  destruct e1rm as [e|] eqn:Ee; unfold bind, todayISO, ret; cbn [fst];
    (eexists; split; [reflexivity |]);
    cbn [currentE1RM lastLoadKg lastReps consecutiveTargetMetSessions stagnationWeeks
         stagnationFlagged e1rmHistory suggestedAction suggestedLoadKg];
    destruct (currentE1RM progress) as [prev|]; try destruct (Qle_bool e prev);
      cbn [fst snd]; rewrite ?app_nil_r; repeat split; reflexivity.
Qed.

(** X21.  Two updates in a row with non-empty sessions whose sets all carry
    their reps and actual Vara and all met their targets, against a given
    (non-null) session target Vara and starting from no record or from one
    with a non-negative counter, leave a record with at least 2 consecutive
    sessions on target, suggestedAction increase and suggestedLoadKg =
    roundToHalf(load of the last set + 2.5). *)
Theorem two_sessions_on_target_raise_the_load :
  forall (p0 : option Progress) (session1 session2 : list SetRec)
         (sessionReps sessionVx : Q) (env1 env2 : Env) (st1 st2 : RunState),
    session1 <> [] -> session2 <> [] ->
    (forall s, In s (session1 ++ session2)%list ->
               reps s <> None /\ actualVx s <> None) ->
    forallb (targetMet sessionReps (Some sessionVx)) session1 = true ->
    forallb (targetMet sessionReps (Some sessionVx)) session2 = true ->
    match p0 with Some p => (0 <= consecutiveTargetMetSessions p)%Z | None => True end ->
    exists p2 lastSet,
      fst (updateMovementProgressFromSets
             (fst (updateMovementProgressFromSets p0 session1 sessionReps
                     (Some sessionVx) env1 st1))
             session2 sessionReps (Some sessionVx) env2 st2) = Some p2
      /\ lastOf session2 = Some lastSet
      /\ (2 <= consecutiveTargetMetSessions p2)%Z
      /\ suggestedAction p2 = "increase"
      /\ suggestedLoadKg p2
         = Some (roundToHalf (orNum (externalLoadKg lastSet) 0 + 2.5)).
Proof.
  intros p0 session1 session2 sessionReps sessionVx env1 env2 st1 st2
         Hne1 Hne2 _ Hmet1 Hmet2 Hp0.
  destruct (lastOf_nonempty session1 Hne1) as [last1 Hl1].
  destruct (lastOf_nonempty session2 Hne2) as [last2 Hl2].
  destruct (update_fields p0 session1 sessionReps (Some sessionVx) env1 st1 last1 Hl1)
    as (p1 & E1 & _ & _ & _ & C1 & _).
  rewrite E1. rewrite Hmet1 in C1.
  destruct (update_fields (Some p1) session2 sessionReps (Some sessionVx) env2 st2 last2 Hl2)
    as (p2 & E2 & _ & L2 & _ & C2 & _ & _ & _ & A2 & S2).
  rewrite Hmet2 in C2. cbn [nullish] in C2.
  assert (H1 : (1 <= consecutiveTargetMetSessions p1)%Z).
  { rewrite C1. destruct p0 as [p|]; cbn [nullish]; [lia | cbn; lia]. }
  assert (H2 : (2 <= consecutiveTargetMetSessions p2)%Z) by lia.
  exists p2, last2. split; [exact E2 |]. split; [exact Hl2 |]. split; [exact H2 |].
  rewrite A2, S2. unfold accessoryProgression.
  apply Z.leb_le in H2. rewrite H2. cbn [action suggestedLoad]. rewrite L2.
  split; reflexivity.
Qed.

Lemma two_sessions_on_target_raise_the_load_witness :
  exists p2 lastSet,
    fst (updateMovementProgressFromSets
           (fst (updateMovementProgressFromSets None
                   [mkSet "bench" "work" None (Some 60) (Some 8) (Some 8) (Some 3) (Some 3)]
                   8 (Some 3) exampleEnv initialState))
           [mkSet "bench" "work" None (Some 60) (Some 8) (Some 8) (Some 3) (Some 3)]
           8 (Some 3) exampleEnv initialState) = Some p2
    /\ lastOf [mkSet "bench" "work" None (Some 60) (Some 8) (Some 8) (Some 3) (Some 3)]
       = Some lastSet
    /\ (2 <= consecutiveTargetMetSessions p2)%Z
    /\ suggestedAction p2 = "increase"
    /\ suggestedLoadKg p2 = Some (roundToHalf (orNum (externalLoadKg lastSet) 0 + 2.5)).
Proof.
  apply (two_sessions_on_target_raise_the_load None
           [mkSet "bench" "work" None (Some 60) (Some 8) (Some 8) (Some 3) (Some 3)]
           [mkSet "bench" "work" None (Some 60) (Some 8) (Some 8) (Some 3) (Some 3)]
           8 3 exampleEnv exampleEnv initialState initialState);
    try discriminate; try reflexivity; try exact I.
  intros s Hs. cbn in Hs. destruct Hs as [<- | [<- | []]]; split; discriminate.
Defined.

(** X22.  updateMovementProgressFromSets() returns the record unchanged for
    an empty session; otherwise the record holds the last set's load and
    reps, a session that missed a target resets the counter to 0 with action
    hold at the last load, stagnationWeeks >= 3 always comes with
    stagnationFlagged, checkStagnation() on the result reports stagnation
    exactly from 3 weeks and orange exactly from 6, a strictly better e1RM
    resets weeks and flag, and the history grows by one entry exactly when
    the new e1RM is not null. *)
Theorem updateMovementProgress_invariants :
  forall (p0 : option Progress) (sessionSets : list SetRec) (sessionReps : Q)
         (sessionVx : option Q) (env : Env) (st : RunState),
    let run := updateMovementProgressFromSets p0 sessionSets sessionReps sessionVx env st in
    (sessionSets = [] -> run = (p0, st))
    /\ (sessionSets <> [] ->
        exists p' lastSet,
          fst run = Some p' /\ lastOf sessionSets = Some lastSet
          /\ lastLoadKg p' = externalLoadKg lastSet
          /\ lastReps p' = reps lastSet
          /\ (forallb (targetMet sessionReps sessionVx) sessionSets = false ->
              consecutiveTargetMetSessions p' = 0%Z
              /\ suggestedAction p' = "hold"
              /\ suggestedLoadKg p' = externalLoadKg lastSet)
          /\ ((3 <= stagnationWeeks p')%Z -> stagnationFlagged p' = true)
          /\ (stagnated (checkStagnation (Some p')) = true <-> (3 <= stagnationWeeks p')%Z)
          /\ (severity (checkStagnation (Some p')) = Some "orange"
              <-> (6 <= stagnationWeeks p')%Z)
          /\ (forall prev e,
                currentE1RM (nullish p0 (freshProgress (movementId lastSet))) = Some prev ->
                currentE1RM p' = Some e -> prev < e ->
                stagnationWeeks p' = 0%Z /\ stagnationFlagged p' = false)
          /\ (length (e1rmHistory (nullish p0 (freshProgress (movementId lastSet))))
              <= length (e1rmHistory p')
              <= S (length (e1rmHistory (nullish p0 (freshProgress (movementId lastSet))))))%nat
          /\ (currentE1RM p' = None <->
              length (e1rmHistory p')
              = length (e1rmHistory (nullish p0 (freshProgress (movementId lastSet)))))).
Proof.
  intros p0 sessionSets sessionReps sessionVx env st run.
  split.
  - intros ->. reflexivity.
  - intro Hne. destruct (lastOf_nonempty sessionSets Hne) as [lastSet Hl].
    destruct (update_fields p0 sessionSets sessionReps sessionVx env st lastSet Hl)
      as (p' & E & Hcur & Hload & Hreps & Hcons & Hweeks & Hflag & Hhist & Hact & Hsug).
    fold run in E.
    exists p', lastSet.
    split; [exact E |]. split; [exact Hl |]. split; [exact Hload |]. split; [exact Hreps |].
    split.
    { intro Hmiss. rewrite Hmiss in Hcons.
      split; [exact Hcons |].
      rewrite Hact, Hsug. unfold accessoryProgression. rewrite Hcons.
      cbn [Z.leb Z.compare]. rewrite Hload.
      destruct (3 <=? stagnationWeeks p')%Z; split; reflexivity. }
    split.
    { intro H3. rewrite Hflag. apply Z.leb_le in H3. rewrite H3. reflexivity. }
    split.
    { unfold checkStagnation.
      destruct (Z.ltb_spec (stagnationWeeks p') 3);
        [| destruct (6 <=? stagnationWeeks p')%Z]; cbn [stagnated];
        split; intro; try reflexivity; try discriminate; lia. }
    split.
    { unfold checkStagnation.
      destruct (Z.ltb_spec (stagnationWeeks p') 3);
        [| destruct (Z.leb_spec 6 (stagnationWeeks p'))]; cbn [severity];
        split; intro; try reflexivity; try discriminate; lia. }
    split.
    { intros prev e Hprev He Hlt. rewrite Hcur in He.
      rewrite Hprev, He in Hweeks, Hflag.
      assert (Hb : Qle_bool e prev = false) by (apply Qle_bool_false; exact Hlt).
      rewrite Hb in Hweeks, Hflag. rewrite Hweeks in Hflag. cbn in Hflag.
      split; assumption. }
    rewrite Hhist, length_app, Hcur.
    destruct (e1rmAccessory _ _); cbn [length]; split; try split; try lia;
      try discriminate; try reflexivity; intro; lia.
Qed.

Lemma updateMovementProgress_invariants_witness :
  updateMovementProgressFromSets None [] 8 (Some 3) exampleEnv initialState
  = (None, initialState).
Proof.
  pose proof (updateMovementProgress_invariants None [] 8 (Some 3) exampleEnv initialState)
    as H.
  cbv zeta in H. destruct H as [H _].
  apply H. reflexivity.
Defined.

(** ** Velocity loss and the speed day *)

(** X23.  velocityLossPercent() is null exactly when the first-rep velocity
    is missing, zero or negative or the last-rep velocity is missing or
    zero; for 0 < last <= first the loss lies in [0, 100), is 0 exactly when
    the two are equal, and loss/100 of the first velocity is the velocity
    lost. *)
Theorem velocityLossPercent_range :
  forall rep1 lastRep : Q,
    (velocityLossPercent (Some rep1) (Some lastRep) = None <-> rep1 <= 0 \/ lastRep == 0)
    /\ (forall v, velocityLossPercent None v = None)
    /\ (forall v, velocityLossPercent v None = None)
    /\ (0 < rep1 -> 0 < lastRep -> lastRep <= rep1 ->
        exists p, velocityLossPercent (Some rep1) (Some lastRep) = Some p
          /\ 0 <= p < 100
          /\ (p == 0 <-> lastRep == rep1)
          /\ p / 100 * rep1 == rep1 - lastRep).
Proof.
  intros rep1 lastRep. unfold velocityLossPercent, falsyNum. cbn [nullish].
  split; [| split; [| split]].
  - destruct (Qeq_bool rep1 0) eqn:E1; cbn [orb].
    + apply Qeq_bool_iff in E1. split; [intros _; left; lra | reflexivity].
    + destruct (Qeq_bool lastRep 0) eqn:E2; cbn [orb].
      * apply Qeq_bool_iff in E2. split; [intros _; right; exact E2 | reflexivity].
      * destruct (Qle_bool rep1 0) eqn:E3.
        -- apply Qle_bool_iff in E3. split; [intros _; left; exact E3 | reflexivity].
        -- split; [discriminate |].
           assert (0 < rep1) by (apply Qlt_bool_true; unfold Qlt_bool; rewrite E3; reflexivity).
           assert (~ lastRep == 0) by (intro Hq; apply Qeq_bool_iff in Hq; congruence).
           intros [H1 | H1]; [lra | contradiction].
  - intros v. reflexivity.
  - intros [v|]; [| reflexivity]. cbn [nullish].
    destruct (Qeq_bool v 0); reflexivity.
  - intros H1 H2 H3.
    assert (E1 : Qeq_bool rep1 0 = false).
    { destruct (Qeq_bool rep1 0) eqn:E; [apply Qeq_bool_iff in E; lra | reflexivity]. }
    assert (E2 : Qeq_bool lastRep 0 = false).
    { destruct (Qeq_bool lastRep 0) eqn:E; [apply Qeq_bool_iff in E; lra | reflexivity]. }
    assert (E3 : Qle_bool rep1 0 = false) by (apply Qle_bool_false; exact H1).
    rewrite E1, E2, E3. cbn [orb].
    eexists. split; [reflexivity |].
    assert (Hfrac : (rep1 - lastRep) / rep1 * rep1 == rep1 - lastRep) by (field; lra).
    assert (Hlo : 0 <= (rep1 - lastRep) / rep1)
      by (apply Qle_shift_div_l; [exact H1 | lra]).
    assert (Hhi : (rep1 - lastRep) / rep1 < 1)
      by (apply Qlt_shift_div_r; [exact H1 | lra]).
    split; [split; lra |].
    split.
    + split; intro Hq.
      * assert (Hz : (rep1 - lastRep) / rep1 == 0) by lra.
        rewrite Hz in Hfrac. lra.
      * assert (Hz : (rep1 - lastRep) / rep1 == 0).
        { setoid_replace (rep1 - lastRep) with 0 by lra. field. lra. }
        lra.
    + setoid_replace ((rep1 - lastRep) / rep1 * 100 / 100 * rep1)
        with ((rep1 - lastRep) / rep1 * rep1) by (field; lra).
      exact Hfrac.
Qed.

Lemma velocityLossPercent_range_witness :
  exists p, velocityLossPercent (Some 0.80) (Some 0.60) = Some p
    /\ 0 <= p < 100
    /\ (p == 0 <-> 0.60 == 0.80)
    /\ p / 100 * 0.80 == 0.80 - 0.60.
Proof.
  destruct (velocityLossPercent_range 0.80 0.60) as (_ & _ & _ & H).
  apply H; reflexivity || discriminate.
Defined.

(** X24.  speedDayLoad() is null for a null e1RM and otherwise a non-
    negative multiple of 0.5 kg within 0.25 kg of max(0, excess), where
    excess is 57.5% of the system e1RM minus bodyweight: 0 when the excess
    is not positive, positive when the excess is above 0.25 kg; a larger
    e1RM never gives a smaller load. *)
Theorem speedDayLoad_range :
  forall (e bodyweightKg : Q),
    let excess := (e + bodyweightKg) * 0.575 - bodyweightKg in
    speedDayLoad None bodyweightKg = None
    /\ exists x,
        speedDayLoad (Some e) bodyweightKg = Some x
        /\ 0 <= x
        /\ (exists k : Z, x == inject_Z k * 0.5)
        /\ (Qmax 0 excess - 0.25 <= x <= Qmax 0 excess + 0.25)
        /\ (excess <= 0 -> x == 0)
        /\ (0.25 < excess -> 0 < x)
        /\ (forall e' x', e <= e' -> speedDayLoad (Some e') bodyweightKg = Some x' ->
              x <= x').
Proof.
  intros e bw. cbv zeta. split; [reflexivity |].
  unfold speedDayLoad. cbv zeta.
  set (y := (e + bw) * 0.575 - bw).
  eexists. split; [reflexivity |].
  pose proof (roundToHalf_value (Qmax 0 y)) as Hv.
  destruct (Math_round_bounds (Qmax 0 y * 2)) as [B1 B2].
  pose proof (Q.le_max_l 0 y) as M1. pose proof (Q.le_max_r 0 y) as M2.
  assert (Hnn : 0 <= roundToHalf (Qmax 0 y)) by (apply roundToHalf_nonneg, M1).
  split; [exact Hnn |].
  split; [exists (Math_round (Qmax 0 y * 2)); lra |].
  split; [split; lra |].
  split.
  { intro Hle.
    assert (Hm : Qmax 0 y == 0) by (apply Q.max_l; exact Hle).
    rewrite (roundToHalf_comp _ _ Hm). reflexivity. }
  split.
  { intro Hbig.
    assert (Hm : Qmax 0 y == y) by (apply Q.max_r; lra).
    assert (Hk : (0 < Math_round (Qmax 0 y * 2))%Z).
    { rewrite Zlt_Qlt. change (inject_Z 0) with 0. lra. }
    rewrite Zlt_Qlt in Hk. change (inject_Z 0) with 0 in Hk. lra. }
  intros e' x' Hle [= <-].
  apply roundToHalf_mono. apply Q.max_le_compat_l. subst y. lra.
Qed.

(** ** The week's stimulus *)

Lemma bumpCategory_sets (c : string) (t : Q) (o : list (string * CategoryStat)) :
  categorySetsTotal (bumpCategory c t o) = (categorySetsTotal o + 1)%Z.
Proof.
  induction o as [|[k v] o IH]; cbn [bumpCategory].
  - cbn. lia.
  - destruct (String.eqb k c); cbn [categorySetsTotal fold_right fst snd cs_sets].
    + fold (categorySetsTotal o). lia.
    + fold (categorySetsTotal (bumpCategory c t o)). fold (categorySetsTotal o).
      rewrite IH. lia.
Qed.

Lemma bumpCategory_tonnage (c : string) (t : Q) (o : list (string * CategoryStat)) :
  categoryTonnageTotal (bumpCategory c t o) == categoryTonnageTotal o + t.
Proof.
  induction o as [|[k v] o IH]; cbn [bumpCategory].
  - cbn [categoryTonnageTotal fold_right snd cs_tonnage]. ring.
  - destruct (String.eqb k c); cbn [categoryTonnageTotal fold_right fst snd cs_tonnage].
    + fold (categoryTonnageTotal o). ring.
    + fold (categoryTonnageTotal (bumpCategory c t o)). fold (categoryTonnageTotal o).
      rewrite IH. ring.
Qed.

Lemma bumpCategory_keys (c : string) (t : Q) (o : list (string * CategoryStat)) (k : string) :
  In k (map fst (bumpCategory c t o)) <-> k = c \/ In k (map fst o).
Proof.
  induction o as [|[k0 v] o IH]; cbn [bumpCategory].
  - cbn. intuition.
  - destruct (String.eqb_spec k0 c) as [-> | Hne]; cbn [map fst In].
    + intuition.
    + rewrite IH. intuition.
Qed.

Lemma bumpCategory_NoDup (c : string) (t : Q) (o : list (string * CategoryStat)) :
  NoDup (map fst o) -> NoDup (map fst (bumpCategory c t o)).
Proof.
  induction o as [|[k0 v] o IH]; cbn [bumpCategory]; intro Hnd.
  - cbn. constructor; [intros [] | constructor].
  - inversion Hnd as [|? ? Hnotin Hnd']; subst.
    destruct (String.eqb_spec k0 c) as [-> | Hne]; cbn [map fst].
    + constructor; assumption.
    + constructor; [| apply IH, Hnd'].
      rewrite bumpCategory_keys. cbn [fst] in Hnotin. intros [-> | Hin]; contradiction.
Qed.

Lemma bumpCategory_lookup (c : string) (t : Q) (o : list (string * CategoryStat))
    (key : string) :
  categorySets (bumpCategory c t o) key
  = (if String.eqb c key then categorySets o key + 1 else categorySets o key)%Z.
Proof.
  unfold categorySets, findFirst.
  induction o as [|[k0 v] o IH]; cbn [bumpCategory find].
  - cbn [fst snd cs_sets]. destruct (String.eqb c key); reflexivity.
  - destruct (String.eqb_spec k0 c) as [-> | Hne]; cbn [find fst snd cs_sets].
    + destruct (String.eqb c key); reflexivity.
    + destruct (String.eqb_spec k0 key) as [-> | Hne2].
      * destruct (String.eqb_spec c key) as [-> | _]; [congruence | reflexivity].
      * exact IH.
Qed.

Lemma stimulus_fold (movements : list Movement) (sets : list SetRec) (acc : Stimulus) :
  let r := fold_left (stimulusStep movements) sets acc in
  categorySetsTotal (byCategory r)
  = (categorySetsTotal (byCategory acc) + Z.of_nat (length sets))%Z
  /\ categoryTonnageTotal (byCategory r) - totalTonnageExternal r
     == categoryTonnageTotal (byCategory acc) - totalTonnageExternal acc
  /\ pullVolumeSets r
     = (pullVolumeSets acc
        + Z.of_nat (length (filter (countsAsPull movements) sets)))%Z
  /\ heavyExposures r
     = (heavyExposures acc + Z.of_nat (length (filter isHeavyExposure sets)))%Z
  /\ (NoDup (map fst (byCategory acc)) -> NoDup (map fst (byCategory r)))
  /\ (forall key,
        categorySets (byCategory r) key
        = (categorySets (byCategory acc) key
           + Z.of_nat (length (filter (inCategory movements key) sets)))%Z)
  /\ ((forall s, In s sets -> 0 <= setTonnage s) ->
      pullVolumeTonnage acc <= pullVolumeTonnage r
      /\ pullVolumeTonnage r - pullVolumeTonnage acc
         <= totalTonnageExternal r - totalTonnageExternal acc).
Proof.
  revert acc. induction sets as [|s sets IH]; intro acc; cbn [fold_left].
  - cbn [length filter]. cbv zeta.
    repeat split; intros; try lia; try lra; try reflexivity; auto.
  - specialize (IH (stimulusStep movements acc s)). cbv zeta in IH |- *.
    destruct IH as (I1 & I2 & I3 & I4 & I5 & I6 & I7).
    set (r := fold_left (stimulusStep movements) sets (stimulusStep movements acc s)) in *.
    unfold stimulusStep in I1, I2, I3, I4, I5, I6, I7.
    cbn [byCategory totalTonnageExternal pullVolumeSets heavyExposures pullVolumeTonnage]
      in I1, I2, I3, I4, I5, I6, I7.
    rewrite bumpCategory_sets in I1.
    rewrite bumpCategory_tonnage in I2.
    split; [cbn [length]; lia |].
    split; [lra |].
    split; [cbn [filter]; destruct (countsAsPull movements s); cbn [length]; lia |].
    split; [cbn [filter]; destruct (isHeavyExposure s); cbn [length]; lia |].
    split; [intro Hnd; apply I5, bumpCategory_NoDup, Hnd |].
    split.
    + intro key. rewrite I6, bumpCategory_lookup. cbn [filter]. unfold inCategory at 2.
      destruct (String.eqb (categoryOf movements s) key); cbn [length]; lia.
    + intro Hpos.
      assert (Hs : 0 <= setTonnage s) by (apply Hpos; left; reflexivity).
      destruct I7 as [J1 J2]; [intros s' Hs'; apply Hpos; right; exact Hs' |].
      destruct (countsAsPull movements s); split; lra.
Qed.

(** X25.  weeklyStimulus() counts every set in exactly one category: the
    per-category set counts add up to the number of sets and each equals the
    number of sets of that category, the per-category tonnages add up to
    totalTonnageExternal, no category appears twice, pullVolumeSets and
    heavyExposures are the numbers of pull-counting and heavy sets (so at
    most the number of sets), and with non-negative tonnages the pull
    tonnage lies between 0 and the total. Categories are assumed not to be
    named like an inherited object property. *)
Theorem weeklyStimulus_counts_every_set_once :
  forall (sets : list SetRec) (movements : list Movement),
    plainCategories movements ->
    let s := weeklyStimulus sets movements in
    categorySetsTotal (byCategory s) = Z.of_nat (length sets)
    /\ categoryTonnageTotal (byCategory s) == totalTonnageExternal s
    /\ (forall key, categorySets (byCategory s) key
                    = Z.of_nat (length (filter (inCategory movements key) sets)))
    /\ NoDup (map fst (byCategory s))
    /\ pullVolumeSets s = Z.of_nat (length (filter (countsAsPull movements) sets))
    /\ heavyExposures s = Z.of_nat (length (filter isHeavyExposure sets))
    /\ (0 <= pullVolumeSets s <= Z.of_nat (length sets))%Z
    /\ (0 <= heavyExposures s <= Z.of_nat (length sets))%Z
    /\ ((forall x, In x sets -> 0 <= setTonnage x) ->
        0 <= pullVolumeTonnage s <= totalTonnageExternal s).
Proof.
  intros sets movements _ s.
  destruct (stimulus_fold movements sets (mkStimulus 0 0 0 0 []))
    as (I1 & I2 & I3 & I4 & I5 & I6 & I7).
  fold (weeklyStimulus sets movements) in I1, I2, I3, I4, I5, I6, I7.
  fold s in I1, I2, I3, I4, I5, I6, I7.
  cbn [byCategory totalTonnageExternal pullVolumeSets heavyExposures pullVolumeTonnage
       categorySetsTotal categoryTonnageTotal fold_right map] in I1, I2, I3, I4, I5, I6, I7.
  pose proof (filter_length_le (countsAsPull movements) sets) as L1.
  pose proof (filter_length_le isHeavyExposure sets) as L2.
  split; [lia |]. split; [lra |].
  split; [intro key; rewrite I6; reflexivity |].
  split; [apply I5; constructor |].
  split; [lia |]. split; [lia |]. split; [lia |]. split; [lia |].
  intro Hpos. destruct (I7 Hpos) as [J1 J2]. split; lra.
Qed.

Lemma weeklyStimulus_counts_every_set_once_witness :
  categorySetsTotal
    (byCategory (weeklyStimulus [topSet184; topSetNoVx]
                   [mkMovement "pullup" (Some "vertikaaliveto") true]))
  = Z.of_nat (length [topSet184; topSetNoVx]).
Proof.
  pose proof (weeklyStimulus_counts_every_set_once [topSet184; topSetNoVx]
                [mkMovement "pullup" (Some "vertikaaliveto") true]) as H.
  cbv zeta in H. destruct H as (H & _).
  - intros m [<- | []]. reflexivity.
  - exact H.
Defined.


Lemma push_below_half (push pull : Z) :
  Qlt_bool (inject_Z push) (inject_Z pull * 0.5) = true <-> (2 * push < pull)%Z.
Proof.
  rewrite Qlt_bool_true, Zlt_Qlt, inject_Z_mult. change (inject_Z 2) with 2.
  split; intro H; lra.
Qed.

(** X26.  eliteVolumeCheck() reports isEliteReady exactly when there is no
    warning, that is when pullVolumeSets >= 12, heavyExposures >= 3 and push
    sets are at least half the pull sets; a week of fewer than 12 sets is
    never elite-ready; there are at most 3 warnings; and the low_pull_volume
    warning appears only below 12 pull sets, carrying the current count and
    the target 15. *)
Theorem eliteVolumeCheck_ready :
  forall (weekSets : list SetRec) (movements : list Movement),
    plainCategories movements ->
    let c := eliteVolumeCheck weekSets movements in
    let pull := pullVolumeSets (stimulus c) in
    let heavy := heavyExposures (stimulus c) in
    let push := (categorySets (byCategory (stimulus c)) "horisontaalityöntö"
                 + categorySets (byCategory (stimulus c)) "vertikaalityöntö")%Z in
    stimulus c = weeklyStimulus weekSets movements
    /\ (isEliteReady c = true <-> warnings c = [])
    /\ (isEliteReady c = true <-> (12 <= pull)%Z /\ (3 <= heavy)%Z /\ (pull <= 2 * push)%Z)
    /\ ((length weekSets < 12)%nat -> isEliteReady c = false)
    /\ (length (warnings c) <= 3)%nat
    /\ (forall w, In w (warnings c) -> w_type w = "low_pull_volume" ->
          (pull < 12)%Z /\ w_current w = Some pull /\ w_target w = Some 15%Z).
Proof.
  intros weekSets movements _ c pull heavy push.
  destruct (stimulus_fold movements weekSets (mkStimulus 0 0 0 0 []))
    as (_ & _ & I3 & _).
  fold (weeklyStimulus weekSets movements) in I3.
  cbn [pullVolumeSets] in I3.
  pose proof (filter_length_le (countsAsPull movements) weekSets) as L1.
  subst c pull heavy push. unfold eliteVolumeCheck.
  cbn [stimulus warnings isEliteReady].
  set (st := weeklyStimulus weekSets movements) in *.
  set (pushSets := (categorySets (byCategory st) "horisontaalityöntö"
                    + categorySets (byCategory st) "vertikaalityöntö")%Z).
  pose proof (push_below_half pushSets (pullVolumeSets st)) as Hhalf.
  split; [reflexivity |].
  destruct (Z.ltb_spec (pullVolumeSets st) 12) as [Hp | Hp];
    destruct (Z.ltb_spec (heavyExposures st) 3) as [Hh | Hh];
    destruct (Z.ltb_spec 0 (pullVolumeSets st)) as [H0 | H0];
    destruct (Qlt_bool (inject_Z pushSets) (inject_Z (pullVolumeSets st) * 0.5)) eqn:Eb;
    cbn [andb app length Nat.eqb];
    (split; [split; intro H; try reflexivity; try discriminate H |]);
    (split; [split; [intro H; try discriminate H | intros (H1 & H2 & H3)]; try lia |]);
    try (split; [intro; try reflexivity; lia |]);
    try (split; [lia |]);
    try (intros w Hin Ht; cbn [In] in Hin;
         repeat (destruct Hin as [<- | Hin]; [try discriminate Ht; repeat split; try lia |]);
         try contradiction).
  all: try (repeat split; try lia;
            destruct Hhalf as [Hf Hb];
            first [ assert (2 * pushSets < pullVolumeSets st)%Z by (apply Hf; reflexivity); lia
                  | destruct (Z.lt_ge_cases (2 * pushSets) (pullVolumeSets st)) as [Hlt | Hge];
                    [apply Hb in Hlt; congruence | lia] ]).
Qed.

Lemma eliteVolumeCheck_ready_witness :
  isEliteReady (eliteVolumeCheck [topSet184; topSetNoVx]
                  [mkMovement "pullup" (Some "vertikaaliveto") true]) = false.
Proof.
  pose proof (eliteVolumeCheck_ready [topSet184; topSetNoVx]
                [mkMovement "pullup" (Some "vertikaaliveto") true]) as H.
  cbv zeta in H. destruct H as (_ & _ & _ & H & _).
  - intros m [<- | []]. reflexivity.
  - apply H. cbn. lia.
Defined.

(** ** The estimate of any movement *)

Lemma In_notNull {A : Type} (l : list (option A)) (x : A) :
  In x (notNull l) -> In (Some x) l.
Proof.
  induction l as [|[y|] t IH]; cbn; intro H.
  - contradiction.
  - destruct H as [-> | H]; [left; reflexivity | right; auto].
  - right. auto.
Qed.

Lemma hasValidData_inv (s : SetRec) :
  hasValidData s = true ->
  exists l r, externalLoadKg s = Some l /\ reps s = Some r /\ 0 < l /\ 1 <= r.
Proof.
  unfold hasValidData.
  destruct (externalLoadKg s) as [l|]; [| discriminate].
  destruct (reps s) as [r|]; [| discriminate].
  intro H. apply andb_prop in H. destruct H as [H1 H2].
  apply Qlt_bool_true in H1. apply Qle_bool_iff in H2.
  exists l, r. repeat split; assumption.
Qed.

Lemma valid_accessory_value (s : SetRec) :
  hasValidData s = true ->
  exists l r, externalLoadKg s = Some l /\ reps s = Some r /\ 0 < l /\ 1 <= r
    /\ e1rmAccessory (nullish (externalLoadKg s) 0) (nullish (reps s) 0)
       = Some (l * (1 + r / 30)).
Proof.
  intro H. destruct (hasValidData_inv s H) as (l & r & El & Er & Hl & Hr).
  exists l, r. rewrite El, Er. cbn [nullish]. repeat split; try assumption.
  unfold e1rmAccessory.
  assert (E1 : Qle_bool l 0 = false) by (apply Qle_bool_false; exact Hl).
  assert (E2 : Qlt_bool r 1 = false) by (apply Qlt_bool_false; exact Hr).
  rewrite E1, E2. reflexivity.
Qed.

Lemma valid_primary_value (bw : Q) (s : SetRec) :
  hasValidData s = true ->
  e1rmSystem bw (nullish (externalLoadKg s) 0) (nullish (reps s) 0) (Some (setVara s))
  = setE1RM bw s.
Proof.
  intro H. destruct (hasValidData_inv s H) as (l & r & El & Er & Hl & Hr).
  unfold setE1RM. rewrite El, Er. cbn [nullish orNum orNumOpt].
  assert (E1 : Qeq_bool l 0 = false).
  { destruct (Qeq_bool l 0) eqn:E; [apply Qeq_bool_iff in E; lra | reflexivity]. }
  assert (E2 : Qeq_bool r 0 = false).
  { destruct (Qeq_bool r 0) eqn:E; [apply Qeq_bool_iff in E; lra | reflexivity]. }
  rewrite E1, E2. cbn [orNum]. rewrite E2. reflexivity.
Qed.

Lemma filter_all {A : Type} (p : A -> bool) (l : list A) :
  (forall x, In x l -> p x = true) -> filter p l = l.
Proof.
  induction l as [|a t IH]; intro H; [reflexivity |].
  cbn [filter]. rewrite (H a (or_introl eq_refl)). f_equal.
  apply IH. intros x Hx. apply H. right. exact Hx.
Qed.

Lemma sliceLast_nil_iff {A : Type} (n : nat) (l : list A) :
  n <> O -> (sliceLast n l = [] <-> l = []).
Proof.
  intro Hn. split; intro H.
  - pose proof (sliceLast_length n l) as E. rewrite H in E. cbn [length] in E.
    destruct n; [congruence |]. destruct l; [reflexivity | cbn [length] in E; lia].
  - subst l. unfold sliceLast. destruct n; reflexivity.
Qed.

(** X27.  computeMovementE1RM() for a non-primary movement is null exactly
    when no set has load > 0 and reps >= 1, and otherwise lies between any
    bounds of the Epley values load*(1+reps/30) of the valid sets; for a
    primary movement whose sets are all valid it equals the system e1RM
    recommend() computes from the last 6 of the same sets. *)
Theorem computeMovementE1RM_estimates :
  forall (movementSets : list SetRec) (bodyweightKg : Q),
    (computeMovementE1RM movementSets false bodyweightKg = None
     <-> filter hasValidData movementSets = [])
    /\ ((forall s, In s movementSets -> hasValidData s = true) ->
        computeMovementE1RM movementSets true bodyweightKg
        = currentE1RMSystemOf bodyweightKg (sliceLast 6 movementSets))
    /\ (forall e lo hi,
          computeMovementE1RM movementSets false bodyweightKg = Some e ->
          (forall s l r, In s movementSets ->
             externalLoadKg s = Some l -> reps s = Some r -> 0 < l -> 1 <= r ->
             lo <= l * (1 + r / 30) <= hi) ->
          lo <= e <= hi).
Proof.
  intros sets bw.
  set (valuesOf := fun recent : list SetRec =>
         notNull (map (fun s => e1rmAccessory (nullish (externalLoadKg s) 0)
                                  (nullish (reps s) 0)) recent)).
  assert (Hvals : forall recent v,
             (forall s, In s recent -> In s sets /\ hasValidData s = true) ->
             In v (valuesOf recent) ->
             exists s l r, In s sets /\ externalLoadKg s = Some l /\ reps s = Some r
                           /\ 0 < l /\ 1 <= r /\ v = l * (1 + r / 30)).
  { intros recent v Hrec Hv. unfold valuesOf in Hv.
    apply In_notNull, in_map_iff in Hv. destruct Hv as (s & Es & Hs).
    destruct (Hrec s Hs) as [Hin Hvalid].
    destruct (valid_accessory_value s Hvalid) as (l & r & El & Er & Hl & Hr & Ev).
    exists s, l, r. rewrite Ev in Es. injection Es as <-.
    repeat split; assumption. }
  assert (Hnonempty : forall recent,
             recent <> [] -> (forall s, In s recent -> hasValidData s = true) ->
             valuesOf recent <> []).
  { intros recent Hne Hrec. destruct recent as [|s t]; [congruence |].
    destruct (valid_accessory_value s (Hrec s (or_introl eq_refl)))
      as (l & r & _ & _ & _ & _ & Ev).
    unfold valuesOf. cbn [map]. rewrite Ev. cbn [notNull]. discriminate. }
  assert (Hrecent : forall s, In s (sliceLast 6 (filter hasValidData sets)) ->
                              In s sets /\ hasValidData s = true).
  { intros s Hs. apply sliceLast_In, filter_In in Hs. exact Hs. }
  split; [| split].
  - unfold computeMovementE1RM. fold (valuesOf (sliceLast 6 (filter hasValidData sets))).
    destruct sets as [|s0 t] eqn:Es; [split; reflexivity |]. rewrite <- Es in *.
    destruct (sliceLast 6 (filter hasValidData sets)) as [|r0 rt] eqn:Er.
    + split; [intros _ | reflexivity].
      apply (sliceLast_nil_iff 6); [discriminate | exact Er].
    + assert (Hne : valuesOf (r0 :: rt) <> []).
      { apply Hnonempty; [discriminate |]. intros s Hs. apply (Hrecent s Hs). }
      destruct (valuesOf (r0 :: rt)) eqn:Ev; [congruence |].
      split; [discriminate |].
      intro Hnil. rewrite Hnil in Er. discriminate.
  - intro Hall. unfold computeMovementE1RM, currentE1RMSystemOf, e1rmValuesOf.
    rewrite (filter_all _ _ Hall).
    destruct sets as [|s0 t] eqn:Es; [reflexivity |]. rewrite <- Es in *.
    assert (Hmap : map (fun s => e1rmSystem bw (nullish (externalLoadKg s) 0)
                                   (nullish (reps s) 0) (Some (setVara s)))
                       (sliceLast 6 sets)
                   = map (setE1RM bw) (sliceLast 6 sets)).
    { apply map_ext_in. intros s Hs. apply valid_primary_value, Hall.
      apply (sliceLast_In 6), Hs. }
    cbv zeta. rewrite Hmap.
    destruct (sliceLast 6 sets) as [|r0 rt] eqn:Er; [reflexivity |].
    destruct (notNull (map (setE1RM bw) (r0 :: rt))); reflexivity.
  - intros e lo hi He Hb. unfold computeMovementE1RM in He.
    fold (valuesOf (sliceLast 6 (filter hasValidData sets))) in He.
    destruct sets as [|s0 t] eqn:Es; [discriminate |]. rewrite <- Es in *.
    destruct (sliceLast 6 (filter hasValidData sets)) as [|r0 rt] eqn:Er; [discriminate |].
    destruct (valuesOf (r0 :: rt)) as [|v vs] eqn:Ev; [discriminate |].
    assert (He' : Some (median (v :: vs)) = Some e) by exact He. clear He.
    remember (median (v :: vs)) as m eqn:Em. injection He' as <-. rewrite Em.
    apply median_bounds; [discriminate |].
    intros x Hx. rewrite <- Ev in Hx.
    destruct (Hvals (r0 :: rt) x Hrecent Hx) as (s & l & r & Hin & El & Erp & Hl & Hr & ->).
    apply (Hb s l r Hin El Erp Hl Hr).
Qed.

Lemma computeMovementE1RM_estimates_witness :
  computeMovementE1RM [topSet184] true 91 = currentE1RMSystemOf 91 (sliceLast 6 [topSet184]).
Proof.
  destruct (computeMovementE1RM_estimates [topSet184] 91) as (_ & H & _).
  apply H. intros s [<- | []]. reflexivity.
Defined.

(** ** The default mesocycle *)

Lemma default_plan_every_day (id : string) (start : option ISODate) (w dow : Z) :
  (1 <= w <= 4)%Z -> (1 <= dow <= 7)%Z ->
  exists wd p first rest,
    getWeekDef (Some (mkMesocycle id start 4 defaultWeekDefs defaultWeekPlans)) w = Some wd
    /\ wd_week wd = w
    /\ - 0.25 <= deltaPctBase wd <= 0.05
    /\ getTodayPlan (Some (mkMesocycle id start 4 defaultWeekDefs defaultWeekPlans)) w dow
       = Some p
    /\ slots p = first :: rest /\ role first = "primary"
    /\ (dayOfWeek p = Some 1%Z \/ dayOfWeek p = Some 3%Z \/ dayOfWeek p = Some 5%Z).
Proof.
  intros Hw Hdow.
  unfold getWeekDef, getTodayPlan. cbn [weekDefs weekPlans].
  assert (Hcases : (w = 1 \/ w = 2 \/ w = 3 \/ w = 4)%Z) by lia.
  assert (Hc : (dow = 1 \/ dow = 2 \/ dow = 3 \/ dow = 4 \/ dow = 5 \/ dow = 6
                \/ dow = 7)%Z) by lia.
  clear Hw Hdow.
  destruct Hcases as [-> | [-> | [-> | ->]]];
    destruct Hc as [-> | [-> | [-> | [-> | [-> | [-> | ->]]]]]];
    cbn; (do 4 eexists);
    (split; [reflexivity |]); (split; [reflexivity |]);
    (split; [split; discriminate |]);
    (split; [reflexivity |]); (split; [reflexivity |]); (split; [reflexivity |]);
    auto.
Qed.

(** X28.  A mesocycle made by createDefaultMesocycle(start) carries the next
    uid and the given start date (today's date when none is given); for
    every date 0 to 27 days after the start getMesocycleWeek() gives a week
    1..4, getWeekDef() finds that week's definition with deltaPctBase within
    [-0.25, 0.05], and getTodayPlan() returns for every weekday 1..7 a
    Monday, Wednesday or Friday plan whose first slot is the primary
    movement; for dates before the start or 28 or more days after it
    getMesocycleWeek() is null. *)
Theorem default_mesocycle_covers_four_weeks :
  forall (start dateISO : ISODate) (env : Env) (st : RunState),
    let m := fst (createDefaultMesocycle (Some start) env st) in
    mesocycleId m = uidSupply env (uidCount st)
    /\ startDateISO m = Some start
    /\ startDateISO (fst (createDefaultMesocycle None env st)) = Some (clockToday env)
    /\ ((0 <= daysBetween start dateISO < 28)%Z ->
        exists w wd,
          getMesocycleWeek (Some m) dateISO = Some w
          /\ (1 <= w <= 4)%Z
          /\ getWeekDef (Some m) w = Some wd /\ wd_week wd = w
          /\ - 0.25 <= deltaPctBase wd <= 0.05
          /\ (forall dow, (1 <= dow <= 7)%Z ->
                exists p first rest,
                  getTodayPlan (Some m) w dow = Some p
                  /\ slots p = first :: rest /\ role first = "primary"
                  /\ (dayOfWeek p = Some 1%Z \/ dayOfWeek p = Some 3%Z
                      \/ dayOfWeek p = Some 5%Z)))
    /\ ((daysBetween start dateISO < 0 \/ 28 <= daysBetween start dateISO)%Z ->
        getMesocycleWeek (Some m) dateISO = None).
Proof.
  intros start dateISO env st m.
  assert (Em : m = mkMesocycle (uidSupply env (uidCount st)) (Some start) 4
                     defaultWeekDefs defaultWeekPlans) by reflexivity.
  split; [reflexivity |]. split; [reflexivity |]. split; [reflexivity |].
  rewrite Em. clear Em m.
  set (m := mkMesocycle (uidSupply env (uidCount st)) (Some start) 4
              defaultWeekDefs defaultWeekPlans).
  assert (Eweek : getMesocycleWeek (Some m) dateISO
                  = if (daysBetween start dateISO <? 0)%Z then None
                    else if (4 <? daysBetween start dateISO / 7 + 1)%Z then None
                         else Some (daysBetween start dateISO / 7 + 1)%Z).
  { unfold getMesocycleWeek, m. cbn [startDateISO weekCount]. cbv zeta.
    rewrite newDate_diff. reflexivity. }
  rewrite Eweek. clear Eweek.
  set (d := daysBetween start dateISO).
  split.
  - intros [Hd0 Hd28].
    destruct (Z.ltb_spec d 0); [lia |].
    assert (Hw : (1 <= d / 7 + 1 <= 4)%Z).
    { pose proof (Z.div_pos d 7 ltac:(lia) ltac:(lia)).
      assert (d / 7 < 4)%Z by (apply Z.div_lt_upper_bound; lia). lia. }
    destruct (Z.ltb_spec 4 (d / 7 + 1)); [lia |].
    destruct (default_plan_every_day (uidSupply env (uidCount st)) (Some start)
                (d / 7 + 1) 1 Hw ltac:(lia)) as (wd & _ & _ & _ & Hwd & Hweek & Hbase & _).
    exists (d / 7 + 1)%Z, wd.
    split; [reflexivity |]. split; [exact Hw |]. split; [exact Hwd |].
    split; [exact Hweek |]. split; [exact Hbase |].
    intros dow Hdow.
    destruct (default_plan_every_day (uidSupply env (uidCount st)) (Some start)
                (d / 7 + 1) dow Hw Hdow) as (_ & p & first & rest & _ & _ & _ & Hp).
    exists p, first, rest. exact Hp.
  - intros [Hneg | Hlate].
    + destruct (Z.ltb_spec d 0); [reflexivity | lia].
    + destruct (Z.ltb_spec d 0); [reflexivity |].
      assert (4 <= d / 7)%Z by (apply Z.div_le_lower_bound; lia).
      destruct (Z.ltb_spec 4 (d / 7 + 1)); [reflexivity | lia].
Qed.

Lemma default_mesocycle_covers_four_weeks_witness :
  getMesocycleWeek
    (Some (fst (createDefaultMesocycle (Some (mkDate 2026 2 16)) exampleEnv initialState)))
    (mkDate 2026 3 20) = None.
Proof.
  pose proof (default_mesocycle_covers_four_weeks (mkDate 2026 2 16) (mkDate 2026 3 20)
                exampleEnv initialState) as H.
  cbv zeta in H. destruct H as (_ & _ & _ & _ & H).
  apply H. right. vm_compute. discriminate.
Defined.

(** ** Calibration after a cycle *)

(** X29.  calibrateMesocycle() adjusts by +0.01, 0 or -0.01 only, and by 0
    when no set has both Vara values; when every set carries both Vara
    values (and there is at least one set) the average overshoot of the sets
    is reported and the adjustment is +0.01 when every set has targetVx -
    actualVx > 1, 0 when every one lies within [-0.5, 1], and -0.01 when
    every one is below -0.5. *)
Theorem calibrateMesocycle_steps :
  forall varaFeedbackSets : list SetRec,
    let c := calibrateMesocycle varaFeedbackSets in
    (adjustment c = 0.01 \/ adjustment c = 0 \/ adjustment c = - 0.01)
    /\ (filter hasBothVx varaFeedbackSets = [] -> adjustment c = 0)
    /\ ((forall s, In s varaFeedbackSets -> actualVx s <> None /\ targetVx s <> None) ->
        varaFeedbackSets <> [] ->
        cal_avgOvershoot c = Some (avg (map overshoot varaFeedbackSets))
        /\ ((forall s, In s varaFeedbackSets -> 1 < overshoot s) -> adjustment c = 0.01)
        /\ ((forall s, In s varaFeedbackSets -> - 0.5 <= overshoot s <= 1) ->
            adjustment c = 0)
        /\ ((forall s, In s varaFeedbackSets -> overshoot s < - 0.5) ->
            adjustment c = - 0.01)).
Proof.
  intros sets. cbv zeta.
  assert (Hthree : adjustment (calibrateMesocycle sets) = 0.01
                   \/ adjustment (calibrateMesocycle sets) = 0
                   \/ adjustment (calibrateMesocycle sets) = - 0.01).
  { unfold calibrateMesocycle. destruct sets as [|s0 t]; [right; left; reflexivity |].
    cbv beta iota zeta.
    destruct (map overshoot (filter hasBothVx (s0 :: t))) as [|v vs];
      [right; left; reflexivity |].
    destruct (Qlt_bool 1.0 (avg (v :: vs))); [left; reflexivity |].
    destruct (Qlt_bool (avg (v :: vs)) (-0.5)); [right; right | right; left]; reflexivity. }
  split; [exact Hthree |].
  split.
  { intro Hnil. unfold calibrateMesocycle. rewrite Hnil.
    destruct sets; reflexivity. }
  intros Hcarry Hne.
  assert (Hall : filter hasBothVx sets = sets).
  { apply filter_all. intros s Hs. destruct (Hcarry s Hs) as [Ha Ht].
    unfold hasBothVx. destruct (actualVx s), (targetVx s); try congruence. reflexivity. }
  unfold calibrateMesocycle. rewrite Hall.
  destruct sets as [|v vs]; [congruence |]. clear Hall Hcarry Hne Hthree.
  cbv beta iota zeta.
  set (l := map overshoot (v :: vs)).
  assert (Hl : l <> []) by discriminate.
  assert (Hmatch : forall (A : Type) (a b : A),
             match l with [] => a | _ :: _ => b end = b)
    by (intros; subst l; reflexivity).
  rewrite Hmatch.
  assert (Hstrict : forall lo, (forall s, In s (v :: vs) -> lo < overshoot s) ->
                               lo < avg l).
  { intros lo Hb.
    assert (Hex : exists lo', lo < lo' /\ forall s, In s (v :: vs) -> lo' <= overshoot s).
    { clear - Hb. generalize dependent (v :: vs). intro ws.
      induction ws as [|y ws IH]; intro Hb.
      - exists (lo + 1). split; [lra | intros s []].
      - destruct IH as (lo' & H1 & H2); [intros s Hs; apply Hb; right; exact Hs |].
        exists (Qmin (overshoot y) lo'). split.
        + apply Q.min_glb_lt; [apply Hb; left; reflexivity | exact H1].
        + intros s [<- | Hs]; [apply Q.le_min_l |].
          apply Qle_trans with lo'; [apply Q.le_min_r | apply H2, Hs]. }
    destruct Hex as (lo' & Hlt & Hlo').
    assert (Hub : exists hi, forall s, In s (v :: vs) -> overshoot s <= hi).
    { clear. induction (v :: vs) as [|y ws [hi IH]].
      - exists 0. intros s [].
      - exists (Qmax (overshoot y) hi). intros s [<- | Hs]; [apply Q.le_max_l |].
        apply Qle_trans with hi; [apply IH, Hs | apply Q.le_max_r]. }
    destruct Hub as [hi Hhi].
    destruct (avg_bounds l lo' hi Hl) as [B _]; [| lra].
    intros x Hx. apply in_map_iff in Hx. destruct Hx as (s & <- & Hs).
    split; [apply Hlo', Hs | apply Hhi, Hs]. }
  assert (Hstrict' : forall hi, (forall s, In s (v :: vs) -> overshoot s < hi) ->
                                avg l < hi).
  { intros hi Hb.
    assert (Hex : exists hi', hi' < hi /\ forall s, In s (v :: vs) -> overshoot s <= hi').
    { clear - Hb. generalize dependent (v :: vs). intro ws.
      induction ws as [|y ws IH]; intro Hb.
      - exists (hi - 1). split; [lra | intros s []].
      - destruct IH as (hi' & H1 & H2); [intros s Hs; apply Hb; right; exact Hs |].
        exists (Qmax (overshoot y) hi'). split.
        + apply Q.max_lub_lt; [apply Hb; left; reflexivity | exact H1].
        + intros s [<- | Hs]; [apply Q.le_max_l |].
          apply Qle_trans with hi'; [apply H2, Hs | apply Q.le_max_r]. }
    destruct Hex as (hi' & Hlt & Hhi').
    assert (Hlb : exists lo, forall s, In s (v :: vs) -> lo <= overshoot s).
    { clear. induction (v :: vs) as [|y ws [lo IH]].
      - exists 0. intros s [].
      - exists (Qmin (overshoot y) lo). intros s [<- | Hs]; [apply Q.le_min_l |].
        apply Qle_trans with lo; [apply Q.le_min_r | apply IH, Hs]. }
    destruct Hlb as [lo Hlo].
    destruct (avg_bounds l lo hi' Hl) as [_ B]; [| lra].
    intros x Hx. apply in_map_iff in Hx. destruct Hx as (s & <- & Hs).
    split; [apply Hlo, Hs | apply Hhi', Hs]. }
  assert (Hmid : (forall s, In s (v :: vs) -> - 0.5 <= overshoot s <= 1) ->
                 - 0.5 <= avg l <= 1).
  { intro Hb. apply avg_bounds; [exact Hl |].
    intros x Hx. apply in_map_iff in Hx. destruct Hx as (s & <- & Hs). apply Hb, Hs. }
  destruct (Qlt_bool 1.0 (avg l)) eqn:E1;
    [apply Qlt_bool_true in E1
    | apply Qlt_bool_false in E1; destruct (Qlt_bool (avg l) (-0.5)) eqn:E2;
      [apply Qlt_bool_true in E2 | apply Qlt_bool_false in E2]];
    cbn [adjustment cal_avgOvershoot].
  - split; [reflexivity |]. split; [reflexivity |].
    split; [intro Hb; pose proof (Hmid Hb); lra |].
    intro Hb. pose proof (Hstrict' _ Hb). lra.
  - split; [reflexivity |].
    split; [intro Hb; pose proof (Hstrict _ Hb); lra |].
    split; [intro Hb; pose proof (Hmid Hb); lra | reflexivity].
  - split; [reflexivity |].
    split; [intro Hb; pose proof (Hstrict _ Hb); lra |].
    split; [reflexivity |].
    intro Hb. pose proof (Hstrict' _ Hb). lra.
Qed.

Lemma calibrateMesocycle_steps_witness :
  adjustment (calibrateMesocycle
                [mkSet "pullup" "top" None (Some 67) (Some 3) (Some 3) (Some 3) (Some 1)])
  = 0.01.
Proof.
  pose proof (calibrateMesocycle_steps
                [mkSet "pullup" "top" None (Some 67) (Some 3) (Some 3) (Some 3) (Some 1)])
    as H.
  cbv zeta in H. destruct H as (_ & _ & H).
  destruct H as (_ & H & _).
  - intros s Hs. cbn in Hs. destruct Hs as [<- | []]. split; discriminate.
  - discriminate.
  - apply H. intros s Hs. cbn in Hs. destruct Hs as [<- | []]. reflexivity.
Defined.

(** ** The shape of the decision trace *)

Lemma emits_quiet {A : Type} (a : list string) (m : M A) :
  (forall env st, traces (snd (m env st)) = traces st) -> emits a m.
Proof.
  intros H env st. exists []. rewrite H, app_nil_r. split; [reflexivity | constructor].
Qed.

Lemma emits_bind {A B : Type} (a : list string) (m : M A) (k : A -> M B) :
  emits a m -> (forall x, emits a (k x)) -> emits a (bind m k).
Proof.
  intros Hm Hk env st. unfold bind.
  destruct (Hm env st) as (l1 & E1 & F1).
  destruct (m env st) as [x st']. cbn [snd] in E1.
  destruct (Hk x env st') as (l2 & E2 & F2).
  exists (l1 ++ l2)%list. rewrite E2, E1, app_assoc.
  split; [reflexivity | apply Forall_app; split; assumption].
Qed.

Lemma emits_trace (a : list string) (rid : string) (b af : Obj) (w : JsVal) :
  In rid a -> emits a (trace rid b af w).
Proof.
  intros Hin env st. exists [rid]. cbn. rewrite map_app. cbn.
  split; [reflexivity | constructor; [exact Hin | constructor]].
Qed.

Lemma emits_ret {A : Type} (a : list string) (x : A) : emits a (ret x).
Proof. apply emits_quiet. reflexivity. Qed.

Lemma emits_createDefaultMesocycle (a : list string) (d : option ISODate) :
  emits a (createDefaultMesocycle d).
Proof. apply emits_quiet. intros env st. destruct d; reflexivity. Qed.

Lemma emits_saveMesocycle (a : list string) (m : Mesocycle) : emits a (saveMesocycle m).
Proof.
  apply emits_quiet. intros env st. unfold saveMesocycle.
  destruct (String.eqb (mesocycleId m) ""); reflexivity.
Qed.

Ltac em :=
  repeat first
    [ apply emits_ret
    | apply emits_createDefaultMesocycle
    | apply emits_saveMesocycle
    | apply emits_trace; cbn; tauto
    | apply emits_bind; [| intro]
    | match goal with
      | |- emits _ (if ?c then _ else _) => destruct c
      | |- emits _ (match ?x with _ => _ end) => destruct x
      end ].

Lemma emits_stepGetMesocycle (db : Store) (o : Options) (d : ISODate) :
  emits cycleRules (stepGetMesocycle db o d).
Proof. unfold stepGetMesocycle. em. Qed.

Lemma emits_stepWeek (o : Options) (d : ISODate) (m : Mesocycle) :
  emits cycleRules (stepWeek o d m).
Proof. unfold stepWeek. em. Qed.

Lemma emits_stepBreak (o : Options) (d : ISODate) (bi : BreakInfo) (m : Mesocycle)
    (w : Z) (t : string) :
  emits breakRules (stepBreak o d bi m w t).
Proof. unfold stepBreak. cbv zeta. em. Qed.

Lemma emits_stepReadinessCap (c : Z) (d : Q) (t : string) :
  emits adjustmentRules (stepReadinessCap c d t).
Proof. unfold stepReadinessCap. cbv zeta. em. Qed.

Lemma emits_stepAccessoryCap (c : Z) (r : Readiness) :
  emits closingRules (stepAccessoryCap c r).
Proof. unfold stepAccessoryCap. em. Qed.

Lemma emits_stepDayPlan (dp : option DayPlan) (t : string) (wd : option WeekDef) (a : bool) :
  emits closingRules (stepDayPlan dp t wd a).
Proof. unfold stepDayPlan. cbv zeta. em. Qed.

Lemma ends_bind_anyof {A : Type} (a : list string) (g : list Stretch) (m : M A)
    (k : A -> M Recommendation) :
  emits a m -> (forall x, ends (AnyOf a :: g) (k x)) -> ends (AnyOf a :: g) (bind m k).
Proof.
  intros Hm Hk env st. unfold bind.
  destruct (Hm env st) as (l1 & E1 & F1).
  destruct (m env st) as [x st']. cbn [snd] in E1.
  destruct (Hk x env st') as (l2 & E2 & (l2a & l2b & -> & F2 & G)).
  exists (l1 ++ l2a ++ l2b)%list. rewrite E2, E1, <- app_assoc.
  split; [reflexivity |].
  exists (l1 ++ l2a)%list, l2b. rewrite <- app_assoc.
  split; [reflexivity | split; [apply Forall_app; split; assumption | exact G]].
Qed.

Lemma ends_skip (a : list string) (g : list Stretch) (m : M Recommendation) :
  ends g m -> ends (AnyOf a :: g) m.
Proof.
  intros H env st. destruct (H env st) as (l & E & G).
  exists l. split; [exact E |]. exists [], l. split; [reflexivity | split; [constructor | exact G]].
Qed.

Lemma ends_bind_one (g : list Stretch) (rid : string) (b af : Obj) (w : JsVal)
    (k : unit -> M Recommendation) :
  (forall x, ends g (k x)) -> ends (One rid :: g) (bind (trace rid b af w) k).
Proof.
  intros Hk env st. unfold bind.
  destruct (trace rid b af w env st) as [x st'] eqn:Et.
  assert (E1 : map ruleId (traces st') = (map ruleId (traces st) ++ [rid])%list).
  { revert Et. cbn. intros [= _ <-]. cbn. rewrite map_app. reflexivity. }
  destruct (Hk x env st') as (l2 & E2 & G).
  exists (rid :: l2). rewrite E2, E1, <- app_assoc.
  split; [reflexivity |]. exists l2. split; [reflexivity | exact G].
Qed.

Lemma mapM_saveDecisionTrace_rules (ts : list Trace) (env : Env) (st : RunState) :
  map ruleId (fst (mapM saveDecisionTrace ts env st)) = map ruleId ts.
Proof.
  revert st. induction ts as [|t ts IH]; intro st; [reflexivity |].
  cbn [mapM]. run_bind. run_bind. unfold ret. cbn [fst map].
  specialize (IH s). rewrite E0 in IH. cbn [fst] in IH. rewrite IH. f_equal.
  revert E. unfold saveDecisionTrace.
  destruct (String.eqb (traceId t) ""); cbn; intros [= <- _]; reflexivity.
Qed.

(** X30.  The decision trace of every run of recommend(), dry or saved, has
    one shape: optional MESOCYCLE_CREATED / MESOCYCLE_NEW_CYCLE entries,
    then MESOCYCLE_PHASE, optional return-from-break entries, then
    E1RM_COMPUTED immediately followed by DELTA_PCT_RAW, optional
    VARA_TREND_CORRECTION / BREAK_MODIFIER / CAP_* entries, then
    TARGET_LOAD, and after it only VARA_FEEDBACK, ACCESSORY_CAP_ACTIVE or
    DAY_PLAN_GENERATED. *)
Theorem recommend_trace_shape :
  forall (env : Env) (db : Store) (o : Options),
    follows traceShape (map ruleId (rec_traces (fst (runRecommend env db o)))).
Proof.
  intros env db o.
  assert (H : ends traceShape (recommend db o)).
  { unfold recommend, traceShape. cbv zeta.
    apply ends_bind_anyof; [apply emits_quiet; reflexivity | intro today].
    apply ends_bind_anyof; [apply emits_stepGetMesocycle | intro m].
    apply ends_bind_anyof; [apply emits_stepWeek | intro mw].
    apply ends_skip. apply ends_bind_one. intros _.
    apply ends_bind_anyof; [apply emits_stepBreak | intro mwd].
    apply ends_skip. apply ends_bind_one. intros _.
    apply ends_bind_one. intros _.
    apply ends_bind_anyof; [em | intro d1].
    apply ends_bind_anyof; [em | intro d2].
    apply ends_bind_anyof; [apply emits_stepReadinessCap | intro capped].
    apply ends_skip. apply ends_bind_one. intros _.
    apply ends_bind_anyof; [em | intros _].
    apply ends_bind_anyof; [apply emits_stepAccessoryCap | intro active].
    apply ends_bind_anyof; [apply emits_stepDayPlan | intro plan].
    intros e s.
    assert (Hid : forall id (ts : list Trace), map ruleId (map (setRecId id) ts) = map ruleId ts).
    { intros id ts. rewrite map_map. reflexivity. }
    exists []. rewrite app_nil_r.
    split; [| exists [], []; split; [reflexivity | split; [constructor | reflexivity]]].
    destruct (dryRun o).
    - cbn. apply Hid.
    - repeat run_bind.
      match goal with E : bind _ _ _ _ = _ |- _ => revert E end.
      repeat run_bind. intro Elast. unfold ret. cbn [fst rec_traces].
      repeat match goal with
             | E : uid _ _ = _ |- _ => unfold uid in E; inversion E; subst; clear E
             | E : getTraces _ _ = _ |- _ => unfold getTraces in E; inversion E; subst; clear E
             | E : setTraces _ _ _ = _ |- _ =>
               unfold setTraces in E; inversion E; subst; clear E
             | E : nowISO _ _ = _ |- _ => unfold nowISO in E; inversion E; subst; clear E
             end.
      match goal with
      | E : saveRecommendation ?sr _ ?s0 = _ |- _ =>
        destruct (saveRecommendation_run sr e s0) as (S1 & _);
          rewrite E in S1; cbn [snd] in S1
      end.
      match goal with
      | E : mapM saveDecisionTrace ?l _ ?s0 = _ |- _ =>
        pose proof (mapM_saveDecisionTrace_rules l e s0) as M1;
          rewrite E in M1; cbn [fst] in M1
      end.
      cbn [traces] in *. rewrite M1, S1. apply Hid. }
  unfold runRecommend. destruct (H env initialState) as (l & E & G).
  destruct (recommend db o env initialState) as [r st']. cbn [fst] in *.
  cbn in E. rewrite E. exact G.
Qed.
